(** * Optimizi: order synchronisation, stock ledger and notification dedup

    A shallow embedding of the services that implement the master-order /
    sub-order protocol of the Optimizi storefront and supplier dashboard:

    - [ProductService]            client [productService] (listing, stock
                                  decrement) and the supplier-side
                                  [ProductService] class (same decrement code);
    - [MasterOrderService]        [masterOrderService.ts];
    - [SupplierEmailService]      the dispatcher used by the change-feed
                                  listener;
    - [SupplierNotificationService] [supplierNotificationService.ts];
    - [OrderNotificationTrigger]  [orderNotificationTrigger.ts].

    Firestore collections keyed by document id are finite maps; collections
    that are only appended to through [addDoc] are lists in insertion order.
    Asynchronous code is embedded in the order in which its awaits complete
    when no other task interleaves.  Transport failures of the store are not
    part of the model: a read of a present or absent document always answers. *)

From stdpp Require Import gmap strings list fin_maps pretty sorting.
From Stdlib Require Import Ascii.

Local Open Scope Z_scope.

(** ** JavaScript values and coercions *)

Module JS.

(** Numbers.  Stock counts and ordered quantities are integers in the data
    model, so a finite number is an integer; [NaN] is what [Number(...)]
    answers for a value that does not denote a number. *)
Inductive number := NaN | Num (z : Z).

(** The values a Firestore field read by the services can hold. *)
Inductive jsval :=
| VUndefined
| VNull
| VBool (b : bool)
| VNum (n : number)
| VStr (s : string).

#[global] Instance number_eq_dec : EqDecision number.
Proof. solve_decision. Defined.

#[global] Instance jsval_eq_dec : EqDecision jsval.
Proof. solve_decision. Defined.

(** The runtime's [StringToNumber] (the conversion [Number] applies to a
    string) is an interface of the host, not code of the repository. *)
Class JSRuntime := StringToNumber : string → number.

(** [ToBoolean]. *)
Definition truthy (v : jsval) : bool :=
  match v with
  | VUndefined | VNull => false
  | VBool b => b
  | VNum NaN => false
  | VNum (Num z) => negb (z =? 0)
  | VStr s => negb (String.eqb s "")
  end.

(** [a || b] on values. *)
Definition or_else (a b : jsval) : jsval := if truthy a then a else b.

(** [Number(v)]. *)
Definition Number `{JSRuntime} (v : jsval) : number :=
  match v with
  | VUndefined => NaN
  | VNull => Num 0
  | VBool true => Num 1
  | VBool false => Num 0
  | VNum n => n
  | VStr s => StringToNumber s
  end.

(** [n || 0] on a number: [NaN] and [0] are falsy. *)
Definition or_zero (n : number) : Z :=
  match n with NaN => 0 | Num z => z end.

(** [n > k]: any comparison with [NaN] is false. *)
Definition gt (n : number) (k : Z) : bool :=
  match n with NaN => false | Num z => k <? z end.

(** [s.split(sep)] for a one-character separator. *)
Fixpoint split (sep : ascii) (s : string) : list string :=
  match s with
  | EmptyString => [EmptyString]
  | String c r =>
      if Ascii.eqb c sep then EmptyString :: split sep r
      else match split sep r with
           | [] => [String c EmptyString]
           | h :: t => String c h :: t
           end
  end.

(** [s.toUpperCase()] and [s.slice(-k)].  Their answers depend on the
    Unicode case tables and on the UTF-16 code units of the string: they are
    the runtime's. *)
Class JSStrings := {
  toUpperCase : string → string;
  slice_last : nat → string → string
}.

(** Own and inherited members of an object literal used as a
    [Record<string, T>] table. *)
Inductive member (A : Type) := Own (a : A) | Inherited | Missing.
Arguments Own {A} a.
Arguments Inherited {A}.
Arguments Missing {A}.

Definition objectPrototypeKeys : list string :=
  [ "constructor"; "__defineGetter__"; "__defineSetter__"; "hasOwnProperty";
    "__lookupGetter__"; "__lookupSetter__"; "isPrototypeOf";
    "propertyIsEnumerable"; "toString"; "valueOf"; "__proto__"; "toLocaleString" ].

Fixpoint ownMember {A} (table : list (string * A)) (key : string) : option A :=
  match table with
  | [] => None
  | (k, v) :: rest => if String.eqb k key then Some v else ownMember rest key
  end.

(** [table[key]]. *)
Definition getMember {A} (table : list (string * A)) (key : string) : member A :=
  match ownMember table key with
  | Some v => Own v
  | None => if bool_decide (key ∈ objectPrototypeKeys) then Inherited else Missing
  end.

(** [table[key] || fallback] for a table of strings; [None] when the
    member found is a function of [Object.prototype], not a string. *)
Definition orDefault (m : member string) (fallback : string) : option string :=
  match m with
  | Own s => Some (if String.eqb s "" then fallback else s)
  | Inherited => None
  | Missing => Some fallback
  end.

(** Truthiness of a string. *)
Definition nonEmpty (s : string) : bool := negb (String.eqb s "").

End JS.

Import JS.

(** Timestamps are the epoch milliseconds that the stored ISO string
    denotes; [now] stands for [new Date().toISOString()] at the call. *)
Abbreviation timestamp := Z.

(** ** Stock ledger and product listing: [productService] *)

Module ProductService.

(** Data of a document of the ['products'] collection, restricted to the
    fields the queries, the filter and the decrement touch; the remaining
    catalogue fields are copied field by field the same way. *)
Record ProductDoc := {
  doc_name : string;
  doc_categoryId : string;
  doc_FournisseurId : string;
  doc_feature : jsval;
  doc_stockQuantity : jsval;
  doc_updatedAt : timestamp
}.

(** The [Product] objects the listing operations return. *)
Record Product := {
  id : string;
  name : string;
  categoryId : string;
  FournisseurId : string;
  feature : bool;
  stockQuantity : number;
  updatedAt : timestamp;
  fournisseurName : string
}.

Record StockItem := { productId : string; quantity : Z }.

Record StockResult := { success : bool; errors : list string }.

Section WithRuntime.
Context {runtime : JSRuntime}.

(** The object pushed for each document inside [querySnapshot.forEach]. *)
Definition toProduct (entry : string * ProductDoc) : Product :=
  let data := entry.2 in
  {| id := entry.1;
     name := doc_name data;
     categoryId := doc_categoryId data;
     FournisseurId := doc_FournisseurId data;
     feature := truthy (or_else (doc_feature data) (VBool false));
     stockQuantity := Number (or_else (doc_stockQuantity data) (VNum (Num 0)));
     updatedAt := doc_updatedAt data;
     fournisseurName := "" |}.

(** [p => p.stockQuantity > 0]. *)
Definition inStock (p : Product) : bool := gt (stockQuantity p) 0.

Definition withFournisseurName (n : string) (p : Product) : Product :=
  {| id := id p; name := name p; categoryId := categoryId p;
     FournisseurId := FournisseurId p; feature := feature p;
     stockQuantity := stockQuantity p; updatedAt := updatedAt p;
     fournisseurName := n |}.

(** [fournisseurMap.get(id) || 'Fournisseur inconnu'] over
    [new Map(fournisseurs.map(f => [f.id, f.name]))]: a later entry
    replaces an earlier one with the same id. *)
Definition fournisseurNameOf (fournisseurs : list (string * string)) (fid : string) : string :=
  match (list_to_map (reverse fournisseurs) : gmap string string) !! fid with
  | Some n => if String.eqb n "" then "Fournisseur inconnu" else n
  | None => "Fournisseur inconnu"
  end.

(** [fournisseurs] is what [fournisseurService.getFournisseurs()]
    answered, [None] when it raised (the [catch] branch). *)
Definition enrichProductsWithFournisseurNames
    (fournisseurs : option (list (string * string))) (products : list Product) : list Product :=
  match fournisseurs with
  | Some fs => (λ p, withFournisseurName (fournisseurNameOf fs (FournisseurId p)) p) <$> products
  | None => withFournisseurName "Fournisseur inconnu" <$> products
  end.

Definition listing (fournisseurs : option (list (string * string)))
    (docs : list (string * ProductDoc)) : list Product :=
  let products := toProduct <$> docs in
  let inStockProducts := List.filter inStock products in
  enrichProductsWithFournisseurNames fournisseurs inStockProducts.

Definition getProducts fournisseurs (db : gmap string ProductDoc) : list Product :=
  listing fournisseurs (map_to_list db).

(** [where('categoryId', '==', categoryId)]. *)
Definition getProductsByCategory fournisseurs (cat : string) (db : gmap string ProductDoc)
    : list Product :=
  listing fournisseurs
    (List.filter (λ e, String.eqb (doc_categoryId e.2) cat) (map_to_list db)).

(** [where('feature', '==', true)]. *)
Definition getFeaturedProducts fournisseurs (db : gmap string ProductDoc) : list Product :=
  listing fournisseurs
    (List.filter (λ e, bool_decide (doc_feature e.2 = VBool true)) (map_to_list db)).

(** [Number(productData.stockQuantity) || 0]. *)
Definition currentStockOf (data : ProductDoc) : Z :=
  or_zero (Number (doc_stockQuantity data)).

(** [updateDoc(ref, { stockQuantity: newStock, updatedAt })]. *)
Definition writeStock (now : timestamp) (newStock : Z) (data : ProductDoc) : ProductDoc :=
  {| doc_name := doc_name data;
     doc_categoryId := doc_categoryId data;
     doc_FournisseurId := doc_FournisseurId data;
     doc_feature := doc_feature data;
     doc_stockQuantity := VNum (Num newStock);
     doc_updatedAt := now |}.

(** [decrementProductStock(productId, quantity)]. *)
Definition decrementProductStock (now : timestamp) (pid : string) (qty : Z)
    (db : gmap string ProductDoc) : bool * gmap string ProductDoc :=
  match db !! pid with
  | None => (false, db)
  | Some productData =>
      let currentStock := currentStockOf productData in
      if currentStock <? qty then (false, db)
      else
        let newStock := currentStock - qty in
        (true, <[pid := writeStock now newStock productData]> db)
  end.

(** The body of the [items.map(async (item) => ...)] callback: the error
    it pushes, or the check [{ref, newStock}] it returns.  The reads are
    taken to answer in the order of the lines, which fixes the order of the
    pushed errors. *)
Definition checkItem (db : gmap string ProductDoc) (item : StockItem) : string + (string * Z) :=
  match db !! productId item with
  | None => inl ("Product " +:+ productId item +:+ " not found")
  | Some productData =>
      let currentStock := currentStockOf productData in
      if currentStock <? quantity item
      then inl ("Insufficient stock for " +:+ productId item)
      else inr (productId item, currentStock - quantity item)
  end.

Definition pushedError (c : string + (string * Z)) : option string :=
  match c with inl e => Some e | inr _ => None end.

(** [batch.update(check.ref, {...})], applied at commit in call order. *)
Definition batchUpdate (now : timestamp) (db : gmap string ProductDoc)
    (c : string + (string * Z)) : gmap string ProductDoc :=
  match c with
  | inl _ => db
  | inr (pid, newStock) => alter (writeStock now newStock) pid db
  end.

(** [decrementMultipleProductsStock(items)]: all lines are checked against
    the collection as read, then either the errors are returned or the batch
    is committed.  Every document the batch updates was just read, so the
    commit does not fail. *)
Definition decrementMultipleProductsStock (now : timestamp) (items : list StockItem)
    (db : gmap string ProductDoc) : StockResult * gmap string ProductDoc :=
  let productChecks := checkItem db <$> items in
  let errs := omap pushedError productChecks in
  if (0 <? length errs)%nat then ({| success := false; errors := errs |}, db)
  else ({| success := true; errors := [] |}, foldl (batchUpdate now) db productChecks).

(** [getProductById(id)]: the product of the document, enriched like a
    listing of one; no stock filter is applied. *)
Definition getProductById fournisseurs (pid : string) (db : gmap string ProductDoc)
    : option Product :=
  match db !! pid with
  | Some data => head (enrichProductsWithFournisseurNames fournisseurs [toProduct (pid, data)])
  | None => None
  end.

(** The supplier-side [ProductService.createProduct(data)]: [newId] is the
    id [addDoc] assigns to the new document; the stock is stored as
    [Number(data.stockQuantity || 0)] and the time stamps as the time of the
    call. *)
Definition createProduct (now : timestamp) (newId : string) (data : ProductDoc)
    (db : gmap string ProductDoc) : string * gmap string ProductDoc :=
  (newId,
   <[newId := {| doc_name := doc_name data;
                 doc_categoryId := doc_categoryId data;
                 doc_FournisseurId := doc_FournisseurId data;
                 doc_feature := doc_feature data;
                 doc_stockQuantity :=
                   VNum (Number (or_else (doc_stockQuantity data) (VNum (Num 0))));
                 doc_updatedAt := now |}]> db).

End WithRuntime.

End ProductService.

(** ** Sub-order store and master-order synchroniser: [masterOrderService] *)

Module MasterOrderService.

Import ProductService.

Record OrderItem := {
  item_productId : string;
  item_productName : string;
  item_quantity : Z
}.

(** Data of a ['subOrders'] document. *)
Record SubOrder := {
  so_masterOrderId : string;
  so_fournisseurId : string;
  so_fournisseurName : string;
  so_userId : string;
  so_items : list OrderItem;
  so_total : Z;
  so_status : string;
  so_paymentStatus : string;
  so_paymentMethod : string;
  so_createdAt : timestamp;
  so_updatedAt : timestamp;
  so_confirmedAt : option timestamp;
  so_deliveredAt : option timestamp
}.

(** Data of a ['masterOrders'] document. *)
Record MasterOrder := {
  mo_userEmail : string;
  mo_userName : string;
  mo_status : string;
  mo_paymentStatus : string;
  mo_updatedAt : timestamp;
  mo_confirmedAt : option timestamp;
  mo_deliveredAt : option timestamp
}.

Record Store := {
  products : gmap string ProductDoc;
  subOrders : gmap string SubOrder;
  masterOrders : gmap string MasterOrder
}.

(** How a [Promise<void>] settles. *)
Inductive outcome := Returned | Thrown (message : string).

(** Calls that leave the three collections: the stock ledger, the
    [EnhancedNotificationService] (its exceptions are caught at the call)
    and the POST to [backendUrl/send-email]. *)
Inductive Event :=
| StockDecrement (items : list StockItem) (result : StockResult)
| OrderNotification (fournisseurId fournisseurName : string) (subType : option string)
| PaymentNotification (fournisseurId fournisseurName : string) (subType : option string)
| CustomerEmail (to_email to_name subject : string).

(** [import.meta.env.VITE_EMAIL_BACKEND_URL || '']. *)
Class EmailBackend := backendUrl : string.

Definition getOrderNotificationSubType (status : string) : option string :=
  orDefault
    (getMember [ ("confirmed", "order_confirmed"); ("preparing", "order_preparing");
                 ("out_for_delivery", "order_shipped"); ("delivered", "order_delivered");
                 ("cancelled", "order_cancelled") ] status)
    "order_status_changed".

Definition getPaymentNotificationSubType (paymentStatus : string) : option string :=
  orDefault
    (getMember [ ("paid", "payment_received"); ("failed", "payment_failed");
                 ("pending", "payment_pending"); ("refunded", "refund_processed") ] paymentStatus)
    "payment_status_changed".

(** [subOrders.sort((a, b) => dateA - dateB)]: a stable sort on
    [createdAt]. *)
Fixpoint insertByCreatedAt (x : string * SubOrder) (l : list (string * SubOrder))
    : list (string * SubOrder) :=
  match l with
  | [] => [x]
  | y :: r =>
      if so_createdAt x.2 <=? so_createdAt y.2 then x :: y :: r
      else y :: insertByCreatedAt x r
  end.

Definition sortByCreatedAt (l : list (string * SubOrder)) : list (string * SubOrder) :=
  foldr insertByCreatedAt [] l.

Definition getSubOrdersByMasterOrderId (masterOrderId : string) (σ : Store)
    : list (string * SubOrder) :=
  sortByCreatedAt
    (List.filter (λ e, String.eqb (so_masterOrderId e.2) masterOrderId)
                 (map_to_list (subOrders σ))).

(** [arr.every(x => x === arr[0])] on a non-empty array of strings. *)
Definition allSame (first : string) (l : list string) : bool :=
  forallb (λ s, String.eqb s first) l.

(** The [updateData] object handed to [updateDoc(masterOrderRef, ...)]. *)
Record MasterUpdate := {
  mu_updatedAt : timestamp;
  mu_status : option string;
  mu_confirmedAt : option timestamp;
  mu_deliveredAt : option timestamp;
  mu_paymentStatus : option string
}.

Definition applyMasterUpdate (u : MasterUpdate) (m : MasterOrder) : MasterOrder :=
  {| mo_userEmail := mo_userEmail m;
     mo_userName := mo_userName m;
     mo_status := default (mo_status m) (mu_status u);
     mo_paymentStatus := default (mo_paymentStatus m) (mu_paymentStatus u);
     mo_updatedAt := mu_updatedAt u;
     mo_confirmedAt := match mu_confirmedAt u with Some t => Some t | None => mo_confirmedAt m end;
     mo_deliveredAt := match mu_deliveredAt u with Some t => Some t | None => mo_deliveredAt m end |}.

Definition setMasterOrders (σ : Store) (ms : gmap string MasterOrder) : Store :=
  {| products := products σ; subOrders := subOrders σ; masterOrders := ms |}.

Definition setSubOrders (σ : Store) (ss : gmap string SubOrder) : Store :=
  {| products := products σ; subOrders := ss; masterOrders := masterOrders σ |}.

Definition setProducts (σ : Store) (ps : gmap string ProductDoc) : Store :=
  {| products := ps; subOrders := subOrders σ; masterOrders := masterOrders σ |}.

(** The parts pushed to [subjectParts], joined with [' | ']. *)
Definition subjectParts (u : MasterUpdate) : string :=
  match mu_status u, mu_paymentStatus u with
  | Some s, Some p =>
      if nonEmpty s then
        if nonEmpty p then "Statut: " +:+ s +:+ " | " +:+ "Paiement: " +:+ p
        else "Statut: " +:+ s
      else if nonEmpty p then "Paiement: " +:+ p else ""
  | Some s, None => if nonEmpty s then "Statut: " +:+ s else ""
  | None, Some p => if nonEmpty p then "Paiement: " +:+ p else ""
  | None, None => ""
  end.

Definition customerEmailSubject {strings : JSStrings} (masterOrderId : string)
    (u : MasterUpdate) : string :=
  let orderNumber := toUpperCase (slice_last 8 masterOrderId) in
  let parts := subjectParts u in
  "Mise à jour commande #" +:+ orderNumber +:+ " — " +:+
    (if nonEmpty parts then parts else "Mise à jour").

Section WithEnvironment.
Context {runtime : JSRuntime} {strings : JSStrings} {backend : EmailBackend}.

(** The best-effort customer e-mail sent after the master order was
    updated; nothing it does is raised to the caller. *)
Definition customerNotification (masterOrderId : string) (u : MasterUpdate)
    (m : MasterOrder) : list Event :=
  if nonEmpty (mo_userEmail m) then
    if nonEmpty backendUrl
    then [CustomerEmail (mo_userEmail m) (mo_userName m) (customerEmailSubject masterOrderId u)]
    else []
  else [].

(** [syncMasterOrderStatus(masterOrderId)].  [updateDoc] fails for a
    master order document that does not exist; the [catch] then raises
    ["Failed to sync master order status"]. *)
Definition syncMasterOrderStatus (now : timestamp) (masterOrderId : string) (σ : Store)
    : outcome * Store * list Event :=
  match getSubOrdersByMasterOrderId masterOrderId σ with
  | [] => (Returned, σ, [])
  | (first :: _) as subs =>
      let statuses := (λ e, so_status e.2) <$> subs in
      let paymentStatuses := (λ e, so_paymentStatus e.2) <$> subs in
      let allStatusesSame := allSame (so_status first.2) statuses in
      let allPaymentStatusesSame := allSame (so_paymentStatus first.2) paymentStatuses in
      if allStatusesSame || allPaymentStatusesSame then
        let updateData :=
          {| mu_updatedAt := now;
             mu_status := if allStatusesSame then Some (so_status first.2) else None;
             mu_confirmedAt :=
               if allStatusesSame && String.eqb (so_status first.2) "confirmed"
               then Some now else None;
             mu_deliveredAt :=
               if allStatusesSame && negb (String.eqb (so_status first.2) "confirmed")
                  && String.eqb (so_status first.2) "delivered"
               then Some now else None;
             mu_paymentStatus :=
               if allPaymentStatusesSame then Some (so_paymentStatus first.2) else None |} in
        match masterOrders σ !! masterOrderId with
        | None => (Thrown "Failed to sync master order status", σ, [])
        | Some m =>
            let m' := applyMasterUpdate updateData m in
            (Returned,
             setMasterOrders σ (<[masterOrderId := m']> (masterOrders σ)),
             customerNotification masterOrderId updateData m')
        end
      else (Returned, σ, [])
  end.

(** The [updateData] object handed to [updateDoc(subOrderRef, ...)],
    applied to the stored document. *)
Definition applySubOrderUpdate (now : timestamp) (status : string)
    (paymentStatus : option string) (s : SubOrder) : SubOrder :=
  {| so_masterOrderId := so_masterOrderId s;
     so_fournisseurId := so_fournisseurId s;
     so_fournisseurName := so_fournisseurName s;
     so_userId := so_userId s;
     so_items := so_items s;
     so_total := so_total s;
     so_status := status;
     so_paymentStatus :=
       match paymentStatus with
       | Some p => if nonEmpty p then p else so_paymentStatus s
       | None => so_paymentStatus s
       end;
     so_paymentMethod := so_paymentMethod s;
     so_createdAt := so_createdAt s;
     so_updatedAt := now;
     so_confirmedAt := if String.eqb status "confirmed" then Some now else so_confirmedAt s;
     so_deliveredAt :=
       if String.eqb status "confirmed" then so_deliveredAt s
       else if String.eqb status "delivered" then Some now else so_deliveredAt s |}.

Definition stockItemsOf (s : SubOrder) : list StockItem :=
  (λ item, {| productId := item_productId item; quantity := item_quantity item |})
    <$> so_items s.

Definition supplierNameOr (s : SubOrder) : string :=
  if nonEmpty (so_fournisseurName s) then so_fournisseurName s else "Supplier".

(** [updateSubOrderStatus(subOrderId, status, paymentStatus?)].  Whatever
    is raised inside, ['SubOrder not found'] included, is caught, logged and
    raised again as ["Failed to update order status"]; what was written
    before stays written. *)
Definition updateSubOrderStatus (now : timestamp) (subOrderId status : string)
    (paymentStatus : option string) (σ : Store) : outcome * Store * list Event :=
  match subOrders σ !! subOrderId with
  | None => (Thrown "Failed to update order status", σ, [])
  | Some currentSubOrder =>
      let previousStatus := so_status currentSubOrder in
      let shouldDecrementStock :=
        String.eqb status "out_for_delivery"
        && negb (String.eqb previousStatus "out_for_delivery") in
      let '(σ1, stockEvents) :=
        if shouldDecrementStock then
          let stockItems := stockItemsOf currentSubOrder in
          let '(stockResult, ps) :=
            decrementMultipleProductsStock now stockItems (products σ) in
          (setProducts σ ps, [StockDecrement stockItems stockResult])
        else (σ, []) in
      let σ2 :=
        setSubOrders σ1
          (<[subOrderId := applySubOrderUpdate now status paymentStatus currentSubOrder]>
             (subOrders σ1)) in
      let statusEvents :=
        if negb (String.eqb status (so_status currentSubOrder)) then
          [OrderNotification (so_fournisseurId currentSubOrder)
             (supplierNameOr currentSubOrder) (getOrderNotificationSubType status)]
        else [] in
      let paymentEvents :=
        match paymentStatus with
        | Some p =>
            if nonEmpty p && negb (String.eqb p (so_paymentStatus currentSubOrder)) then
              [PaymentNotification (so_fournisseurId currentSubOrder)
                 (supplierNameOr currentSubOrder) (getPaymentNotificationSubType p)]
            else []
        | None => []
        end in
      let '(r, σ3, syncEvents) :=
        syncMasterOrderStatus now (so_masterOrderId currentSubOrder) σ2 in
      let r' := match r with
                | Returned => Returned
                | Thrown _ => Thrown "Failed to update order status"
                end in
      (r', σ3, stockEvents ++ statusEvents ++ paymentEvents ++ syncEvents)
  end.

End WithEnvironment.

End MasterOrderService.

(** ** Notification data: orders, suppliers and the append-only collections *)

Module Notifications.

(** A sub-order as the notification services read it:
    [{ id: change.doc.id, ...change.doc.data() } as Order].  Amounts are in
    hundredths of a dinar. *)
Record Order := {
  o_id : string;
  o_fournisseurId : string;
  o_fournisseurName : string;
  o_userName : string;
  o_userEmail : string;
  o_total : Z;
  o_itemCount : nat;
  o_status : string;
  o_paymentStatus : string
}.

(** Data of a ['Fournisseurs'] document. *)
Record FournisseurDoc := { f_ownerId : string; f_name : string; f_address : string }.

(** Data of a ['users'] document. *)
Record UserDoc := { u_uid : string; u_email : string; u_fullName : string }.

Record SupplierInfo := {
  si_email : string;
  si_name : string;
  si_businessName : string;
  si_address : string
}.

Inductive EventType := new_order | status_update | manual_trigger.
Inductive NotificationStatus := success | failed | error.

#[global] Instance EventType_eq_dec : EqDecision EventType.
Proof. solve_decision. Defined.

(** A ['notificationLogs'] document. *)
Record NotificationLogEntry := {
  log_orderId : string;
  log_fournisseurId : string;
  log_orderStatus : string;
  log_paymentStatus : string;
  log_eventType : EventType;
  log_notificationStatus : NotificationStatus;
  log_timestamp : timestamp
}.

(** A ['processedOrderStates'] document. *)
Record ProcessedOrderState := {
  pos_orderId : string;
  pos_status : string;
  pos_paymentStatus : string;
  pos_fournisseurId : string;
  pos_processedAt : timestamp
}.

(** A ['notifications'] document (the in-app record); the message text is
    left out. *)
Record InAppNotification := {
  n_title : string;
  n_orderId : string;
  n_fournisseurId : string;
  n_createdAt : timestamp
}.

(** A ['supplierNotificationLogs'] document. *)
Record SupplierLogEntry := {
  sl_orderId : string;
  sl_fournisseurId : string;
  sl_supplierEmail : string;
  sl_notificationStatus : NotificationStatus;
  sl_timestamp : timestamp
}.

(** An entry of [ORDER_STATUS_TEMPLATES]; the long [message] text is left
    out. *)
Record OrderEmailTemplate := {
  tpl_type : string;
  tpl_subject : string;
  tpl_htmlTemplate : string
}.

(** A request POSTed to [backendUrl/send-supplier-email]: one mail-send
    invocation.  [TemplateMail] is rendered from a template by placeholder
    substitution (SupplierEmailService); [SupplierMail] carries the subject
    computed by [generateEmailSubject] (SupplierNotificationService), [None]
    when that value is not a string. *)
Inductive Mail :=
| TemplateMail (to_email to_name : string) (template : OrderEmailTemplate) (order : Order)
| SupplierMail (to_email to_name : string) (subject : option string) (order : Order).

(** Whether the relay accepts a request: the response is [ok] and the
    [fetch] did not fail. *)
Class MailRelay := relayAccepts : Mail → bool.

Record World := {
  fournisseurs : gmap string FournisseurDoc;
  users : gmap string UserDoc;
  notificationLogs : list NotificationLogEntry;
  processedOrderStates : list ProcessedOrderState;
  notifications : list InAppNotification;
  supplierNotificationLogs : list SupplierLogEntry;
  outbox : list Mail
}.

Definition addNotificationLog (e : NotificationLogEntry) (w : World) : World :=
  {| fournisseurs := fournisseurs w; users := users w;
     notificationLogs := notificationLogs w ++ [e];
     processedOrderStates := processedOrderStates w;
     notifications := notifications w;
     supplierNotificationLogs := supplierNotificationLogs w;
     outbox := outbox w |}.

Definition addProcessedOrderState (e : ProcessedOrderState) (w : World) : World :=
  {| fournisseurs := fournisseurs w; users := users w;
     notificationLogs := notificationLogs w;
     processedOrderStates := processedOrderStates w ++ [e];
     notifications := notifications w;
     supplierNotificationLogs := supplierNotificationLogs w;
     outbox := outbox w |}.

Definition addNotification (e : InAppNotification) (w : World) : World :=
  {| fournisseurs := fournisseurs w; users := users w;
     notificationLogs := notificationLogs w;
     processedOrderStates := processedOrderStates w;
     notifications := notifications w ++ [e];
     supplierNotificationLogs := supplierNotificationLogs w;
     outbox := outbox w |}.

Definition addSupplierLog (e : SupplierLogEntry) (w : World) : World :=
  {| fournisseurs := fournisseurs w; users := users w;
     notificationLogs := notificationLogs w;
     processedOrderStates := processedOrderStates w;
     notifications := notifications w;
     supplierNotificationLogs := supplierNotificationLogs w ++ [e];
     outbox := outbox w |}.

Definition postMail (m : Mail) (w : World) : World :=
  {| fournisseurs := fournisseurs w; users := users w;
     notificationLogs := notificationLogs w;
     processedOrderStates := processedOrderStates w;
     notifications := notifications w;
     supplierNotificationLogs := supplierNotificationLogs w;
     outbox := outbox w ++ [m] |}.

(** [getSupplierInfo], the same in both services: the supplier document,
    then the first user whose [uid] is its [ownerId]. *)
Definition getSupplierInfo (fournisseurId : string) (w : World) : option SupplierInfo :=
  match fournisseurs w !! fournisseurId with
  | None => None
  | Some supplierData =>
      match List.filter (λ e : string * UserDoc, String.eqb (u_uid e.2) (f_ownerId supplierData))
                        (map_to_list (users w)) with
      | [] => None
      | (_, userData) :: _ =>
          Some {| si_email := u_email userData;
                  si_name := if nonEmpty (u_fullName userData) then u_fullName userData
                             else "Supplier";
                  si_businessName := if nonEmpty (f_name supplierData) then f_name supplierData
                                     else "Business";
                  si_address := if nonEmpty (f_address supplierData) then f_address supplierData
                                else "Address not provided" |}
      end
  end.

(** [order.id.slice(-8).toUpperCase()]. *)
Definition orderNumberOf {strings : JSStrings} (order : Order) : string :=
  toUpperCase (slice_last 8 (o_id order)).

(** [(amount || 0).toFixed(2)] for an amount in hundredths. *)
Definition toFixed2 (amount : Z) : string :=
  let a := Z.abs amount in
  let cents := a mod 100 in
  (if amount <? 0 then "-" else "") +:+ pretty (a / 100) +:+ "." +:+
  (if cents <? 10 then "0" else "") +:+ pretty cents.

End Notifications.

(** ** The dispatcher of the change-feed listener: [SupplierEmailService] *)

Module SupplierEmailService.

Import Notifications.

Definition ORDER_STATUS_TEMPLATES : list (string * OrderEmailTemplate) :=
  [ ("pending",
     {| tpl_type := "new_order";
        tpl_subject := "🆕 NOUVELLE COMMANDE REÇUE - #{orderNumber} - TND{total}";
        tpl_htmlTemplate := "new_order" |});
    ("confirmed",
     {| tpl_type := "order_confirmed";
        tpl_subject := "✅ COMMANDE CONFIRMÉE - #{orderNumber}";
        tpl_htmlTemplate := "order_confirmed" |});
    ("preparing",
     {| tpl_type := "order_preparing";
        tpl_subject := "👨‍🍳 PRÉPARATION EN COURS - #{orderNumber}";
        tpl_htmlTemplate := "order_preparing" |});
    ("out_for_delivery",
     {| tpl_type := "order_shipped";
        tpl_subject := "🚚 EN COURS DE LIVRAISON - #{orderNumber}";
        tpl_htmlTemplate := "order_shipped" |});
    ("delivered",
     {| tpl_type := "order_delivered";
        tpl_subject := "🎉 COMMANDE LIVRÉE - #{orderNumber}";
        tpl_htmlTemplate := "order_delivered" |});
    ("cancelled",
     {| tpl_type := "order_cancelled";
        tpl_subject := "❌ COMMANDE ANNULÉE - #{orderNumber}";
        tpl_htmlTemplate := "order_cancelled" |}) ].

Section WithRelay.
Context {relay : MailRelay}.

(** [sendOrderNotification(order)].  Its [logNotification] only writes to
    the console.  When [order.status] names a member of [Object.prototype]
    the value found is not a template: rendering it raises inside the [try]
    and the [catch] answers [false] before anything is sent.  For a template
    and a well-typed order the rendering is total string substitution. *)
Definition sendOrderNotification (order : Order) (w : World) : bool * World :=
  match getMember ORDER_STATUS_TEMPLATES (o_status order) with
  | Missing => (false, w)
  | Inherited => (false, w)
  | Own template =>
      match getSupplierInfo (o_fournisseurId order) w with
      | None => (false, w)
      | Some supplierInfo =>
          let mail := TemplateMail (si_email supplierInfo) (si_name supplierInfo) template order in
          (relayAccepts mail, postMail mail w)
      end
  end.

(** What [sendBulkOrderNotifications] answers. *)
Record BulkResult := {
  successful : nat;
  failed : nat;
  results : list bool
}.

(** [sendBulkOrderNotifications(orders)].  Every [sendOrderNotification]
    settles fulfilled, its [catch] answers [false].  The calls are started
    together; each reads the suppliers and the users only, which none of
    them writes, so what it answers does not depend on the others.  The
    requests are listed in the order of the orders. *)
Definition sendBulkOrderNotifications (orders : list Order) (w : World) : BulkResult * World :=
  let '(settled, w') :=
    foldl (λ '(acc, w0) order,
             let '(ok, w1) := sendOrderNotification order w0 in (acc ++ [ok], w1))
          ([], w) orders in
  let successfulCount := length (List.filter (λ b : bool, b) settled) in
  ({| successful := successfulCount;
      failed := length settled - successfulCount;
      results := settled |}, w').

End WithRelay.

End SupplierEmailService.

(** ** The dispatcher of [supplierNotificationService.ts] *)

Module SupplierNotificationService.

Import Notifications.

Definition getPriorityPrefix (status : string) : string :=
  if bool_decide (status ∈ ["pending"; "cancelled"]) then "[URGENT] " else "".

Definition getStatusEmoji (status : string) : option string :=
  orDefault
    (getMember [ ("pending", "🆕"); ("confirmed", "✅"); ("preparing", "👨‍🍳");
                 ("out_for_delivery", "🚚"); ("delivered", "🎉"); ("cancelled", "❌") ] status)
    "📋".

(** The [subjectTemplates] object, built for the order at hand. *)
Definition subjectTemplates (priorityPrefix statusEmoji orderNumber userName total : string)
    : list (string * string) :=
  [ ("pending", priorityPrefix +:+ statusEmoji +:+ " NOUVELLE COMMANDE #" +:+ orderNumber
                +:+ " - " +:+ userName +:+ " - TND" +:+ total);
    ("confirmed", statusEmoji +:+ " COMMANDE CONFIRMÉE #" +:+ orderNumber
                  +:+ " - Préparation requise");
    ("preparing", statusEmoji +:+ " EN PRÉPARATION #" +:+ orderNumber +:+ " - " +:+ userName);
    ("out_for_delivery", statusEmoji +:+ " EN LIVRAISON #" +:+ orderNumber +:+ " - Suivi requis");
    ("delivered", statusEmoji +:+ " LIVRÉE #" +:+ orderNumber +:+ " - Succès confirmé");
    ("cancelled", priorityPrefix +:+ statusEmoji +:+ " ANNULÉE #" +:+ orderNumber
                  +:+ " - Action requise") ].

(** [generateEmailSubject(order, orderNumber)].  The emoji table and the
    subject table have the same keys: when the emoji found is a member of
    [Object.prototype], so is the subject found, and it is not a string. *)
Definition generateEmailSubject {strings : JSStrings} (order : Order) (orderNumber : string)
    : option string :=
  let priorityPrefix := getPriorityPrefix (o_status order) in
  match getStatusEmoji (o_status order) with
  | None => None
  | Some statusEmoji =>
      let total := toFixed2 (o_total order) in
      orDefault
        (getMember (subjectTemplates priorityPrefix statusEmoji orderNumber (o_userName order) total)
                   (o_status order))
        (statusEmoji +:+ " COMMANDE #" +:+ orderNumber +:+ " - " +:+ toUpperCase (o_status order))
  end.

Definition getInAppNotificationTitle (status : string) : option string :=
  orDefault
    (getMember [ ("pending", "🆕 Nouvelle commande reçue"); ("confirmed", "✅ Commande confirmée");
                 ("preparing", "👨‍🍳 Préparation en cours");
                 ("out_for_delivery", "🚚 En cours de livraison");
                 ("delivered", "🎉 Commande livrée"); ("cancelled", "❌ Commande annulée") ] status)
    "📋 Mise à jour commande".

Definition getPriorityLevel (status : string) : option string :=
  orDefault
    (getMember [ ("pending", "PRIORITÉ MAXIMALE"); ("confirmed", "PRIORITÉ ÉLEVÉE");
                 ("preparing", "PRIORITÉ NORMALE"); ("out_for_delivery", "PRIORITÉ NORMALE");
                 ("delivered", "PRIORITÉ BASSE"); ("cancelled", "PRIORITÉ MAXIMALE") ] status)
    "PRIORITÉ NORMALE".

Section WithRelay.
Context {strings : JSStrings} {relay : MailRelay}.

(** [logNotificationEvent] and [createInAppNotification] store
    [getPriorityLevel(order.status)] among the metadata: Firestore refuses
    a value that is not a string, which each method's own [catch]
    swallows, and then nothing is written. *)
Definition logNotificationEvent (now : timestamp) (order : Order)
    (supplierInfo : option SupplierInfo) (status : NotificationStatus) (w : World) : World :=
  match getPriorityLevel (o_status order) with
  | Some _ =>
      addSupplierLog
        {| sl_orderId := o_id order;
           sl_fournisseurId := o_fournisseurId order;
           sl_supplierEmail :=
             match supplierInfo with
             | Some i => if nonEmpty (si_email i) then si_email i else "unknown"
             | None => "unknown"
             end;
           sl_notificationStatus := status;
           sl_timestamp := now |} w
  | None => w
  end.

Definition createInAppNotification (now : timestamp) (order : Order) (w : World) : World :=
  match getInAppNotificationTitle (o_status order), getPriorityLevel (o_status order) with
  | Some title, Some _ =>
      addNotification {| n_title := title; n_orderId := o_id order;
                         n_fournisseurId := o_fournisseurId order; n_createdAt := now |} w
  | _, _ => w
  end.

(** [sendOrderNotification(order)]; the text and HTML bodies are rendered
    by total string substitution and are not part of [Mail]. *)
Definition sendOrderNotification (now : timestamp) (order : Order) (w : World) : bool * World :=
  match getSupplierInfo (o_fournisseurId order) w with
  | None => (false, w)
  | Some supplierInfo =>
      let subject := generateEmailSubject order (orderNumberOf order) in
      let mail := SupplierMail (si_email supplierInfo) (si_name supplierInfo) subject order in
      let w1 := postMail mail w in
      if relayAccepts mail then
        (true, logNotificationEvent now order (Some supplierInfo) success
                 (createInAppNotification now order w1))
      else
        (false, logNotificationEvent now order (Some supplierInfo) failed w1)
  end.

End WithRelay.

End SupplierNotificationService.

(** ** The change-feed listener: [OrderNotificationTrigger] *)

Module OrderNotificationTrigger.

Import Notifications.

Inductive ChangeType := added | modified | removed.

(** An element of [snapshot.docChanges()]. *)
Record Change := { change_type : ChangeType; change_doc : Order }.

(** The singleton's throttle table together with the collections. *)
Record Listener := {
  lastProcessedTimestamp : gmap string Z;
  world : World
}.

(** [checkIfAlreadyProcessed(orderKey, fournisseurId)]: a query on
    ['notificationLogs']. *)
Definition checkIfAlreadyProcessed (orderKey fournisseurId : string) (w : World) : bool :=
  let orderId := default "" (split "-" orderKey !! 0%nat) in
  let found :=
    List.filter
      (λ e, String.eqb (log_orderId e) orderId
            && String.eqb (log_fournisseurId e) fournisseurId
            && bool_decide (log_eventType e ∈ [new_order; status_update]))
      (notificationLogs w) in
  (0 <? length found)%nat.

(** [markAsProcessed(orderKey, fournisseurId)]: the first three pieces of
    the key go to ['processedOrderStates']; a missing piece is refused by
    Firestore and the method's [catch] swallows it. *)
Definition markAsProcessed (now : timestamp) (orderKey fournisseurId : string) (w : World)
    : World :=
  let pieces := split "-" orderKey in
  match pieces !! 0%nat, pieces !! 1%nat, pieces !! 2%nat with
  | Some orderId, Some status, Some paymentStatus =>
      addProcessedOrderState
        {| pos_orderId := orderId; pos_status := status; pos_paymentStatus := paymentStatus;
           pos_fournisseurId := fournisseurId; pos_processedAt := now |} w
  | _, _, _ => w
  end.

Definition logNotificationEvent (now : timestamp) (order : Order) (eventType : EventType)
    (status : NotificationStatus) (w : World) : World :=
  addNotificationLog
    {| log_orderId := o_id order;
       log_fournisseurId := o_fournisseurId order;
       log_orderStatus := o_status order;
       log_paymentStatus := o_paymentStatus order;
       log_eventType := eventType;
       log_notificationStatus := status;
       log_timestamp := now |} w.

(** [createInAppNotification(order, changeType)] for ['added'] and
    ['modified']. *)
Definition createInAppNotification (now : timestamp) (order : Order) (isAdded : bool)
    (w : World) : World :=
  addNotification
    {| n_title := if isAdded then "🆕 Nouvelle commande reçue" else "🔄 Commande mise à jour";
       n_orderId := o_id order;
       n_fournisseurId := o_fournisseurId order;
       n_createdAt := now |} w.

(** [logs.sort((a, b) => b.timestamp - a.timestamp)]: a stable sort,
    newest first. *)
Fixpoint insertNewestFirst (x : NotificationLogEntry) (l : list NotificationLogEntry)
    : list NotificationLogEntry :=
  match l with
  | [] => [x]
  | y :: r =>
      if log_timestamp y <=? log_timestamp x then x :: y :: r
      else y :: insertNewestFirst x r
  end.

Definition sortNewestFirst (l : list NotificationLogEntry) : list NotificationLogEntry :=
  foldr insertNewestFirst [] l.

(** What [getNotificationStats] answers; the response time, a placeholder
    of 2.5 when there are logs and 0 otherwise, is given in tenths. *)
Record NotificationStats := {
  totalNotificationsSent : nat;
  successfulNotifications : nat;
  failedNotifications : nat;
  lastNotificationSent : option timestamp;
  averageResponseTimeTenths : Z
}.

Definition isSuccess (e : NotificationLogEntry) : bool :=
  match log_notificationStatus e with success => true | _ => false end.

Definition isFailed (e : NotificationLogEntry) : bool :=
  match log_notificationStatus e with failed => true | _ => false end.

(** [getNotificationStats(fournisseurId)]. *)
Definition getNotificationStats (fournisseurId : string) (w : World) : NotificationStats :=
  let logs := List.filter (λ e, String.eqb (log_fournisseurId e) fournisseurId)
                          (notificationLogs w) in
  {| totalNotificationsSent := length logs;
     successfulNotifications := length (List.filter isSuccess logs);
     failedNotifications := length (List.filter isFailed logs);
     lastNotificationSent := log_timestamp <$> head (sortNewestFirst logs);
     averageResponseTimeTenths := if (0 <? length logs)%nat then 25 else 0 |}.

(** [cleanupSupplierData(fournisseurId)], which the function returned by
    [initializeOrderMonitoring] calls after unsubscribing.  Nothing ever
    adds to the [processedOrders] set, so only the throttle time stamp is
    there to remove. *)
Definition cleanupSupplierData (fournisseurId : string) (l : Listener) : Listener :=
  {| lastProcessedTimestamp := delete fournisseurId (lastProcessedTimestamp l);
     world := world l |}.

Definition orderKeyOf (order : Order) : string :=
  o_id order +:+ "-" +:+ o_status order +:+ "-" +:+ o_paymentStatus order.

Section WithRelay.
Context {relay : MailRelay}.

(** The body of [snapshot.docChanges().forEach(async (change) => ...)].
    The dispatcher and the helpers catch their own exceptions, so the
    [catch] of this body (the ['error'] log) is never entered. *)
Definition processChange (now : timestamp) (fournisseurId : string) (change : Change)
    (w : World) : World :=
  let orderData := change_doc change in
  let orderKey := orderKeyOf orderData in
  if checkIfAlreadyProcessed orderKey fournisseurId w then w
  else
    let w1 := markAsProcessed now orderKey fournisseurId w in
    match change_type change with
    | added =>
        let '(ok, w2) := SupplierEmailService.sendOrderNotification orderData w1 in
        let w3 := logNotificationEvent now orderData new_order (if ok then success else failed) w2 in
        createInAppNotification now orderData true w3
    | modified =>
        let '(ok, w2) := SupplierEmailService.sendOrderNotification orderData w1 in
        let w3 := logNotificationEvent now orderData status_update
                    (if ok then success else failed) w2 in
        createInAppNotification now orderData false w3
    | removed => w1
    end.

(** The [onSnapshot] callback installed by [initializeOrderMonitoring] for
    [fournisseurId], called at [currentTime = Date.now()] with the changes of
    one snapshot, which are handled one after the other. *)
Definition onSnapshot (fournisseurId : string) (currentTime : Z) (changes : list Change)
    (l : Listener) : Listener :=
  let lastProcessed := default 0 (lastProcessedTimestamp l !! fournisseurId) in
  if currentTime - lastProcessed <? 2000 then l
  else
    {| lastProcessedTimestamp := <[fournisseurId := currentTime]> (lastProcessedTimestamp l);
       world := foldl (λ w change, processChange currentTime fournisseurId change w)
                      (world l) changes |}.

(** The callback of [initializeGlobalOrderMonitoring]: only ['added']
    changes act, without throttle and without a look at the logs. *)
Definition processGlobalChange (now : timestamp) (change : Change) (w : World) : World :=
  match change_type change with
  | added =>
      let orderData := change_doc change in
      let '(ok, w2) := SupplierEmailService.sendOrderNotification orderData w in
      logNotificationEvent now orderData new_order (if ok then success else failed) w2
  | modified | removed => w
  end.

Definition onGlobalSnapshot (now : timestamp) (changes : list Change) (w : World) : World :=
  foldl (λ w0 change, processGlobalChange now change w0) w changes.

(** [{ id: orderDoc.id, ...orderDoc.data() }] for stored data without an
    [id] field of its own. *)
Definition withDocId (docId : string) (data : Order) : Order :=
  {| o_id := docId;
     o_fournisseurId := o_fournisseurId data;
     o_fournisseurName := o_fournisseurName data;
     o_userName := o_userName data;
     o_userEmail := o_userEmail data;
     o_total := o_total data;
     o_itemCount := o_itemCount data;
     o_status := o_status data;
     o_paymentStatus := o_paymentStatus data |}.

(** [manuallyTriggerNotification(orderId)]; [subOrderDocs] is the
    ['subOrders'] collection as this service reads it. *)
Definition manuallyTriggerNotification (now : timestamp) (orderId : string)
    (subOrderDocs : gmap string Order) (w : World) : bool * World :=
  match subOrderDocs !! orderId with
  | None => (false, w)
  | Some data =>
      let orderData := withDocId orderId data in
      let '(ok, w2) := SupplierEmailService.sendOrderNotification orderData w in
      (ok, logNotificationEvent now orderData manual_trigger (if ok then success else failed) w2)
  end.

End WithRelay.

End OrderNotificationTrigger.

(** * Vocabulary of the statements *)

(** A sample [StringToNumber] for the worked examples: decimal digits with
    an optional minus sign denote an integer, the empty string denotes 0,
    anything else is [NaN]. *)
Fixpoint digitsValue (acc : Z) (s : string) : number :=
  match s with
  | EmptyString => Num acc
  | String c r =>
      let n := nat_of_ascii c in
      if ((48 <=? n)%nat && (n <=? 57)%nat)%bool
      then digitsValue (10 * acc + Z.of_nat (n - 48)) r
      else NaN
  end.

Definition decimalStringToNumber : JSRuntime :=
  λ s, match s with
       | EmptyString => Num 0
       | String "-" EmptyString => NaN
       | String "-" r => match digitsValue 0 r with Num z => Num (- z) | NaN => NaN end
       | _ => digitsValue 0 s
       end.

(** The string primitives on strings of ASCII characters, for the worked
    examples: there a byte is a code unit and the letters a to z are the
    only ones with an upper case. *)
Definition asciiUpper (c : ascii) : ascii :=
  let n := nat_of_ascii c in
  if ((97 <=? n)%nat && (n <=? 122)%nat)%bool then ascii_of_nat (n - 32) else c.

Fixpoint asciiToUpperCase (s : string) : string :=
  match s with
  | EmptyString => EmptyString
  | String c r => String (asciiUpper c) (asciiToUpperCase r)
  end.

Definition asciiSliceLast (k : nat) (s : string) : string :=
  String.substring (String.length s - k) k s.

Definition asciiStrings : JSStrings :=
  {| toUpperCase := asciiToUpperCase; slice_last := asciiSliceLast |}.

(** A relay that accepts every request, and one that refuses every
    request. *)
Definition acceptingRelay : Notifications.MailRelay := λ _, true.
Definition refusingRelay : Notifications.MailRelay := λ _, false.

Section StockVocabulary.
Import ProductService.
Context {runtime : JSRuntime}.

(** A line fails when its product is missing or it asks for more than the
    product's current stock. *)
Definition failingLine (db : gmap string ProductDoc) (item : StockItem) : bool :=
  match db !! productId item with
  | None => true
  | Some data => currentStockOf data <? quantity item
  end.

(** The error entry of a failing line. *)
Definition lineError (db : gmap string ProductDoc) (item : StockItem) : string :=
  match db !! productId item with
  | None => "Product " +:+ productId item +:+ " not found"
  | Some _ => "Insufficient stock for " +:+ productId item
  end.

(** Every product's current stock is at least zero. *)
Definition stockNonNegative (db : gmap string ProductDoc) : Prop :=
  ∀ pid data, db !! pid = Some data → 0 ≤ currentStockOf data.

(** What a decrement over [items] may have written to reach [db'] from
    [db]: a document is either untouched, or it is the document of a line
    whose product had at least the requested quantity, rewritten with the
    difference. *)
Definition writtenFrom (now : timestamp) (items : list StockItem)
    (db db' : gmap string ProductDoc) : Prop :=
  ∀ pid data', db' !! pid = Some data' →
    db !! pid = Some data' ∨
    ∃ item data,
      item ∈ items ∧ productId item = pid ∧ db !! pid = Some data ∧
      quantity item ≤ currentStockOf data ∧
      data' = writeStock now (currentStockOf data - quantity item) data.

(** The stock a listing operation computes for a stored document:
    [Number(data.stockQuantity || 0)]. *)
Definition listedStock (data : ProductDoc) : number :=
  Number (or_else (doc_stockQuantity data) (VNum (Num 0))).

(** The supplier name a listing attaches to a product of supplier [fid]. *)
Definition enrichedName (fournisseurs : option (list (string * string))) (fid : string)
    : string :=
  match fournisseurs with
  | Some fs => fournisseurNameOf fs fid
  | None => "Fournisseur inconnu"
  end.

(** The product a listing shows for a stored document. *)
Definition listedProduct (fournisseurs : option (list (string * string)))
    (entry : string * ProductDoc) : Product :=
  withFournisseurName (enrichedName fournisseurs (doc_FournisseurId entry.2)) (toProduct entry).

(** The last line of a batch that names product [pid]. *)
Definition lastLineFor (pid : string) (items : list StockItem) : option StockItem :=
  last (List.filter (λ item, String.eqb (productId item) pid) items).

End StockVocabulary.

(** The worked example of the stock ledger: product A holds 10, product B
    holds 3. *)
Definition exampleProduct (stock : Z) : ProductService.ProductDoc :=
  {| ProductService.doc_name := "produit";
     ProductService.doc_categoryId := "c1";
     ProductService.doc_FournisseurId := "f1";
     ProductService.doc_feature := VBool true;
     ProductService.doc_stockQuantity := VNum (Num stock);
     ProductService.doc_updatedAt := 0 |}.

Definition exampleProducts : gmap string ProductService.ProductDoc :=
  <["A" := exampleProduct 10]> (<["B" := exampleProduct 3]> ∅).

Section OrderVocabulary.
Import ProductService MasterOrderService.

(** The three components of what a status operation yields. *)
Definition outcomeOf (r : outcome * Store * list Event) : outcome := r.1.1.
Definition storeOf (r : outcome * Store * list Event) : Store := r.1.2.
Definition eventsOf (r : outcome * Store * list Event) : list Event := r.2.

Definition isStockDecrement (e : Event) : bool :=
  match e with StockDecrement _ _ => true | _ => false end.

(** How many times the stock decrement was invoked. *)
Definition stockDecrementCalls (evs : list Event) : nat :=
  length (List.filter isStockDecrement evs).

(** What the [catch] of [updateSubOrderStatus] makes of the way the sync
    settled. *)
Definition rethrown (o : outcome) : outcome :=
  match o with
  | Returned => Returned
  | Thrown _ => Thrown "Failed to update order status"
  end.

(** The store after [updateDoc(subOrderRef, updateData)] alone. *)
Definition withStatusWritten (now : timestamp) (subOrderId status : string)
    (paymentStatus : option string) (current : SubOrder) (σ : Store) : Store :=
  setSubOrders σ
    (<[subOrderId := applySubOrderUpdate now status paymentStatus current]> (subOrders σ)).

(** The sub-orders of a master order do not all carry the same status. *)
Definition statusesDisagree (masterOrderId : string) (σ : Store) : Prop :=
  ∃ i1 s1 i2 s2,
    subOrders σ !! i1 = Some s1 ∧ subOrders σ !! i2 = Some s2 ∧
    so_masterOrderId s1 = masterOrderId ∧ so_masterOrderId s2 = masterOrderId ∧
    so_status s1 ≠ so_status s2.

(** Earlier or at the same time, by [createdAt]. *)
Definition byCreation (a b : string * SubOrder) : Prop :=
  so_createdAt a.2 ≤ so_createdAt b.2.

(** The master order has at least one sub-order. *)
Definition hasSubOrders (masterOrderId : string) (σ : Store) : Prop :=
  ∃ i s, subOrders σ !! i = Some s ∧ so_masterOrderId s = masterOrderId.

(** All sub-orders of the master order carry the same value of a field. *)
Definition agreeOn (field : SubOrder → string) (masterOrderId : string) (σ : Store) : Prop :=
  ∀ i1 s1 i2 s2,
    subOrders σ !! i1 = Some s1 → subOrders σ !! i2 = Some s2 →
    so_masterOrderId s1 = masterOrderId → so_masterOrderId s2 = masterOrderId →
    field s1 = field s2.

Definition isOrderNotification (e : Event) : bool :=
  match e with OrderNotification _ _ _ => true | _ => false end.

Definition isPaymentNotification (e : Event) : bool :=
  match e with PaymentNotification _ _ _ => true | _ => false end.

Definition isCustomerEmail (e : Event) : bool :=
  match e with CustomerEmail _ _ _ => true | _ => false end.

End OrderVocabulary.

(** The end-to-end scenario: master order M with sub-orders S1 (supplier X,
    two items) and S2 (supplier Y, one item), all pending. *)
Definition exampleSubOrder (fournisseur : string) (items : list MasterOrderService.OrderItem)
    (total : Z) (status : string) (created : Z) : MasterOrderService.SubOrder :=
  {| MasterOrderService.so_masterOrderId := "M";
     MasterOrderService.so_fournisseurId := fournisseur;
     MasterOrderService.so_fournisseurName := "";
     MasterOrderService.so_userId := "u1";
     MasterOrderService.so_items := items;
     MasterOrderService.so_total := total;
     MasterOrderService.so_status := status;
     MasterOrderService.so_paymentStatus := "pending";
     MasterOrderService.so_paymentMethod := "cash";
     MasterOrderService.so_createdAt := created;
     MasterOrderService.so_updatedAt := created;
     MasterOrderService.so_confirmedAt := None;
     MasterOrderService.so_deliveredAt := None |}.

Definition exampleItem (pid : string) (qty : Z) : MasterOrderService.OrderItem :=
  {| MasterOrderService.item_productId := pid;
     MasterOrderService.item_productName := "produit";
     MasterOrderService.item_quantity := qty |}.

Definition exampleMasterOrder : MasterOrderService.MasterOrder :=
  {| MasterOrderService.mo_userEmail := "client@example.com";
     MasterOrderService.mo_userName := "Client";
     MasterOrderService.mo_status := "pending";
     MasterOrderService.mo_paymentStatus := "pending";
     MasterOrderService.mo_updatedAt := 0;
     MasterOrderService.mo_confirmedAt := None;
     MasterOrderService.mo_deliveredAt := None |}.

Definition exampleStore : MasterOrderService.Store :=
  {| MasterOrderService.products := exampleProducts;
     MasterOrderService.subOrders :=
       <["S1" := exampleSubOrder "X" [exampleItem "A" 5; exampleItem "B" 20] 2000 "pending" 10]>
         (<["S2" := exampleSubOrder "Y" [exampleItem "A" 1] 1500 "pending" 20]> ∅);
     MasterOrderService.masterOrders := <["M" := exampleMasterOrder]> ∅ |}.

Definition exampleBackend : MasterOrderService.EmailBackend := "http://localhost:4001".

(** The six values of the status enumeration. *)
Definition enumeratedStatuses : list string :=
  [ "pending"; "confirmed"; "preparing"; "out_for_delivery"; "delivered"; "cancelled" ].

(** The subject [generateEmailSubject] falls back to. *)
Definition defaultSubject {strings : JSStrings} (order : Notifications.Order) : string :=
  "📋 COMMANDE #" +:+ Notifications.orderNumberOf order +:+ " - "
  +:+ toUpperCase (Notifications.o_status order).

(** Whether a string contains a given character. *)
Fixpoint contains (c : ascii) (s : string) : bool :=
  match s with
  | EmptyString => false
  | String d r => Ascii.eqb d c || contains c r
  end.

(** Supplier X and its owner, and nothing logged, marked or sent yet. *)
Definition exampleWorld : Notifications.World :=
  {| Notifications.fournisseurs :=
       <["X" := {| Notifications.f_ownerId := "owner1";
                   Notifications.f_name := "Epicerie";
                   Notifications.f_address := "Tunis" |}]> ∅;
     Notifications.users :=
       <["u1" := {| Notifications.u_uid := "owner1";
                    Notifications.u_email := "x@example.com";
                    Notifications.u_fullName := "Xavier" |}]> ∅;
     Notifications.notificationLogs := [];
     Notifications.processedOrderStates := [];
     Notifications.notifications := [];
     Notifications.supplierNotificationLogs := [];
     Notifications.outbox := [] |}.

Definition exampleOrder (id status : string) : Notifications.Order :=
  {| Notifications.o_id := id;
     Notifications.o_fournisseurId := "X";
     Notifications.o_fournisseurName := "Epicerie";
     Notifications.o_userName := "Client";
     Notifications.o_userEmail := "client@example.com";
     Notifications.o_total := 2000;
     Notifications.o_itemCount := 2;
     Notifications.o_status := status;
     Notifications.o_paymentStatus := "pending" |}.

Definition exampleListener : OrderNotificationTrigger.Listener :=
  {| OrderNotificationTrigger.lastProcessedTimestamp := ∅;
     OrderNotificationTrigger.world := exampleWorld |}.

(** A ['modified'] change of the order at hand. *)
Definition modifiedChange (order : Notifications.Order) : OrderNotificationTrigger.Change :=
  {| OrderNotificationTrigger.change_type := OrderNotificationTrigger.modified;
     OrderNotificationTrigger.change_doc := order |}.

(** Whether a change is an ['added'] one. *)
Definition isAdded (c : OrderNotificationTrigger.Change) : bool :=
  match OrderNotificationTrigger.change_type c with
  | OrderNotificationTrigger.added => true
  | _ => false
  end.

(** Whether a log entry records an exception. *)
Definition isErrored (e : Notifications.NotificationLogEntry) : bool :=
  match Notifications.log_notificationStatus e with
  | Notifications.error => true
  | _ => false
  end.

(** The log entries of a supplier. *)
Definition logsOf (fournisseurId : string) (w : Notifications.World)
    : list Notifications.NotificationLogEntry :=
  List.filter (λ e, String.eqb (Notifications.log_fournisseurId e) fournisseurId)
              (Notifications.notificationLogs w).


(** * Properties *)

(** ** Stock ledger *)

Section StockLedger.
Import ProductService.
Context {runtime : JSRuntime}.

Lemma checkItem_failing db item :
  pushedError (checkItem db item) =
  if failingLine db item then Some (lineError db item) else None.
Proof.
  unfold checkItem, failingLine, lineError.
  destruct (db !! productId item) as [data|]; [|done].
  by destruct (currentStockOf data <? quantity item).
Qed.

Lemma pushed_errors db items :
  omap pushedError (checkItem db <$> items) =
  lineError db <$> List.filter (failingLine db) items.
Proof.
  induction items as [|item items IH]; [done|].
  cbn [fmap list_fmap omap list_omap List.filter].
  fold (@fmap list _ _ _ (checkItem db) items).
  fold (omap pushedError (checkItem db <$> items)).
  rewrite checkItem_failing, IH.
  by destruct (failingLine db item).
Qed.

Lemma failing_line_filtered db items item :
  item ∈ items → failingLine db item = true →
  (0 < length (List.filter (failingLine db) items))%nat.
Proof.
  intros Hin Hf.
  assert (Hi : In item (List.filter (failingLine db) items)).
  { apply filter_In. split; [by apply list_elem_of_In | done]. }
  destruct (List.filter (failingLine db) items); [destruct Hi | simpl; lia].
Qed.

(** A batch with a failing line is rejected as a whole. *)
Lemma rejected_batch now items db item :
  item ∈ items → failingLine db item = true →
  decrementMultipleProductsStock now items db
  = ({| success := false; errors := lineError db <$> List.filter (failingLine db) items |}, db).
Proof.
  intros Hin Hf.
  pose proof (failing_line_filtered db items item Hin Hf) as Hlen.
  unfold decrementMultipleProductsStock.
  rewrite pushed_errors, length_fmap.
  by destruct (Nat.ltb_spec 0 (length (List.filter (failingLine db) items))) as [_|Hle]; [|lia].
Qed.

(** C1. When some line of the batch refers to a missing product or asks for
    more than the current stock, [decrementMultipleProductsStock] answers
    [success = false] with exactly one error entry per failing line, and the
    products collection is left as it was: no stock quantity and no
    [updatedAt] is written, also for the lines that passed. *)
Theorem decrementMultiple_all_or_nothing (now : timestamp) (items : list StockItem)
    (db : gmap string ProductDoc) :
  (∃ item, item ∈ items ∧ failingLine db item = true) →
  success (decrementMultipleProductsStock now items db).1 = false ∧
  errors (decrementMultipleProductsStock now items db).1
    = lineError db <$> List.filter (failingLine db) items ∧
  length (errors (decrementMultipleProductsStock now items db).1)
    = length (List.filter (failingLine db) items) ∧
  (decrementMultipleProductsStock now items db).2 = db.
Proof.
  intros (item & Hin & Hf).
  rewrite (rejected_batch now items db item Hin Hf). cbn [fst snd success errors].
  by rewrite length_fmap.
Qed.

Lemma writeStock_again now n1 n2 data :
  writeStock now n2 (writeStock now n1 data) = writeStock now n2 data.
Proof. done. Qed.

Lemma currentStockOf_writeStock now n data :
  currentStockOf (writeStock now n data) = n.
Proof. done. Qed.

Lemma writtenFrom_refl now items db : writtenFrom now items db db.
Proof. intros pid data' Hl. by left. Qed.

(** One [batch.update] of a check computed against [db] keeps
    [writtenFrom]. *)
Lemma writtenFrom_batchUpdate now items db acc item :
  item ∈ items →
  writtenFrom now items db acc →
  writtenFrom now items db (batchUpdate now acc (checkItem db item)).
Proof.
  intros Hin Hacc. unfold checkItem.
  destruct (db !! productId item) as [data|] eqn:Hdb; [|done].
  destruct (Z.ltb_spec (currentStockOf data) (quantity item)) as [Hlt|Hge]; [done|].
  cbn [batchUpdate].
  intros pid data' Hl.
  destruct (decide (productId item = pid)) as [<-|Hne].
  - rewrite lookup_alter_eq in Hl.
    destruct (acc !! productId item) as [cur|] eqn:Hcur; [|done].
    injection Hl as <-. right. exists item, data.
    repeat split; [done..|].
    destruct (Hacc _ _ Hcur) as [Hsame|(item' & data0 & _ & _ & Hdb' & _ & ->)].
    + by simplify_eq.
    + by simplify_eq.
  - rewrite lookup_alter_ne in Hl by done. by apply Hacc.
Qed.

Lemma writtenFrom_commit now items db rest acc :
  (∀ item, item ∈ rest → item ∈ items) →
  writtenFrom now items db acc →
  writtenFrom now items db (foldl (batchUpdate now) acc (checkItem db <$> rest)).
Proof.
  revert acc. induction rest as [|item rest IH]; intros acc Hsub Hacc; [done|].
  cbn [fmap list_fmap foldl]. apply IH.
  - intros x Hx. apply Hsub. by right.
  - apply writtenFrom_batchUpdate; [apply Hsub; by left | done].
Qed.

Lemma writtenFrom_multiple now items db :
  writtenFrom now items db (decrementMultipleProductsStock now items db).2.
Proof.
  unfold decrementMultipleProductsStock.
  destruct (0 <? length _)%nat; cbn [snd].
  - apply writtenFrom_refl.
  - apply writtenFrom_commit; [done | apply writtenFrom_refl].
Qed.

Lemma writtenFrom_single now pid qty db :
  writtenFrom now [ {| productId := pid; quantity := qty |} ] db
              (decrementProductStock now pid qty db).2.
Proof.
  unfold decrementProductStock.
  destruct (db !! pid) as [data|] eqn:Hdb; [|apply writtenFrom_refl].
  destruct (Z.ltb_spec (currentStockOf data) qty) as [Hlt|Hge]; [apply writtenFrom_refl|].
  cbn [snd]. intros pid' data' Hl.
  destruct (decide (pid = pid')) as [<-|Hne].
  - rewrite lookup_insert_eq in Hl. injection Hl as <-.
    right. eexists _, data. repeat split; [by left | done..].
  - rewrite lookup_insert_ne in Hl by done. by left.
Qed.

Lemma writtenFrom_non_negative now items db db' :
  writtenFrom now items db db' → stockNonNegative db → stockNonNegative db'.
Proof.
  intros Hw Hinv pid data' Hl.
  destruct (Hw _ _ Hl) as [Hsame|(item & data & _ & _ & _ & Hge & ->)].
  - by eapply Hinv.
  - rewrite currentStockOf_writeStock. lia.
Qed.

(** C5. After a single or a batch decrement every product's stock is still
    at least zero: a document is rewritten only for a line whose product
    held at least the requested quantity, and the value written is the
    current stock minus the requested quantity. *)
Theorem decrement_keeps_stock_non_negative (now : timestamp) (db : gmap string ProductDoc) :
  (∀ pid qty,
     writtenFrom now [ {| productId := pid; quantity := qty |} ] db
                 (decrementProductStock now pid qty db).2) ∧
  (∀ items, writtenFrom now items db (decrementMultipleProductsStock now items db).2) ∧
  (stockNonNegative db →
   (∀ pid qty, stockNonNegative (decrementProductStock now pid qty db).2) ∧
   (∀ items, stockNonNegative (decrementMultipleProductsStock now items db).2)).
Proof.
  split; [|split].
  - intros. apply writtenFrom_single.
  - intros. apply writtenFrom_multiple.
  - intros Hinv. split; intros.
    + eapply writtenFrom_non_negative; [apply writtenFrom_single | done].
    + eapply writtenFrom_non_negative; [apply writtenFrom_multiple | done].
Qed.

(** ** Product listing *)

Lemma listing_sound fournisseurs docs p :
  p ∈ listing fournisseurs docs →
  ∃ pid data, (pid, data) ∈ docs ∧ id p = pid ∧
              stockQuantity p = listedStock data ∧ gt (listedStock data) 0 = true.
Proof.
  unfold listing, enrichProductsWithFournisseurNames. intros Hp.
  assert (∃ q, In q (List.filter inStock (toProduct <$> docs)) ∧
               id p = id q ∧ stockQuantity p = stockQuantity q) as (q & Hq & Hid & Hst).
  { destruct fournisseurs as [fs|];
      apply list_elem_of_fmap in Hp as (q & -> & Hq%list_elem_of_In); by exists q. }
  apply filter_In in Hq as [Hq Hin].
  apply list_elem_of_In, list_elem_of_fmap in Hq as ([pid data] & -> & Hd).
  exists pid, data. by rewrite Hid, Hst.
Qed.

Lemma gt_positive n : gt n 0 = true → ∃ z, n = Num z ∧ 0 < z.
Proof. destruct n as [|z]; [done|]. cbn. intros ?%Z.ltb_lt. by exists z. Qed.

(** The documents a listing operation reads are documents of the
    collection. *)
Lemma listed_from_collection fournisseurs cat db p :
  p ∈ getProducts fournisseurs db ∨
  p ∈ getProductsByCategory fournisseurs cat db ∨
  p ∈ getFeaturedProducts fournisseurs db →
  ∃ data, db !! id p = Some data ∧
          stockQuantity p = listedStock data ∧ gt (listedStock data) 0 = true.
Proof.
  intros [Hp|[Hp|Hp]]; apply listing_sound in Hp as (pid & data & Hd & <- & Hst & Hgt);
    exists data; (split; [|done]).
  - by apply elem_of_map_to_list.
  - apply list_elem_of_In, filter_In in Hd as [Hd%list_elem_of_In _].
    by apply elem_of_map_to_list.
  - apply list_elem_of_In, filter_In in Hd as [Hd%list_elem_of_In _].
    by apply elem_of_map_to_list.
Qed.

(** C10. A product returned by [getProducts], [getProductsByCategory] or
    [getFeaturedProducts] has a stock quantity strictly greater than zero;
    it is the coerced quantity of its stored document, so a document whose
    [stockQuantity] is missing, null, zero or negative, or a string that
    denotes no number, is never listed. *)
Theorem listings_only_in_stock (fournisseurs : option (list (string * string)))
    (cat : string) (db : gmap string ProductDoc) (p : Product) :
  p ∈ getProducts fournisseurs db ∨
  p ∈ getProductsByCategory fournisseurs cat db ∨
  p ∈ getFeaturedProducts fournisseurs db →
  (∃ z, stockQuantity p = Num z ∧ 0 < z) ∧
  ∃ data, db !! id p = Some data ∧
    stockQuantity p = listedStock data ∧
    doc_stockQuantity data ≠ VUndefined ∧
    doc_stockQuantity data ≠ VNull ∧
    (∀ z, doc_stockQuantity data = VNum (Num z) → 0 < z) ∧
    doc_stockQuantity data ≠ VNum NaN ∧
    (∀ s, doc_stockQuantity data = VStr s → StringToNumber s ≠ NaN).
Proof.
  intros Hp. apply listed_from_collection in Hp as (data & Hdb & Hst & Hgt).
  split; [rewrite Hst; by apply gt_positive|].
  exists data. split; [done|]. split; [done|].
  unfold listedStock in Hgt.
  destruct (doc_stockQuantity data) as [| |b|[|z]|s] eqn:Hq; cbn in Hgt; try done.
  - repeat split; try done. intros z' [= <-].
    unfold or_else in Hgt. cbn in Hgt.
    destruct (Z.eqb_spec z 0) as [->|Hz]; cbn in Hgt; [done|]. by apply Z.ltb_lt.
  - repeat split; try done. intros s' [= <-] Hnan.
    unfold or_else in Hgt. cbn in Hgt.
    destruct (String.eqb s ""); cbn in Hgt; [done|].
    by rewrite Hnan in Hgt.
Qed.

End StockLedger.

(** ** Sub-order store and master-order synchroniser *)

Section MasterOrders.
Import ProductService MasterOrderService.
Context {runtime : JSRuntime} {strings : JSStrings} {backend : EmailBackend}.

Lemma insertByCreatedAt_elem x l y :
  y ∈ insertByCreatedAt x l ↔ y = x ∨ y ∈ l.
Proof.
  induction l as [|z l IH]; cbn [insertByCreatedAt].
  - rewrite list_elem_of_singleton, elem_of_nil. tauto.
  - destruct (so_createdAt x.2 <=? so_createdAt z.2).
    + by rewrite elem_of_cons.
    + rewrite !elem_of_cons, IH. tauto.
Qed.

Lemma sortByCreatedAt_elem l y : y ∈ sortByCreatedAt l ↔ y ∈ l.
Proof.
  induction l as [|x l IH]; [done|].
  unfold sortByCreatedAt in *. cbn [foldr].
  rewrite insertByCreatedAt_elem, IH, elem_of_cons. tauto.
Qed.

Lemma getSubOrders_elem m σ i s :
  (i, s) ∈ getSubOrdersByMasterOrderId m σ ↔
  subOrders σ !! i = Some s ∧ so_masterOrderId s = m.
Proof.
  unfold getSubOrdersByMasterOrderId.
  rewrite sortByCreatedAt_elem, list_elem_of_In, filter_In, <- list_elem_of_In.
  rewrite elem_of_map_to_list. cbn [snd].
  split; intros [? Heq]; (split; [done|]).
  - by apply String.eqb_eq.
  - by apply String.eqb_eq.
Qed.

Lemma allSame_true first l x : allSame first l = true → x ∈ l → x = first.
Proof.
  unfold allSame. rewrite forallb_forall.
  intros Hall Hx%list_elem_of_In. by apply String.eqb_eq, Hall.
Qed.

Lemma disagreement_not_unanimous m σ first rest :
  statusesDisagree m σ →
  getSubOrdersByMasterOrderId m σ = first :: rest →
  allSame (so_status first.2) ((λ e, so_status e.2) <$> first :: rest) = false.
Proof.
  intros (i1 & s1 & i2 & s2 & H1 & H2 & Hm1 & Hm2 & Hne) Hsubs.
  destruct (allSame _ _) eqn:Hall; [|done]. exfalso. apply Hne.
  assert (∀ i s, subOrders σ !! i = Some s → so_masterOrderId s = m →
                 so_status s = so_status first.2) as Hfirst.
  { intros i s Hl Hm. apply (allSame_true _ _ _ Hall).
    apply list_elem_of_fmap. exists (i, s). split; [done|].
    rewrite <- Hsubs. by apply getSubOrders_elem. }
  rewrite (Hfirst _ _ H1 Hm1). symmetry. by eapply Hfirst.
Qed.

(** C2. When the sub-orders of a master order do not all carry the same
    status, [syncMasterOrderStatus] leaves the [status] of every master
    order as it was, also when the payment statuses agree and the sync
    writes [paymentStatus] and [updatedAt]. *)
Theorem sync_keeps_status_when_not_unanimous (now : timestamp) (masterOrderId : string)
    (σ : Store) :
  statusesDisagree masterOrderId σ →
  ∀ m, mo_status <$> (masterOrders (storeOf (syncMasterOrderStatus now masterOrderId σ)) !! m)
       = mo_status <$> (masterOrders σ !! m).
Proof.
  intros Hdis m. unfold syncMasterOrderStatus, storeOf.
  destruct (getSubOrdersByMasterOrderId masterOrderId σ) as [|first rest] eqn:Hsubs; [done|].
  cbv zeta. rewrite (disagreement_not_unanimous _ _ _ _ Hdis Hsubs).
  cbn [orb andb].
  destruct (allSame (so_paymentStatus first.2) _); [|done].
  destruct (masterOrders σ !! masterOrderId) as [mo|] eqn:Hmo; [|done].
  cbn [fst snd setMasterOrders masterOrders].
  destruct (decide (masterOrderId = m)) as [<-|Hne].
  - by rewrite lookup_insert_eq, Hmo.
  - by rewrite lookup_insert_ne.
Qed.

(** The sync reads and writes no product, writes no sub-order and never
    invokes the stock ledger. *)
Lemma sync_setProducts now m σ ps :
  syncMasterOrderStatus now m (setProducts σ ps) =
  (outcomeOf (syncMasterOrderStatus now m σ),
   setProducts (storeOf (syncMasterOrderStatus now m σ)) ps,
   eventsOf (syncMasterOrderStatus now m σ)).
Proof.
  unfold syncMasterOrderStatus, outcomeOf, storeOf, eventsOf.
  change (getSubOrdersByMasterOrderId m (setProducts σ ps))
    with (getSubOrdersByMasterOrderId m σ).
  destruct (getSubOrdersByMasterOrderId m σ) as [|first rest]; [done|].
  cbv zeta. destruct (_ || _); [|done].
  change (masterOrders (setProducts σ ps)) with (masterOrders σ).
  by destruct (masterOrders σ !! m).
Qed.

Lemma sync_products now m σ :
  products (storeOf (syncMasterOrderStatus now m σ)) = products σ.
Proof.
  unfold syncMasterOrderStatus, storeOf.
  destruct (getSubOrdersByMasterOrderId m σ) as [|first rest]; [done|].
  cbv zeta. destruct (_ || _); [|done]. by destruct (masterOrders σ !! m).
Qed.

Lemma sync_subOrders now m σ :
  subOrders (storeOf (syncMasterOrderStatus now m σ)) = subOrders σ.
Proof.
  unfold syncMasterOrderStatus, storeOf.
  destruct (getSubOrdersByMasterOrderId m σ) as [|first rest]; [done|].
  cbv zeta. destruct (_ || _); [|done]. by destruct (masterOrders σ !! m).
Qed.

Lemma sync_no_decrement now m σ :
  List.filter isStockDecrement (eventsOf (syncMasterOrderStatus now m σ)) = [].
Proof.
  unfold syncMasterOrderStatus, eventsOf.
  destruct (getSubOrdersByMasterOrderId m σ) as [|first rest]; [done|].
  cbv zeta. destruct (_ || _); [|done].
  destruct (masterOrders σ !! m); [|done].
  cbn [snd]. unfold customerNotification.
  by repeat destruct (nonEmpty _).
Qed.

Lemma setProducts_same σ : setProducts σ (products σ) = σ.
Proof. by destruct σ. Qed.

(** What [updateSubOrderStatus] does for a sub-order that exists. *)
Lemma updateSubOrderStatus_found now subOrderId status paymentStatus σ current :
  subOrders σ !! subOrderId = Some current →
  let should := String.eqb status "out_for_delivery"
                && negb (String.eqb (so_status current) "out_for_delivery") in
  let dec := decrementMultipleProductsStock now (stockItemsOf current) (products σ) in
  let sync := syncMasterOrderStatus now (so_masterOrderId current)
                (withStatusWritten now subOrderId status paymentStatus current σ) in
  let r := updateSubOrderStatus now subOrderId status paymentStatus σ in
  outcomeOf r = rethrown (outcomeOf sync) ∧
  storeOf r = setProducts (storeOf sync) (if should then dec.2 else products σ) ∧
  List.filter isStockDecrement (eventsOf r)
    = if should then [StockDecrement (stockItemsOf current) dec.1] else [].
Proof.
  intros Hcur should dec sync r. subst r. unfold updateSubOrderStatus.
  rewrite Hcur. fold should.
  assert (Hnote : ∀ evs1 evs2 : list Event,
            List.filter isStockDecrement evs1 = [] →
            List.filter isStockDecrement evs2 = [] →
            List.filter isStockDecrement (evs1 ++ evs2 ++ eventsOf sync) = []).
  { intros evs1 evs2 H1 H2. subst sync.
    by rewrite !List.filter_app, H1, H2, sync_no_decrement. }
  assert (Hstatus : ∀ (b : bool) (e : Event), isStockDecrement e = false →
            List.filter isStockDecrement (if b then [e] else []) = (@nil Event)).
  { intros [] e He; cbn; by rewrite ?He. }
  assert (Hpay :
    List.filter isStockDecrement
      match paymentStatus with
      | Some p =>
          if nonEmpty p && negb (String.eqb p (so_paymentStatus current)) then
            [PaymentNotification (so_fournisseurId current) (supplierNameOr current)
               (getPaymentNotificationSubType p)]
          else []
      | None => []
      end = []).
  { destruct paymentStatus as [p|]; [|done]. by apply Hstatus. }
  destruct should eqn:Hshould.
  - fold dec. destruct dec as [res ps] eqn:Hdec. cbn [fst snd].
    change (setSubOrders (setProducts σ ps)
              (<[subOrderId := applySubOrderUpdate now status paymentStatus current]>
                 (subOrders (setProducts σ ps))))
      with (setProducts (withStatusWritten now subOrderId status paymentStatus current σ) ps).
    rewrite sync_setProducts. fold sync.
    destruct sync as [[o σ3] evs] eqn:Hsync.
    unfold outcomeOf, storeOf, eventsOf in *. cbn [fst snd] in *.
    repeat split.
    cbn [app List.filter isStockDecrement]. f_equal.
    apply Hnote; [by apply Hstatus | exact Hpay].
  - change (setSubOrders σ
              (<[subOrderId := applySubOrderUpdate now status paymentStatus current]>
                 (subOrders σ)))
      with (withStatusWritten now subOrderId status paymentStatus current σ).
    fold sync.
    assert (Hps : products (storeOf sync) = products σ).
    { subst sync. by rewrite sync_products. }
    destruct sync as [[o σ3] evs] eqn:Hsync.
    unfold outcomeOf, storeOf, eventsOf in *. cbn [fst snd] in *.
    rewrite <- Hps, setProducts_same.
    repeat split.
    cbn [app]. apply Hnote; [by apply Hstatus | exact Hpay].
Qed.

Lemma should_decrement_spec status previous :
  String.eqb status "out_for_delivery" && negb (String.eqb previous "out_for_delivery") = true
  ↔ status = "out_for_delivery" ∧ previous ≠ "out_for_delivery".
Proof.
  rewrite andb_true_iff, negb_true_iff, String.eqb_eq, String.eqb_neq. tauto.
Qed.

Lemma written_subOrder now subOrderId status paymentStatus current σ m :
  subOrders (storeOf (syncMasterOrderStatus now m
     (withStatusWritten now subOrderId status paymentStatus current σ))) !! subOrderId
  = Some (applySubOrderUpdate now status paymentStatus current).
Proof. rewrite sync_subOrders. cbn. apply lookup_insert_eq. Qed.

Lemma twice_out_for_delivery now now' subOrderId paymentStatus paymentStatus' σ current :
  subOrders σ !! subOrderId = Some current →
  so_status current ≠ "out_for_delivery" →
  let first := updateSubOrderStatus now subOrderId "out_for_delivery" paymentStatus σ in
  let second :=
    updateSubOrderStatus now' subOrderId "out_for_delivery" paymentStatus' (storeOf first) in
  stockDecrementCalls (eventsOf first) = 1%nat ∧
  stockDecrementCalls (eventsOf second) = 0%nat ∧
  products (storeOf second) = products (storeOf first).
Proof.
  intros Hcur Hprev first second.
  destruct (updateSubOrderStatus_found now subOrderId "out_for_delivery" paymentStatus
              σ current Hcur) as (_ & Hstore1 & Hcalls1).
  fold first in Hstore1, Hcalls1.
  assert (Hcur2 : subOrders (storeOf first) !! subOrderId
                  = Some (applySubOrderUpdate now "out_for_delivery" paymentStatus current)).
  { rewrite Hstore1. cbn [setProducts subOrders]. apply written_subOrder. }
  destruct (updateSubOrderStatus_found now' subOrderId "out_for_delivery" paymentStatus'
              (storeOf first) _ Hcur2) as (_ & Hstore2 & Hcalls2).
  fold second in Hstore2, Hcalls2.
  unfold stockDecrementCalls. rewrite Hcalls1, Hcalls2, Hstore2.
  assert (String.eqb "out_for_delivery" "out_for_delivery"
          && negb (String.eqb (so_status current) "out_for_delivery") = true) as ->.
  { by apply should_decrement_spec. }
  done.
Qed.

Lemma no_subOrders_listed m σ :
  (∀ i s, subOrders σ !! i = Some s → so_masterOrderId s ≠ m) →
  getSubOrdersByMasterOrderId m σ = [].
Proof.
  intros Hnone.
  destruct (getSubOrdersByMasterOrderId m σ) as [|[i s] rest] eqn:Hsubs; [done|].
  assert (Hin : (i, s) ∈ getSubOrdersByMasterOrderId m σ) by (rewrite Hsubs; by left).
  apply getSubOrders_elem in Hin as [Hl Hm]. by destruct (Hnone _ _ Hl).
Qed.

(** C8. When the decrement triggered by a status update reports
    [success = false], the sub-order is still written with the new status
    and time stamps, and no product is written.  The sub-orders, the master
    orders and the way the call settles are the same for any other content
    of the products collection, in particular one on which the decrement
    succeeds: the call settles as its master-order sync does, and the
    decrement failure is not raised. *)
Theorem status_written_despite_failed_decrement (now : timestamp) (subOrderId : string)
    (paymentStatus : option string) (σ : Store) (current : SubOrder) :
  subOrders σ !! subOrderId = Some current →
  so_status current ≠ "out_for_delivery" →
  success (decrementMultipleProductsStock now (stockItemsOf current) (products σ)).1 = false →
  let r := updateSubOrderStatus now subOrderId "out_for_delivery" paymentStatus σ in
  stockDecrementCalls (eventsOf r) = 1%nat ∧
  subOrders (storeOf r)
    = <[subOrderId := applySubOrderUpdate now "out_for_delivery" paymentStatus current]>
        (subOrders σ) ∧
  so_status <$> (subOrders (storeOf r) !! subOrderId) = Some "out_for_delivery" ∧
  products (storeOf r) = products σ ∧
  outcomeOf r
    = rethrown (outcomeOf (syncMasterOrderStatus now (so_masterOrderId current)
         (withStatusWritten now subOrderId "out_for_delivery" paymentStatus current σ))) ∧
  (∀ ps,
     let r' := updateSubOrderStatus now subOrderId "out_for_delivery" paymentStatus
                 (setProducts σ ps) in
     subOrders (storeOf r') = subOrders (storeOf r) ∧
     masterOrders (storeOf r') = masterOrders (storeOf r) ∧
     outcomeOf r' = outcomeOf r).
Proof.
  intros Hcur Hprev Hfail r.
  destruct (updateSubOrderStatus_found now subOrderId "out_for_delivery" paymentStatus
              σ current Hcur) as (Hout & Hstore & Hcalls).
  fold r in Hout, Hstore, Hcalls.
  assert (String.eqb "out_for_delivery" "out_for_delivery"
          && negb (String.eqb (so_status current) "out_for_delivery") = true) as Hshould.
  { by apply should_decrement_spec. }
  rewrite Hshould in Hstore, Hcalls.
  assert (Hsub : subOrders (storeOf r)
    = <[subOrderId := applySubOrderUpdate now "out_for_delivery" paymentStatus current]>
        (subOrders σ)).
  { rewrite Hstore. cbn [setProducts subOrders]. by rewrite sync_subOrders. }
  split; [unfold stockDecrementCalls; by rewrite Hcalls|].
  split; [done|].
  split; [by rewrite Hsub, lookup_insert_eq|].
  split.
  { rewrite Hstore. cbn [setProducts products].
    unfold decrementMultipleProductsStock in *.
    destruct (0 <? length _)%nat; [done|]. cbn in Hfail. done. }
  split; [done|].
  intros ps r'.
  assert (Hcur' : subOrders (setProducts σ ps) !! subOrderId = Some current) by done.
  destruct (updateSubOrderStatus_found now subOrderId "out_for_delivery" paymentStatus
              (setProducts σ ps) current Hcur') as (Hout' & Hstore' & _).
  fold r' in Hout', Hstore'.
  change (withStatusWritten now subOrderId "out_for_delivery" paymentStatus current
            (setProducts σ ps))
    with (setProducts
            (withStatusWritten now subOrderId "out_for_delivery" paymentStatus current σ) ps)
    in Hout', Hstore'.
  rewrite sync_setProducts in Hout', Hstore'.
  rewrite Hout', Hstore', Hout, Hstore. done.
Qed.

End MasterOrders.

(** The worked example of C1: A asks 5 of 10, B asks 20 of 3.  The call
    fails with the one error about B and A still holds 10. *)
Lemma decrementMultiple_all_or_nothing_witness :
  let items := [ {| ProductService.productId := "A"; ProductService.quantity := 5 |};
                 {| ProductService.productId := "B"; ProductService.quantity := 20 |} ] in
  let r := ProductService.decrementMultipleProductsStock (runtime := decimalStringToNumber)
             1000 items exampleProducts in
  ProductService.success r.1 = false ∧
  ProductService.errors r.1 = ["Insufficient stock for B"] ∧
  r.2 !! "A" = Some (exampleProduct 10).
Proof.
  intros items r.
  destruct (decrementMultiple_all_or_nothing (runtime := decimalStringToNumber)
              1000 items exampleProducts) as (Hs & He & _ & Hdb).
  - exists {| ProductService.productId := "B"; ProductService.quantity := 20 |}.
    split; [| vm_compute; reflexivity].
    apply list_elem_of_In. simpl. auto.
  - subst r. rewrite Hs, He, Hdb. repeat split; vm_compute; reflexivity.
Defined.

(** On the example collection a batch that passes rewrites both stocks,
    and a listing shows product A with its stock of 10. *)
Lemma decrement_keeps_stock_non_negative_witness :
  stockNonNegative (runtime := decimalStringToNumber) exampleProducts ∧
  stockNonNegative (runtime := decimalStringToNumber)
    (ProductService.decrementMultipleProductsStock (runtime := decimalStringToNumber) 1000
       [ {| ProductService.productId := "A"; ProductService.quantity := 5 |};
         {| ProductService.productId := "B"; ProductService.quantity := 3 |} ]
       exampleProducts).2.
Proof.
  assert (Hinv : stockNonNegative (runtime := decimalStringToNumber) exampleProducts).
  { intros pid data. unfold exampleProducts.
    rewrite lookup_insert. case_decide.
    - intros [= <-]. vm_compute. discriminate.
    - rewrite lookup_insert. case_decide; [|by rewrite lookup_empty].
      intros [= <-]. vm_compute. discriminate. }
  split; [exact Hinv|].
  exact (proj2 (proj2 (proj2 (decrement_keeps_stock_non_negative
                                (runtime := decimalStringToNumber) 1000 exampleProducts)) Hinv) _).
Defined.

Lemma listings_only_in_stock_witness :
  ∃ p, p ∈ ProductService.getProducts (runtime := decimalStringToNumber) None exampleProducts ∧
       ProductService.id p = "A" ∧
       ∃ z, ProductService.stockQuantity p = Num z ∧ 0 < z.
Proof.
  set (p := ProductService.withFournisseurName "Fournisseur inconnu"
              (ProductService.toProduct (runtime := decimalStringToNumber)
                 ("A", exampleProduct 10))).
  assert (Hp : p ∈ ProductService.getProducts (runtime := decimalStringToNumber)
                     None exampleProducts).
  { apply list_elem_of_In. vm_compute. auto. }
  exists p. split; [exact Hp|]. split; [reflexivity|].
  exact (proj1 (listings_only_in_stock (runtime := decimalStringToNumber)
                  None "c1" exampleProducts p (or_introl Hp))).
Defined.

(** *** The end-to-end scenario on the example store *)

(** After S1 alone is confirmed the statuses are [confirmed; pending] while
    the payment statuses agree: a sync at 2000 ms rewrites [updatedAt] and
    leaves M pending. *)
Lemma sync_keeps_status_when_not_unanimous_witness :
  let σ1 := storeOf (MasterOrderService.updateSubOrderStatus

                           (runtime := decimalStringToNumber) (strings := asciiStrings)
                           (backend := exampleBackend)
                       1000 "S1" "confirmed" None exampleStore) in
  statusesDisagree "M" σ1 ∧
  MasterOrderService.mo_status <$>
    (MasterOrderService.masterOrders
       (storeOf (MasterOrderService.syncMasterOrderStatus
           (strings := asciiStrings) (backend := exampleBackend)
                   2000 "M" σ1)) !! "M")
  = Some "pending" ∧
  MasterOrderService.mo_updatedAt <$>
    (MasterOrderService.masterOrders
       (storeOf (MasterOrderService.syncMasterOrderStatus
           (strings := asciiStrings) (backend := exampleBackend)
                   2000 "M" σ1)) !! "M")
  = Some 2000.
Proof.
  intros σ1.
  assert (Hdis : statusesDisagree "M" σ1).
  { exists "S1",
      (MasterOrderService.applySubOrderUpdate 1000 "confirmed" None
         (exampleSubOrder "X" [exampleItem "A" 5; exampleItem "B" 20] 2000 "pending" 10)),
      "S2", (exampleSubOrder "Y" [exampleItem "A" 1] 1500 "pending" 20).
    repeat split; try (vm_compute; reflexivity). vm_compute. discriminate. }
  split; [exact Hdis|]. split.
  - rewrite (sync_keeps_status_when_not_unanimous
      (strings := asciiStrings) (backend := exampleBackend)
               2000 "M" σ1 Hdis "M").
    vm_compute. reflexivity.
  - vm_compute. reflexivity.
Defined.

(** Both sub-orders are confirmed one after the other: M stays pending
    after the first update, and after the second it is confirmed and
    stamped. *)
Example both_confirmed_confirms_master :
  let r1 := MasterOrderService.updateSubOrderStatus

                  (runtime := decimalStringToNumber) (strings := asciiStrings)
                  (backend := exampleBackend)
              1000 "S1" "confirmed" None exampleStore in
  let r2 := MasterOrderService.updateSubOrderStatus

                  (runtime := decimalStringToNumber) (strings := asciiStrings)
                  (backend := exampleBackend)
              2000 "S2" "confirmed" None (storeOf r1) in
  MasterOrderService.mo_status <$> (MasterOrderService.masterOrders (storeOf r1) !! "M")
    = Some "pending" ∧
  MasterOrderService.mo_status <$> (MasterOrderService.masterOrders (storeOf r2) !! "M")
    = Some "confirmed" ∧
  MasterOrderService.mo_confirmedAt <$> (MasterOrderService.masterOrders (storeOf r2) !! "M")
    = Some (Some 2000) ∧
  outcomeOf r2 = MasterOrderService.Returned.
Proof. vm_compute. done. Qed.

(** C7 as stated fails: the not-found condition of [updateSubOrderStatus]
    is not answered with [false] or an empty result, it is raised. *)
Lemma missing_subOrder_not_returned :
  MasterOrderService.subOrders exampleStore !! "S404" = None ∧
  outcomeOf (MasterOrderService.updateSubOrderStatus

                   (runtime := decimalStringToNumber) (strings := asciiStrings)
                   (backend := exampleBackend)
               1000 "S404" "confirmed" None exampleStore)
  ≠ MasterOrderService.Returned.
Proof. split; [vm_compute; reflexivity | vm_compute; discriminate]. Qed.

(** S1 asks for 20 of product B, which holds 3: the decrement fails and S1
    is out for delivery all the same. *)
Lemma status_written_despite_failed_decrement_witness :
  let r := MasterOrderService.updateSubOrderStatus

                 (runtime := decimalStringToNumber) (strings := asciiStrings)
                 (backend := exampleBackend)
             1000 "S1" "out_for_delivery" None exampleStore in
  ProductService.success
    (ProductService.decrementMultipleProductsStock (runtime := decimalStringToNumber) 1000
       (MasterOrderService.stockItemsOf
          (exampleSubOrder "X" [exampleItem "A" 5; exampleItem "B" 20] 2000 "pending" 10))
       (MasterOrderService.products exampleStore)).1 = false ∧
  MasterOrderService.so_status <$> (MasterOrderService.subOrders (storeOf r) !! "S1")
    = Some "out_for_delivery" ∧
  MasterOrderService.products (storeOf r) = MasterOrderService.products exampleStore ∧
  outcomeOf r = MasterOrderService.Returned.
Proof.
  intros r.
  assert (Hfail : ProductService.success
    (ProductService.decrementMultipleProductsStock (runtime := decimalStringToNumber) 1000
       (MasterOrderService.stockItemsOf
          (exampleSubOrder "X" [exampleItem "A" 5; exampleItem "B" 20] 2000 "pending" 10))
       (MasterOrderService.products exampleStore)).1 = false).
  { vm_compute. reflexivity. }
  split; [exact Hfail|].
  destruct (status_written_despite_failed_decrement (runtime := decimalStringToNumber)
              (strings := asciiStrings) (backend := exampleBackend) 1000 "S1" None exampleStore
              (exampleSubOrder "X" [exampleItem "A" 5; exampleItem "B" 20] 2000 "pending" 10))
    as (_ & _ & Hstatus & Hproducts & Hout & _).
  - vm_compute. reflexivity.
  - vm_compute. discriminate.
  - exact Hfail.
  - split; [exact Hstatus|]. split; [exact Hproducts|].
    fold r in Hout. rewrite Hout. vm_compute. reflexivity.
Defined.

(** ** Notification dispatchers *)

Section Dispatchers.
Import Notifications.
Context {strings : JSStrings} {relay : MailRelay}.

Lemma ownMember_none {A} (table : list (string * A)) key :
  key ∉ table.*1 → ownMember table key = None.
Proof.
  induction table as [|[k v] table IH]; [done|].
  cbn [fmap list_fmap fst ownMember]. intros Hnot.
  apply not_elem_of_cons in Hnot as [Hne Hnot].
  destruct (String.eqb_spec k key) as [->|_]; [done | by apply IH].
Qed.

Lemma getMember_unknown {A} (table : list (string * A)) key :
  key ∉ table.*1 →
  getMember table key = if bool_decide (key ∈ objectPrototypeKeys) then Inherited else Missing.
Proof. intros Hnot. unfold getMember. by rewrite ownMember_none. Qed.

(** C6, as the code has it.  For an order whose status is none of the six
    enumerated values, the dispatcher the change-feed listener calls
    ([SupplierEmailService]) finds no template: it answers [false] and sends
    nothing.  [SupplierNotificationService] does substitute a default: its
    subject is the generic ["📋 COMMANDE #<number> - <STATUS>"], the order
    number and the status in upper case as the runtime's [slice] and
    [toUpperCase] give them, and, when the supplier is resolved, the e-mail
    is handed to the relay with that subject and the call answers what the
    relay answers. *)
Theorem unknown_status_dispatch (now : timestamp) (order : Order) (w : World) :
  o_status order ∉ enumeratedStatuses →
  SupplierEmailService.sendOrderNotification order w = (false, w) ∧
  (o_status order ∉ objectPrototypeKeys →
   SupplierNotificationService.generateEmailSubject order (orderNumberOf order)
     = Some (defaultSubject order) ∧
   ∀ info, getSupplierInfo (o_fournisseurId order) w = Some info →
     let mail := SupplierMail (si_email info) (si_name info) (Some (defaultSubject order)) order in
     outbox (SupplierNotificationService.sendOrderNotification now order w).2
       = outbox w ++ [mail] ∧
     (SupplierNotificationService.sendOrderNotification now order w).1 = relayAccepts mail).
Proof.
  intros Hunknown. split.
  - unfold SupplierEmailService.sendOrderNotification.
    rewrite getMember_unknown by exact Hunknown.
    by destruct (bool_decide _).
  - intros Hplain.
    assert (Hsubject : SupplierNotificationService.generateEmailSubject order (orderNumberOf order)
                       = Some (defaultSubject order)).
    { unfold SupplierNotificationService.generateEmailSubject,
        SupplierNotificationService.getStatusEmoji.
      rewrite getMember_unknown by exact Hunknown.
      rewrite (bool_decide_eq_false_2 _ Hplain). cbn [orDefault].
      rewrite getMember_unknown by exact Hunknown.
      by rewrite (bool_decide_eq_false_2 _ Hplain). }
    split; [exact Hsubject|].
    intros info Hinfo mail.
    unfold SupplierNotificationService.sendOrderNotification.
    rewrite Hinfo, Hsubject. fold mail.
    unfold SupplierNotificationService.logNotificationEvent,
      SupplierNotificationService.createInAppNotification.
    destruct (relayAccepts mail); cbn [fst snd];
      repeat (destruct (SupplierNotificationService.getPriorityLevel _) ||
              destruct (SupplierNotificationService.getInAppNotificationTitle _));
      done.
Qed.

End Dispatchers.

(** For an id of ASCII characters the order number is its last eight
    characters in upper case, the whole id when it is shorter. *)
Example order_number_derivation :
  Notifications.orderNumberOf (strings := asciiStrings)
    (exampleOrder "abcXYZ0123456789" "pending") = "23456789" ∧
  Notifications.orderNumberOf (strings := asciiStrings) (exampleOrder "ab12" "pending") = "AB12".
Proof. vm_compute. done. Qed.

(** An order with the status ["shipped"] for supplier X: the listener's
    dispatcher refuses it, the supplier notification service sends it under
    the default subject. *)
Lemma unknown_status_dispatch_witness :
  let order := exampleOrder "abcXYZ0123456789" "shipped" in
  (Notifications.o_status order ∉ enumeratedStatuses) ∧
  SupplierEmailService.sendOrderNotification (relay := acceptingRelay) order exampleWorld
    = (false, exampleWorld) ∧
  SupplierNotificationService.generateEmailSubject (strings := asciiStrings) order
    (Notifications.orderNumberOf (strings := asciiStrings) order)
    = Some "📋 COMMANDE #23456789 - SHIPPED" ∧
  (SupplierNotificationService.sendOrderNotification (strings := asciiStrings)
     (relay := acceptingRelay) 1000 order exampleWorld).1 = true.
Proof.
  intros order.
  assert (Hunknown : Notifications.o_status order ∉ enumeratedStatuses).
  { apply (bool_decide_unpack _). vm_compute. exact I. }
  assert (Hplain : Notifications.o_status order ∉ objectPrototypeKeys).
  { apply (bool_decide_unpack _). vm_compute. exact I. }
  split; [exact Hunknown|].
  destruct (unknown_status_dispatch (strings := asciiStrings) (relay := acceptingRelay)
              1000 order exampleWorld Hunknown) as [Hrefused Hdefault].
  split; [exact Hrefused|].
  destruct (Hdefault Hplain) as [Hsubject Hsent].
  split; [rewrite Hsubject; vm_compute; reflexivity|].
  destruct (Hsent {| Notifications.si_email := "x@example.com";
                     Notifications.si_name := "Xavier";
                     Notifications.si_businessName := "Epicerie";
                     Notifications.si_address := "Tunis" |}) as [_ Hanswer].
  - vm_compute. reflexivity.
  - rewrite Hanswer. reflexivity.
Defined.

(** C6 as stated fails on [SupplierNotificationService]: for the status
    ["shipped"] the call succeeds and the e-mail leaves with a default
    subject. *)
Lemma unknown_status_gets_default_subject :
  let order := exampleOrder "abcXYZ0123456789" "shipped" in
  let r := SupplierNotificationService.sendOrderNotification (strings := asciiStrings)
    (relay := acceptingRelay)
             1000 order exampleWorld in
  (Notifications.o_status order ∉ enumeratedStatuses) ∧
  r.1 = true ∧
  Notifications.outbox r.2
    = [Notifications.SupplierMail "x@example.com" "Xavier"
         (Some "📋 COMMANDE #23456789 - SHIPPED") order].
Proof.
  intros order r. split; [|split].
  - apply (bool_decide_unpack _). vm_compute. exact I.
  - vm_compute. reflexivity.
  - vm_compute. reflexivity.
Qed.

(** ** Change-feed listener *)

Section ChangeFeed.
Import Notifications OrderNotificationTrigger.
Context {relay : MailRelay}.

(** C9. A batch of changes that arrives less than 2000 ms after the batch
    last processed for the supplier is dropped whole: the listener and all
    collections are as before, so no change is processed, no ledger entry is
    written, nothing is sent and the throttle time stamp does not move. *)
Theorem throttled_batch_is_dropped (fournisseurId : string) (currentTime : Z)
    (changes : list Change) (l : Listener) (lastProcessed : Z) :
  lastProcessedTimestamp l !! fournisseurId = Some lastProcessed →
  currentTime - lastProcessed < 2000 →
  onSnapshot fournisseurId currentTime changes l = l ∧
  processedOrderStates (world (onSnapshot fournisseurId currentTime changes l))
    = processedOrderStates (world l) ∧
  notificationLogs (world (onSnapshot fournisseurId currentTime changes l))
    = notificationLogs (world l) ∧
  notifications (world (onSnapshot fournisseurId currentTime changes l))
    = notifications (world l) ∧
  outbox (world (onSnapshot fournisseurId currentTime changes l)) = outbox (world l).
Proof.
  intros Hlast Hsoon.
  assert (Hsame : onSnapshot fournisseurId currentTime changes l = l).
  { unfold onSnapshot. rewrite Hlast. cbn [default from_option id].
    destruct (Z.ltb_spec (currentTime - lastProcessed) 2000) as [_|Hge]; [done | lia]. }
  by rewrite Hsame.
Qed.

(** A batch that is processed stamps its arrival time for the supplier. *)
Lemma processed_batch_stamps fournisseurId currentTime changes l :
  2000 ≤ currentTime - default 0 (lastProcessedTimestamp l !! fournisseurId) →
  lastProcessedTimestamp (onSnapshot fournisseurId currentTime changes l) !! fournisseurId
  = Some currentTime.
Proof.
  intros Hlate. unfold onSnapshot.
  destruct (Z.ltb_spec (currentTime - default 0 (lastProcessedTimestamp l !! fournisseurId))
              2000) as [Hlt|_]; [lia|].
  cbn [lastProcessedTimestamp]. apply lookup_insert_eq.
Qed.

(** The dispatcher only ever adds to the outbox. *)
Lemma send_frame order w :
  let r := SupplierEmailService.sendOrderNotification order w in
  notificationLogs r.2 = notificationLogs w ∧
  processedOrderStates r.2 = processedOrderStates w ∧
  (outbox r.2 = outbox w ∨ ∃ mail, outbox r.2 = outbox w ++ [mail]).
Proof.
  unfold SupplierEmailService.sendOrderNotification.
  destruct (getMember _ _); [|by auto..].
  destruct (getSupplierInfo _ _); [|by auto].
  cbn. eauto.
Qed.

Lemma mark_frame now orderKey fournisseurId w :
  notificationLogs (markAsProcessed now orderKey fournisseurId w) = notificationLogs w ∧
  outbox (markAsProcessed now orderKey fournisseurId w) = outbox w.
Proof.
  unfold markAsProcessed.
  by repeat destruct (split "-" orderKey !! _).
Qed.

Lemma split_plain_head id rest :
  contains "-" id = false →
  split "-" (id +:+ "-" +:+ rest) !! 0%nat = Some id.
Proof.
  induction id as [|c id IH]; [done|].
  cbn [contains]. intros [Hc Hid]%orb_false_iff.
  change (String c id +:+ "-" +:+ rest) with (String c (id +:+ "-" +:+ rest)).
  cbn [split]. rewrite Hc.
  specialize (IH Hid).
  destruct (split "-" (id +:+ "-" +:+ rest)) as [|h t]; [done|].
  cbn in IH. by injection IH as ->.
Qed.

Lemma logged_is_processed now order eventType status fournisseurId w :
  contains "-" (o_id order) = false →
  o_fournisseurId order = fournisseurId →
  eventType ≠ manual_trigger →
  checkIfAlreadyProcessed (orderKeyOf order) fournisseurId
    (logNotificationEvent now order eventType status w) = true.
Proof.
  intros Hplain Hf Hev. unfold checkIfAlreadyProcessed, orderKeyOf.
  rewrite split_plain_head by exact Hplain. cbn [default].
  unfold logNotificationEvent. cbn [addNotificationLog notificationLogs].
  rewrite List.filter_app, length_app. cbn [List.filter log_orderId log_fournisseurId log_eventType].
  rewrite String.eqb_refl, Hf, String.eqb_refl.
  rewrite bool_decide_eq_true_2; [cbn [andb length]; apply Nat.ltb_lt; lia|].
  destruct eventType; [by left | right; by left | done].
Qed.

(** Where the listener does deduplicate: for an order id without a hyphen,
    an ['added'] or ['modified'] change that is processed writes one log
    entry and sends at most one mail, and the same change delivered again is
    skipped. *)
Lemma dedup_for_plain_ids now now' fournisseurId change w :
  contains "-" (o_id (change_doc change)) = false →
  o_fournisseurId (change_doc change) = fournisseurId →
  change_type change ≠ removed →
  checkIfAlreadyProcessed (orderKeyOf (change_doc change)) fournisseurId w = false →
  let w1 := processChange now fournisseurId change w in
  processChange now' fournisseurId change w1 = w1 ∧
  length (notificationLogs w1) = S (length (notificationLogs w)) ∧
  (length (outbox w1) ≤ S (length (outbox w)))%nat.
Proof.
  intros Hplain Hf Htype Hnew w1.
  assert (Hseen : checkIfAlreadyProcessed (orderKeyOf (change_doc change)) fournisseurId w1 = true
                  ∧ length (notificationLogs w1) = S (length (notificationLogs w))
                  ∧ (length (outbox w1) ≤ S (length (outbox w)))%nat).
  { subst w1. unfold processChange. rewrite Hnew.
    pose proof (mark_frame now (orderKeyOf (change_doc change)) fournisseurId w) as [Hml Hmo].
    pose proof (send_frame (change_doc change)
                  (markAsProcessed now (orderKeyOf (change_doc change)) fournisseurId w))
      as (Hsl & _ & Hso).
    destruct (change_type change); [| |done];
      destruct (SupplierEmailService.sendOrderNotification _ _) as [ok w2];
      cbn [fst snd] in Hsl, Hso;
      (split; [|split]).
    - unfold checkIfAlreadyProcessed, createInAppNotification.
      cbn [addNotification notificationLogs].
      by apply logged_is_processed.
    - cbn. rewrite length_app, Hsl, Hml. cbn. lia.
    - cbn. destruct Hso as [->|[mail ->]]; rewrite ?length_app, Hmo; cbn; lia.
    - unfold checkIfAlreadyProcessed, createInAppNotification.
      cbn [addNotification notificationLogs].
      by apply logged_is_processed.
    - cbn. rewrite length_app, Hsl, Hml. cbn. lia.
    - cbn. destruct Hso as [->|[mail ->]]; rewrite ?length_app, Hmo; cbn; lia. }
  destruct Hseen as (Hseen & Hlogs & Hout).
  split; [|done]. unfold processChange at 1. by rewrite Hseen.
Qed.

End ChangeFeed.

(** A batch for supplier X at 10 000 ms is processed; the batch that
    follows at 11 000 ms is dropped. *)
Lemma throttled_batch_is_dropped_witness :
  let l1 := OrderNotificationTrigger.onSnapshot (relay := acceptingRelay) "X" 10000
              [modifiedChange (exampleOrder "abcXYZ0123456789" "confirmed")] exampleListener in
  OrderNotificationTrigger.lastProcessedTimestamp l1 !! "X" = Some 10000 ∧
  OrderNotificationTrigger.onSnapshot (relay := acceptingRelay) "X" 11000
    [modifiedChange (exampleOrder "abcXYZ0123456789" "preparing")] l1 = l1.
Proof.
  intros l1.
  assert (Hlast : OrderNotificationTrigger.lastProcessedTimestamp l1 !! "X" = Some 10000).
  { vm_compute. reflexivity. }
  split; [exact Hlast|].
  apply (throttled_batch_is_dropped (relay := acceptingRelay) "X" 11000 _ l1 10000 Hlast).
  lia.
Defined.

(** The same ['modified'] event delivered twice, 10 s apart, for an order
    whose id has no hyphen: one mail, one log entry. *)
Example redelivery_is_skipped :
  let change := modifiedChange (exampleOrder "abcXYZ0123456789" "confirmed") in
  let l1 := OrderNotificationTrigger.onSnapshot (relay := acceptingRelay) "X" 10000
              [change] exampleListener in
  let l2 := OrderNotificationTrigger.onSnapshot (relay := acceptingRelay) "X" 20000
              [change] l1 in
  length (Notifications.outbox (OrderNotificationTrigger.world l2)) = 1%nat ∧
  length (Notifications.notificationLogs (OrderNotificationTrigger.world l2)) = 1%nat ∧
  length (Notifications.processedOrderStates (OrderNotificationTrigger.world l2)) = 1%nat.
Proof. vm_compute. done. Qed.

(** C4 on an order whose id contains a hyphen.  The same ['modified']
    event, with the same (orderId, status, paymentStatus), is delivered
    twice, 10 s apart.  The check looks the logs up under ["sub"], the part
    of the key before its first hyphen, finds nothing under that id, and the
    second delivery is processed again: two mails are sent and two log
    entries written. *)
Lemma hyphenated_id_defeats_dedup :
  let change := modifiedChange (exampleOrder "sub-001" "confirmed") in
  let l1 := OrderNotificationTrigger.onSnapshot (relay := acceptingRelay) "X" 10000
              [change] exampleListener in
  let l2 := OrderNotificationTrigger.onSnapshot (relay := acceptingRelay) "X" 20000
              [change] l1 in
  OrderNotificationTrigger.checkIfAlreadyProcessed
    (OrderNotificationTrigger.orderKeyOf (exampleOrder "sub-001" "confirmed")) "X"
    (OrderNotificationTrigger.world l1) = false ∧
  length (Notifications.outbox (OrderNotificationTrigger.world l2)) = 2%nat ∧
  length (Notifications.notificationLogs (OrderNotificationTrigger.world l2)) = 2%nat ∧
  (Notifications.pos_orderId <$>
     Notifications.processedOrderStates (OrderNotificationTrigger.world l2)) = ["sub"; "sub"].
Proof. vm_compute. done. Qed.

(** * Further properties of the services *)

(** ** Stock ledger: single and batch decrement *)

Section StockLedgerMore.
Import ProductService.
Context {runtime : JSRuntime}.

(** X1. [decrementProductStock] answers [true] exactly when the product
    exists and holds at least the requested quantity.  Then the product is
    rewritten with its stock reduced by that quantity; otherwise nothing is
    written.  No other product is ever touched. *)
Theorem decrementProductStock_spec (now : timestamp) (pid : string) (qty : Z)
    (db : gmap string ProductDoc) :
  let r := decrementProductStock now pid qty db in
  (r.1 = true ↔ ∃ data, db !! pid = Some data ∧ qty ≤ currentStockOf data) ∧
  (r.1 = false → r.2 = db) ∧
  (r.1 = true →
   ∃ data, db !! pid = Some data ∧
     r.2 = <[pid := writeStock now (currentStockOf data - qty) data]> db ∧
     currentStockOf <$> (r.2 !! pid) = Some (currentStockOf data - qty)) ∧
  (∀ other, other ≠ pid → r.2 !! other = db !! other).
Proof.
  cbv zeta. unfold decrementProductStock.
  destruct (db !! pid) as [data|] eqn:Hdb.
  - destruct (Z.ltb_spec (currentStockOf data) qty) as [Hlt|Hge]; cbn [fst snd].
    + split; [|by auto].
      split; [done|]. intros (data' & [= <-] & Hle). lia.
    + split; [split; [intros _; by exists data | done]|].
      split; [done|]. split.
      * intros _. exists data. split; [done|]. split; [done|].
        by rewrite lookup_insert_eq.
      * intros other Hne. by rewrite lookup_insert_ne.
  - cbn [fst snd]. split; [|by auto].
    split; [done|]. by intros (data & ? & _).
Qed.

Lemma failingLine_checkItem db item :
  failingLine db item = false →
  ∃ data, db !! productId item = Some data ∧ quantity item ≤ currentStockOf data ∧
          checkItem db item = inr (productId item, currentStockOf data - quantity item).
Proof.
  unfold failingLine, checkItem.
  destruct (db !! productId item) as [data|]; [|done].
  destruct (Z.ltb_spec (currentStockOf data) (quantity item)); [done|].
  intros _. by exists data.
Qed.

Lemma no_failing_line db items :
  List.filter (failingLine db) items = [] ↔ Forall (λ item, failingLine db item = false) items.
Proof.
  induction items as [|item items IH]; [by split|].
  cbn [List.filter]. rewrite Forall_cons.
  destruct (failingLine db item); [split; [done | by intros [? _]]|].
  rewrite IH. tauto.
Qed.

(** What a batch does when every line passes. *)
Lemma accepted_batch now items db :
  Forall (λ item, failingLine db item = false) items →
  decrementMultipleProductsStock now items db
  = ({| success := true; errors := [] |},
     foldl (batchUpdate now) db (checkItem db <$> items)).
Proof.
  intros Hall%no_failing_line. unfold decrementMultipleProductsStock.
  by rewrite pushed_errors, Hall.
Qed.

(** X2. A batch succeeds exactly when no line fails, and exactly then its
    error list is empty; the empty batch succeeds and writes nothing. *)
Theorem batch_success_iff (now : timestamp) (items : list StockItem)
    (db : gmap string ProductDoc) :
  let r := decrementMultipleProductsStock now items db in
  (success r.1 = true ↔ Forall (λ item, failingLine db item = false) items) ∧
  (success r.1 = true ↔ errors r.1 = []) ∧
  decrementMultipleProductsStock now [] db = ({| success := true; errors := [] |}, db).
Proof.
  cbv zeta. split; [|split; [|done]].
  - split.
    + intros Hs. apply no_failing_line.
      unfold decrementMultipleProductsStock in Hs. rewrite pushed_errors in Hs.
      destruct (List.filter (failingLine db) items); [done|]. by cbn in Hs.
    + intros Hall. by rewrite accepted_batch.
  - unfold decrementMultipleProductsStock. rewrite pushed_errors.
    destruct (List.filter (failingLine db) items); cbn; by split.
Qed.

(** The committed batch, read product by product: the checks were all
    computed against the collection as it was before the batch. *)
Lemma commit_lookup now db items pid :
  Forall (λ item, failingLine db item = false) items →
  foldl (batchUpdate now) db (checkItem db <$> items) !! pid
  = match lastLineFor pid items with
    | Some item =>
        (λ data, writeStock now (currentStockOf data - quantity item) data) <$> db !! pid
    | None => db !! pid
    end.
Proof.
  induction items as [|item items IH] using rev_ind; intros Hall; [done|].
  apply Forall_app in Hall as [Hall Hitem%Forall_inv].
  rewrite fmap_app, foldl_app. cbn [fmap list_fmap foldl].
  unfold lastLineFor. rewrite List.filter_app. cbn [List.filter].
  destruct (failingLine_checkItem db item Hitem) as (data & Hdb & _ & ->).
  cbn [batchUpdate].
  destruct (String.eqb_spec (productId item) pid) as [<-|Hne].
  - rewrite last_snoc, lookup_alter_eq, IH by done. rewrite Hdb.
    by destruct (lastLineFor (productId item) items).
  - rewrite app_nil_r, lookup_alter_ne by done. by apply IH.
Qed.

(** X3. When every line of a batch passes, each product named by the batch
    ends with its stock before the batch minus the quantity of the last line
    that names it: two lines for the same product are both checked against
    the stock before the batch and the later write replaces the earlier, the
    quantities are not added up.  Products not named are untouched. *)
Theorem batch_last_line_wins (now : timestamp) (items : list StockItem)
    (db : gmap string ProductDoc) (pid : string) :
  Forall (λ item, failingLine db item = false) items →
  (decrementMultipleProductsStock now items db).2 !! pid
  = match lastLineFor pid items with
    | Some item =>
        (λ data, writeStock now (currentStockOf data - quantity item) data) <$> db !! pid
    | None => db !! pid
    end.
Proof.
  intros Hall. rewrite accepted_batch by done. cbn [snd]. by apply commit_lookup.
Qed.

Lemma lastLineFor_unique pid items item :
  NoDup (productId <$> items) → item ∈ items → productId item = pid →
  lastLineFor pid items = Some item.
Proof.
  unfold lastLineFor. induction items as [|x items IH]; [by intros _ ?%elem_of_nil|].
  cbn [fmap list_fmap]. intros [Hx Hnd]%NoDup_cons Hin Hpid.
  cbn [List.filter].
  apply elem_of_cons in Hin as [->|Hin].
  - rewrite <- Hpid, String.eqb_refl.
    assert (List.filter (λ i, String.eqb (productId i) (productId x)) items = []) as ->; [|done].
    clear IH Hnd. induction items as [|y items IH]; [done|].
    cbn [fmap list_fmap] in Hx. apply not_elem_of_cons in Hx as [Hne Hx].
    cbn [List.filter]. destruct (String.eqb_spec (productId y) (productId x)); [congruence|].
    by apply IH.
  - destruct (String.eqb_spec (productId x) pid) as [Heq|_].
    + exfalso. apply Hx. rewrite Heq, <- Hpid. by apply list_elem_of_fmap_2.
    + by apply IH.
Qed.

(** X4. When the lines of a batch name distinct products and every line
    passes, every line is applied: its product ends with the stock it had
    minus the quantity of the line. *)
Theorem batch_applies_every_line (now : timestamp) (items : list StockItem)
    (db : gmap string ProductDoc) (item : StockItem) :
  NoDup (productId <$> items) →
  Forall (λ item, failingLine db item = false) items →
  item ∈ items →
  ∃ data, db !! productId item = Some data ∧
    quantity item ≤ currentStockOf data ∧
    currentStockOf <$> ((decrementMultipleProductsStock now items db).2 !! productId item)
    = Some (currentStockOf data - quantity item).
Proof.
  intros Hnd Hall Hin.
  assert (Hitem : failingLine db item = false).
  { rewrite Forall_forall in Hall. by apply Hall. }
  destruct (failingLine_checkItem db item Hitem) as (data & Hdb & Hle & _).
  exists data. split; [done|]. split; [done|].
  rewrite accepted_batch by done. cbn [snd].
  rewrite commit_lookup by done.
  rewrite (lastLineFor_unique _ _ item Hnd Hin eq_refl), Hdb. done.
Qed.

(** X5. A batch of one line does what the single decrement does: the same
    answer and the same collection afterwards. *)
Theorem single_line_batch (now : timestamp) (pid : string) (qty : Z)
    (db : gmap string ProductDoc) :
  success (decrementMultipleProductsStock now
             [ {| productId := pid; quantity := qty |} ] db).1
  = (decrementProductStock now pid qty db).1 ∧
  (decrementMultipleProductsStock now [ {| productId := pid; quantity := qty |} ] db).2
  = (decrementProductStock now pid qty db).2.
Proof.
  unfold decrementMultipleProductsStock, decrementProductStock.
  cbn [fmap list_fmap]. unfold checkItem. cbn [productId quantity].
  destruct (db !! pid) as [data|] eqn:Hdb; [|by cbn].
  destruct (currentStockOf data <? qty); [by cbn|].
  cbn. split; [done|].
  apply map_eq. intros k. destruct (decide (pid = k)) as [<-|Hne].
  - by rewrite lookup_alter_eq, lookup_insert_eq, Hdb.
  - by rewrite lookup_alter_ne, lookup_insert_ne.
Qed.

End StockLedgerMore.

(** ** Product listing and lookup *)

Section ListingMore.
Import ProductService.
Context {runtime : JSRuntime}.

Lemma enrich_eq fournisseurs products :
  enrichProductsWithFournisseurNames fournisseurs products
  = (λ p, withFournisseurName (enrichedName fournisseurs (FournisseurId p)) p) <$> products.
Proof. by destruct fournisseurs. Qed.

(** A listing is the in-stock documents, each shown as its product. *)
Lemma listing_eq fournisseurs docs :
  listing fournisseurs docs
  = listedProduct fournisseurs <$> List.filter (λ e, gt (listedStock e.2) 0) docs.
Proof.
  unfold listing. rewrite enrich_eq.
  induction docs as [|e docs IH]; [done|].
  cbn [fmap list_fmap List.filter] in *.
  change (inStock (toProduct e)) with (gt (listedStock e.2) 0).
  destruct (gt (listedStock e.2) 0); cbn [fmap list_fmap]; by rewrite IH.
Qed.

Lemma listing_elem fournisseurs docs p :
  p ∈ listing fournisseurs docs ↔
  ∃ e, e ∈ docs ∧ gt (listedStock e.2) 0 = true ∧ p = listedProduct fournisseurs e.
Proof.
  rewrite listing_eq, list_elem_of_fmap. split.
  - intros (e & -> & [He Hgt]%list_elem_of_In%filter_In). exists e.
    by rewrite list_elem_of_In.
  - intros (e & He & Hgt & ->). exists e. split; [done|].
    apply list_elem_of_In, filter_In. by rewrite <- list_elem_of_In.
Qed.

Lemma getProducts_elem fournisseurs db p :
  p ∈ getProducts fournisseurs db ↔
  ∃ data, db !! id p = Some data ∧ gt (listedStock data) 0 = true ∧
          p = listedProduct fournisseurs (id p, data).
Proof.
  unfold getProducts. rewrite listing_elem. split.
  - intros ([pid data] & He%elem_of_map_to_list & Hgt & ->). by exists data.
  - intros (data & Hdb & Hgt & Hp). exists (id p, data).
    by rewrite elem_of_map_to_list.
Qed.

Lemma enrichedName_non_empty fournisseurs fid : enrichedName fournisseurs fid ≠ "".
Proof.
  destruct fournisseurs as [fs|]; [|done]. cbn. unfold fournisseurNameOf.
  destruct (_ !! fid) as [n|]; [|done].
  by destruct (String.eqb_spec n "").
Qed.

Lemma getProductById_by_id fournisseurs pid db data :
  db !! pid = Some data →
  getProductById fournisseurs pid db = Some (listedProduct fournisseurs (pid, data)) ∧
  id (listedProduct fournisseurs (pid, data)) = pid.
Proof. intros Hdb. unfold getProductById. by rewrite Hdb, enrich_eq. Qed.

(** X6. [getProductById] answers for every stored product, whatever its
    stock: it fails only when the document is missing.  For a product in
    stock it is the very product the listing shows; a product out of stock
    is still returned by id although no listing shows it. *)
Theorem getProductById_ignores_stock (fournisseurs : option (list (string * string)))
    (pid : string) (db : gmap string ProductDoc) :
  (getProductById fournisseurs pid db = None ↔ db !! pid = None) ∧
  (∀ data, db !! pid = Some data →
     getProductById fournisseurs pid db = Some (listedProduct fournisseurs (pid, data)) ∧
     (gt (listedStock data) 0 = true →
      listedProduct fournisseurs (pid, data) ∈ getProducts fournisseurs db) ∧
     (gt (listedStock data) 0 = false →
      ∀ q, q ∈ getProducts fournisseurs db → id q ≠ pid)).
Proof.
  unfold getProductById. split.
  - destruct (db !! pid) as [data|]; [|done]. rewrite enrich_eq. by cbn.
  - intros data Hdb. rewrite Hdb, enrich_eq. split; [done|]. split.
    + intros Hgt. apply getProducts_elem. by exists data.
    + intros Hout q (data' & Hdb' & Hgt & _)%getProducts_elem <-.
      rewrite Hdb in Hdb'. injection Hdb' as <-. congruence.
Qed.

(** X7. The category listing is the full listing restricted to the
    category, and the featured listing is the full listing restricted to the
    documents whose [feature] field is the boolean [true]. *)
Theorem filtered_listings (fournisseurs : option (list (string * string)))
    (cat : string) (db : gmap string ProductDoc) (p : Product) :
  (p ∈ getProductsByCategory fournisseurs cat db
   ↔ p ∈ getProducts fournisseurs db ∧ categoryId p = cat) ∧
  (p ∈ getFeaturedProducts fournisseurs db
   ↔ p ∈ getProducts fournisseurs db ∧
     ∃ data, db !! id p = Some data ∧ doc_feature data = VBool true) ∧
  (p ∈ getFeaturedProducts fournisseurs db → feature p = true).
Proof.
  assert (Hfeatured : p ∈ getFeaturedProducts fournisseurs db
   ↔ p ∈ getProducts fournisseurs db ∧
     ∃ data, db !! id p = Some data ∧ doc_feature data = VBool true).
  { unfold getFeaturedProducts. rewrite listing_elem, getProducts_elem. split.
    - intros ([pid data] & [He Hf]%list_elem_of_In%filter_In & Hgt & ->).
      apply list_elem_of_In, elem_of_map_to_list in He.
      apply bool_decide_eq_true in Hf. split; by exists data.
    - intros [(data & Hdb & Hgt & Hp) (data' & Hdb' & Hf)].
      rewrite Hdb in Hdb'. injection Hdb' as <-.
      exists (id p, data). split; [|done].
      apply list_elem_of_In, filter_In. split.
      + by apply list_elem_of_In, elem_of_map_to_list.
      + by apply bool_decide_eq_true. }
  split; [|split; [exact Hfeatured|]].
  - unfold getProductsByCategory. rewrite listing_elem, getProducts_elem. split.
    + intros ([pid data] & [He Hc]%list_elem_of_In%filter_In & Hgt & ->).
      apply list_elem_of_In, elem_of_map_to_list in He.
      apply String.eqb_eq in Hc. split; [by exists data | done].
    + intros [(data & Hdb & Hgt & Hp) Hcat].
      exists (id p, data). split; [|done].
      apply list_elem_of_In, filter_In. split.
      * by apply list_elem_of_In, elem_of_map_to_list.
      * apply String.eqb_eq. rewrite Hp in Hcat. exact Hcat.
  - intros [(data & Hdb & Hgt & Hp)%getProducts_elem (data' & Hdb' & Hf)]%Hfeatured.
    rewrite Hdb in Hdb'. injection Hdb' as <-.
    rewrite Hp. cbn. by rewrite Hf.
Qed.

Lemma NoDup_filter_fst {A} (f : string * A → bool) (l : list (string * A)) :
  NoDup l.*1 → NoDup (List.filter f l).*1.
Proof.
  induction l as [|e l IH]; [done|].
  cbn [fmap list_fmap List.filter]. intros [Hnot Hnd]%NoDup_cons.
  destruct (f e); [|by apply IH].
  cbn [fmap list_fmap]. apply NoDup_cons. split; [|by apply IH].
  intros (e' & Heq & [He' _]%list_elem_of_In%filter_In)%list_elem_of_fmap.
  apply Hnot. rewrite Heq. apply list_elem_of_fmap_2. by apply list_elem_of_In.
Qed.

(** X8. The full listing shows every stored product whose coerced stock is
    above zero, each exactly once (the ids of the listing are pairwise
    distinct), and every product shown carries a supplier name that is not
    empty. *)
Theorem getProducts_complete (fournisseurs : option (list (string * string)))
    (db : gmap string ProductDoc) :
  (∀ pid data, db !! pid = Some data → gt (listedStock data) 0 = true →
     listedProduct fournisseurs (pid, data) ∈ getProducts fournisseurs db) ∧
  NoDup (id <$> getProducts fournisseurs db) ∧
  (∀ p, p ∈ getProducts fournisseurs db → fournisseurName p ≠ "").
Proof.
  split; [|split].
  - intros pid data Hdb Hgt. apply getProducts_elem. by exists data.
  - unfold getProducts. rewrite listing_eq, <- list_fmap_compose.
    change (id ∘ listedProduct fournisseurs) with (@fst string ProductDoc).
    apply NoDup_filter_fst, NoDup_fst_map_to_list.
  - intros p (data & _ & _ & ->)%getProducts_elem. cbn.
    apply enrichedName_non_empty.
Qed.

(** X9. A product created by the supplier is stored with a numeric stock,
    [Number(stockQuantity || 0)] with [NaN] read as 0 from then on.  It can
    be fetched by its id at once, it is listed exactly when that stock is
    above zero, and no other document is touched. *)
Theorem created_product_is_listed (fournisseurs : option (list (string * string)))
    (now : timestamp) (newId : string) (data : ProductDoc) (db : gmap string ProductDoc) :
  let db' := (createProduct now newId data db).2 in
  (createProduct now newId data db).1 = newId ∧
  (∃ p, getProductById fournisseurs newId db' = Some p ∧ id p = newId ∧
        stockQuantity p = Num (or_zero (listedStock data)) ∧
        (p ∈ getProducts fournisseurs db' ↔ gt (listedStock data) 0 = true)) ∧
  (currentStockOf <$> db' !! newId) = Some (or_zero (listedStock data)) ∧
  (∀ other, other ≠ newId → db' !! other = db !! other).
Proof.
  cbv zeta. unfold createProduct. cbn [fst snd].
  set (stored := {| doc_name := doc_name data; doc_categoryId := doc_categoryId data;
                    doc_FournisseurId := doc_FournisseurId data;
                    doc_feature := doc_feature data;
                    doc_stockQuantity := VNum (listedStock data);
                    doc_updatedAt := now |}).
  change (VNum (Number (or_else (doc_stockQuantity data) (VNum (Num 0)))))
    with (VNum (listedStock data)).
  fold stored.
  assert (Hstored : <[newId := stored]> db !! newId = Some stored) by apply lookup_insert_eq.
  assert (Hlisted : listedStock stored = Num (or_zero (listedStock data))).
  { unfold listedStock at 1. cbn [stored doc_stockQuantity].
    destruct (listedStock data) as [|z]; [done|]. unfold or_else. cbn.
    by destruct (Z.eqb_spec z 0) as [->|]. }
  assert (Hgt : gt (listedStock stored) 0 = gt (listedStock data) 0).
  { rewrite Hlisted. by destruct (listedStock data). }
  split; [done|]. split; [|split].
  - exists (listedProduct fournisseurs (newId, stored)).
    destruct (getProductById_by_id fournisseurs newId (<[newId := stored]> db) stored Hstored)
      as [-> _].
    split; [done|]. split; [done|]. split; [exact Hlisted|].
    rewrite getProducts_elem. cbn [id listedProduct withFournisseurName toProduct fst].
    split.
    + intros (data' & Hdb' & Hgt' & _). rewrite Hstored in Hdb'. injection Hdb' as <-.
      by rewrite <- Hgt.
    + intros Hgt'. exists stored. by rewrite Hgt.
  - rewrite Hstored. cbn. unfold currentStockOf. cbn [stored doc_stockQuantity Number].
    done.
  - intros other Hne. by rewrite lookup_insert_ne.
Qed.

End ListingMore.

(** ** Master-order synchroniser and sub-order store *)

Section MasterOrdersMore.
Import ProductService MasterOrderService.
Context {runtime : JSRuntime} {strings : JSStrings} {backend : EmailBackend}.

Lemma insertByCreatedAt_perm x l : insertByCreatedAt x l ≡ₚ x :: l.
Proof.
  induction l as [|y l IH]; [done|]. cbn [insertByCreatedAt].
  destruct (so_createdAt x.2 <=? so_createdAt y.2); [done|].
  by rewrite IH, Permutation_swap.
Qed.

Lemma sortByCreatedAt_perm l : sortByCreatedAt l ≡ₚ l.
Proof.
  induction l as [|x l IH]; [done|]. unfold sortByCreatedAt in *. cbn [foldr].
  by rewrite insertByCreatedAt_perm, IH.
Qed.

Lemma insertByCreatedAt_sorted x l :
  StronglySorted byCreation l → StronglySorted byCreation (insertByCreatedAt x l).
Proof.
  induction 1 as [|y l Hs IH Hall]; cbn [insertByCreatedAt].
  - by repeat constructor.
  - destruct (Z.leb_spec (so_createdAt x.2) (so_createdAt y.2)) as [Hle|Hgt].
    + constructor; [by constructor|]. constructor; [done|].
      eapply Forall_impl; [exact Hall|]. intros z Hz. unfold byCreation in *. lia.
    + constructor; [done|].
      rewrite insertByCreatedAt_perm. constructor; [|done]. unfold byCreation. lia.
Qed.

Lemma sortByCreatedAt_sorted l : StronglySorted byCreation (sortByCreatedAt l).
Proof.
  induction l as [|x l IH]; [constructor|].
  unfold sortByCreatedAt in *. cbn [foldr]. by apply insertByCreatedAt_sorted.
Qed.

(** X10. [getSubOrdersByMasterOrderId] answers exactly the sub-orders of
    the master order, each once, oldest first: the list is ordered by
    [createdAt], ascending. *)
Theorem subOrders_oldest_first (masterOrderId : string) (σ : Store) :
  (∀ i s, (i, s) ∈ getSubOrdersByMasterOrderId masterOrderId σ
          ↔ subOrders σ !! i = Some s ∧ so_masterOrderId s = masterOrderId) ∧
  NoDup (getSubOrdersByMasterOrderId masterOrderId σ).*1 ∧
  StronglySorted byCreation (getSubOrdersByMasterOrderId masterOrderId σ).
Proof.
  split; [|split].
  - intros i s. apply getSubOrders_elem.
  - unfold getSubOrdersByMasterOrderId. rewrite sortByCreatedAt_perm.
    apply NoDup_filter_fst, NoDup_fst_map_to_list.
  - apply sortByCreatedAt_sorted.
Qed.

Lemma allSame_intro first l : (∀ x, x ∈ l → x = first) → allSame first l = true.
Proof.
  intros Hall. unfold allSame. apply forallb_forall.
  intros x Hx%list_elem_of_In. by apply String.eqb_eq, Hall.
Qed.

(** The [every] test of the sync decides agreement of the sub-orders. *)
Lemma unanimous_iff (field : SubOrder → string) m σ first rest :
  getSubOrdersByMasterOrderId m σ = first :: rest →
  allSame (field first.2) ((λ e, field e.2) <$> first :: rest) = true ↔ agreeOn field m σ.
Proof.
  intros Hsubs.
  assert (Hfirst : subOrders σ !! first.1 = Some first.2 ∧ so_masterOrderId first.2 = m).
  { apply getSubOrders_elem. rewrite Hsubs. destruct first. by left. }
  split.
  - intros Hall i1 s1 i2 s2 H1 H2 Hm1 Hm2.
    assert (∀ i s, subOrders σ !! i = Some s → so_masterOrderId s = m →
                   field s = field first.2) as Hf.
    { intros i s Hl Hm. apply (allSame_true _ _ _ Hall).
      apply list_elem_of_fmap. exists (i, s). split; [done|].
      rewrite <- Hsubs. by apply getSubOrders_elem. }
    rewrite (Hf _ _ H1 Hm1). symmetry. by eapply Hf.
  - intros Hagree. apply allSame_intro.
    intros x ([i s] & -> & Hin)%list_elem_of_fmap.
    rewrite <- Hsubs in Hin. apply getSubOrders_elem in Hin as [Hl Hm].
    destruct Hfirst as [Hl1 Hm1]. by eapply Hagree.
Qed.

Lemma hasSubOrders_listed m σ :
  hasSubOrders m σ → ∃ first rest, getSubOrdersByMasterOrderId m σ = first :: rest.
Proof.
  intros (i & s & Hl & Hm).
  destruct (getSubOrdersByMasterOrderId m σ) as [|first rest] eqn:Hsubs; [|by eauto].
  assert (Hin : (i, s) ∈ getSubOrdersByMasterOrderId m σ) by by apply getSubOrders_elem.
  rewrite Hsubs in Hin. by apply elem_of_nil in Hin.
Qed.

Lemma listed_hasSubOrders m σ first rest :
  getSubOrdersByMasterOrderId m σ = first :: rest → hasSubOrders m σ.
Proof.
  intros Hsubs. exists first.1, first.2. apply getSubOrders_elem.
  rewrite Hsubs. destruct first. by left.
Qed.

(** X11. When the master order exists and all its sub-orders (at least
    one) carry the status [s], the sync returns normally and the master
    order carries [s] and the time of the sync; [confirmedAt] is stamped
    when [s] is ["confirmed"], [deliveredAt] when it is ["delivered"], and
    both are kept otherwise.  The payment status follows the sub-orders when
    they agree on it and is kept when they do not. *)
Theorem sync_adopts_unanimous_status (now : timestamp) (masterOrderId s : string)
    (σ : Store) (mo : MasterOrder) :
  masterOrders σ !! masterOrderId = Some mo →
  hasSubOrders masterOrderId σ →
  (∀ i so, subOrders σ !! i = Some so → so_masterOrderId so = masterOrderId →
           so_status so = s) →
  let r := syncMasterOrderStatus now masterOrderId σ in
  outcomeOf r = Returned ∧
  ∃ mo', masterOrders (storeOf r) !! masterOrderId = Some mo' ∧
    mo_status mo' = s ∧
    mo_updatedAt mo' = now ∧
    mo_confirmedAt mo' = (if String.eqb s "confirmed" then Some now else mo_confirmedAt mo) ∧
    mo_deliveredAt mo' = (if String.eqb s "delivered" then Some now else mo_deliveredAt mo) ∧
    (∀ p, (∀ i so, subOrders σ !! i = Some so → so_masterOrderId so = masterOrderId →
                   so_paymentStatus so = p) → mo_paymentStatus mo' = p) ∧
    (¬ agreeOn so_paymentStatus masterOrderId σ → mo_paymentStatus mo' = mo_paymentStatus mo).
Proof.
  intros Hmo Hhas Hall r. subst r.
  destruct (hasSubOrders_listed _ _ Hhas) as (first & rest & Hsubs).
  assert (Hfirst : subOrders σ !! first.1 = Some first.2 ∧
                   so_masterOrderId first.2 = masterOrderId).
  { apply getSubOrders_elem. rewrite Hsubs. destruct first. by left. }
  assert (Hs : so_status first.2 = s) by (destruct Hfirst; by eapply Hall).
  assert (Hagree : agreeOn so_status masterOrderId σ).
  { intros i1 s1 i2 s2 H1 H2 Hm1 Hm2. by rewrite (Hall _ _ H1 Hm1), (Hall _ _ H2 Hm2). }
  pose proof (unanimous_iff so_status _ _ _ _ Hsubs) as Hst.
  pose proof (unanimous_iff so_paymentStatus _ _ _ _ Hsubs) as Hpay.
  apply Hst in Hagree.
  unfold syncMasterOrderStatus, outcomeOf, storeOf. rewrite Hsubs. cbv zeta.
  rewrite Hagree, Hmo. cbn [orb andb fst snd setMasterOrders masterOrders].
  split; [done|]. eexists. split; [apply lookup_insert_eq|].
  cbn [applyMasterUpdate mo_status mo_updatedAt mo_confirmedAt mo_deliveredAt
       mo_paymentStatus mu_status mu_updatedAt mu_confirmedAt mu_deliveredAt
       mu_paymentStatus default from_option id].
  rewrite Hs. split; [done|]. split; [done|].
  split; [by destruct (String.eqb s "confirmed")|].
  split.
  { destruct (String.eqb_spec s "confirmed") as [->|_]; [done|].
    by destruct (String.eqb s "delivered"). }
  split.
  - intros p Hp.
    assert (Hpa : agreeOn so_paymentStatus masterOrderId σ).
    { intros i1 s1 i2 s2 H1 H2 Hm1 Hm2. by rewrite (Hp _ _ H1 Hm1), (Hp _ _ H2 Hm2). }
    apply Hpay in Hpa. rewrite Hpa. destruct Hfirst; by eapply Hp.
  - intros Hno. destruct (allSame (so_paymentStatus first.2) _); [|done].
    destruct Hno. by apply Hpay.
Qed.

(** X12. The sync raises exactly when the master order has sub-orders that
    agree on their status or on their payment status while the master order
    document itself is missing; nothing is written and nothing is sent
    then. *)
Theorem sync_raises_iff (now : timestamp) (masterOrderId : string) (σ : Store) :
  let r := syncMasterOrderStatus now masterOrderId σ in
  (outcomeOf r = Thrown "Failed to sync master order status"
   ↔ hasSubOrders masterOrderId σ ∧
     (agreeOn so_status masterOrderId σ ∨ agreeOn so_paymentStatus masterOrderId σ) ∧
     masterOrders σ !! masterOrderId = None) ∧
  (outcomeOf r ≠ Returned → outcomeOf r = Thrown "Failed to sync master order status") ∧
  (outcomeOf r ≠ Returned → storeOf r = σ ∧ eventsOf r = []).
Proof.
  cbv zeta. unfold syncMasterOrderStatus, outcomeOf, storeOf, eventsOf.
  destruct (getSubOrdersByMasterOrderId masterOrderId σ) as [|first rest] eqn:Hsubs.
  { cbn. split; [|done]. split; [done|].
    intros [Hhas _]. apply hasSubOrders_listed in Hhas as (? & ? & ?). congruence. }
  pose proof (listed_hasSubOrders _ _ _ _ Hsubs) as Hhas.
  pose proof (unanimous_iff so_status _ _ _ _ Hsubs) as Hst.
  pose proof (unanimous_iff so_paymentStatus _ _ _ _ Hsubs) as Hpay.
  cbv zeta.
  destruct (allSame (so_status first.2) _) eqn:Hs;
    destruct (allSame (so_paymentStatus first.2) _) eqn:Hp; cbn [orb];
    try (destruct (masterOrders σ !! masterOrderId) eqn:Hmo); cbn [fst snd];
    (split; [|by split]); (split; [try done|]).
  all: try (intros (_ & _ & ?); done).
  all: try (intros _; split; [done|]; split; [|done]; (left + right); by (apply Hst + apply Hpay)).
  intros (_ & [Ha|Ha] & _); [apply Hst in Ha | apply Hpay in Ha]; congruence.
Qed.

Lemma getSubOrders_setMasterOrders m σ ms :
  getSubOrdersByMasterOrderId m (setMasterOrders σ ms) = getSubOrdersByMasterOrderId m σ.
Proof. done. Qed.

(** X13. The sync touches one document only: products and sub-orders are
    as before, every other master order is as before, and it never creates
    a master order.  Run again on its own result at the same time it changes
    nothing more; run again at a later time it leaves every status and
    payment status as the first run set them. *)
Theorem sync_frame_and_idempotence (now : timestamp) (masterOrderId : string) (σ : Store) :
  let r := syncMasterOrderStatus now masterOrderId σ in
  products (storeOf r) = products σ ∧
  subOrders (storeOf r) = subOrders σ ∧
  (∀ m, m ≠ masterOrderId → masterOrders (storeOf r) !! m = masterOrders σ !! m) ∧
  (masterOrders σ !! masterOrderId = None → masterOrders (storeOf r) !! masterOrderId = None) ∧
  syncMasterOrderStatus now masterOrderId (storeOf r) = r ∧
  (∀ now' m,
     mo_status <$> (masterOrders (storeOf (syncMasterOrderStatus now' masterOrderId (storeOf r)))
                    !! m)
     = mo_status <$> (masterOrders (storeOf r) !! m) ∧
     mo_paymentStatus <$>
       (masterOrders (storeOf (syncMasterOrderStatus now' masterOrderId (storeOf r))) !! m)
     = mo_paymentStatus <$> (masterOrders (storeOf r) !! m)).
Proof.
  cbv zeta.
  split; [apply sync_products|]. split; [apply sync_subOrders|].
  unfold syncMasterOrderStatus, storeOf.
  destruct (getSubOrdersByMasterOrderId masterOrderId σ) as [|first rest] eqn:Hsubs.
  { cbn [fst snd]. rewrite Hsubs. done. }
  cbv zeta.
  destruct (_ || _) eqn:Hor.
  2:{ cbn [fst snd]. rewrite Hsubs. cbv zeta. rewrite Hor. done. }
  destruct (masterOrders σ !! masterOrderId) as [mo|] eqn:Hmo.
  2:{ cbn [fst snd]. rewrite Hsubs. cbv zeta. rewrite Hor, Hmo. cbn [fst snd]. done. }
  cbn [fst snd]. rewrite getSubOrders_setMasterOrders, Hsubs. cbv zeta. rewrite Hor.
  cbn [setMasterOrders masterOrders products subOrders].
  rewrite !lookup_insert_eq.
  split; [intros m Hne; by rewrite lookup_insert_ne|].
  split; [done|]. split.
  - cbn [fst snd setMasterOrders masterOrders products subOrders]. rewrite insert_insert_eq.
    destruct (allSame (so_status first.2) _), (allSame (so_paymentStatus first.2) _);
      cbn [andb]; try done;
      by repeat destruct (String.eqb (so_status first.2) _).
  - intros now' m. cbn [fst snd setMasterOrders masterOrders].
    rewrite insert_insert_eq.
    destruct (decide (masterOrderId = m)) as [<-|Hne].
    + rewrite !lookup_insert_eq.
      cbn [fmap option_fmap option_map applyMasterUpdate mo_status mo_paymentStatus
           mu_status mu_paymentStatus].
      by destruct (allSame (so_status first.2) _), (allSame (so_paymentStatus first.2) _).
    + by rewrite !lookup_insert_ne.
Qed.

Lemma sync_only_emails now m σ :
  List.filter isOrderNotification (eventsOf (syncMasterOrderStatus now m σ)) = [] ∧
  List.filter isPaymentNotification (eventsOf (syncMasterOrderStatus now m σ)) = [].
Proof.
  unfold syncMasterOrderStatus, eventsOf.
  destruct (getSubOrdersByMasterOrderId m σ) as [|first rest]; [done|].
  cbv zeta. destruct (_ || _); [|done].
  destruct (masterOrders σ !! m); [|done].
  cbn [snd]. unfold customerNotification.
  by repeat destruct (nonEmpty _).
Qed.

(** X16. A status update of an existing sub-order creates one order
    notification for the supplier exactly when the requested status differs
    from the stored one, and one payment notification exactly when a payment
    status is given that is not empty and differs from the stored one. *)
Theorem update_notifications (now : timestamp) (subOrderId status : string)
    (paymentStatus : option string) (σ : Store) (current : SubOrder) :
  subOrders σ !! subOrderId = Some current →
  let evs := eventsOf (updateSubOrderStatus now subOrderId status paymentStatus σ) in
  List.filter isOrderNotification evs
  = (if String.eqb status (so_status current) then []
     else [OrderNotification (so_fournisseurId current) (supplierNameOr current)
             (getOrderNotificationSubType status)]) ∧
  List.filter isPaymentNotification evs
  = (match paymentStatus with
     | Some p =>
         if nonEmpty p && negb (String.eqb p (so_paymentStatus current))
         then [PaymentNotification (so_fournisseurId current) (supplierNameOr current)
                 (getPaymentNotificationSubType p)]
         else []
     | None => []
     end).
Proof.
  intros Hcur evs. subst evs. unfold updateSubOrderStatus. rewrite Hcur.
  set (statusEvents := if negb (String.eqb status (so_status current)) then _ else _).
  set (paymentEvents := match paymentStatus with Some _ => _ | None => _ end).
  assert (Hs1 : List.filter isOrderNotification statusEvents
                = if String.eqb status (so_status current) then []
                  else [OrderNotification (so_fournisseurId current) (supplierNameOr current)
                          (getOrderNotificationSubType status)]).
  { subst statusEvents. by destruct (String.eqb status (so_status current)). }
  assert (Hs2 : List.filter isPaymentNotification statusEvents = []).
  { subst statusEvents. by destruct (String.eqb status (so_status current)). }
  assert (Hp1 : List.filter isOrderNotification paymentEvents = []).
  { subst paymentEvents. destruct paymentStatus as [p|]; [|done].
    by destruct (nonEmpty p && _). }
  assert (Hp2 : List.filter isPaymentNotification paymentEvents = paymentEvents).
  { subst paymentEvents. destruct paymentStatus as [p|]; [|done].
    by destruct (nonEmpty p && _). }
  assert (Hgoal : ∀ (σ1 : Store) (stockEvents : list Event),
    List.filter isOrderNotification stockEvents = [] →
    List.filter isPaymentNotification stockEvents = [] →
    let '(r, σ3, syncEvents) :=
      syncMasterOrderStatus now (so_masterOrderId current)
        (setSubOrders σ1
           (<[subOrderId := applySubOrderUpdate now status paymentStatus current]>
              (subOrders σ1))) in
    List.filter isOrderNotification
      (stockEvents ++ statusEvents ++ paymentEvents ++ syncEvents)
    = List.filter isOrderNotification statusEvents ∧
    List.filter isPaymentNotification
      (stockEvents ++ statusEvents ++ paymentEvents ++ syncEvents)
    = paymentEvents).
  { intros σ1 stockEvents Hk1 Hk2.
    destruct (sync_only_emails now (so_masterOrderId current)
                (setSubOrders σ1
                   (<[subOrderId := applySubOrderUpdate now status paymentStatus current]>
                      (subOrders σ1)))) as [Ho Hp].
    destruct (syncMasterOrderStatus _ _ _) as [[o σ3] syncEvents].
    unfold eventsOf in Ho, Hp. cbn [snd] in Ho, Hp.
    rewrite !List.filter_app, Hk1, Hk2, Hs2, Hp1, Hp2, Ho, Hp.
    by rewrite !app_nil_r. }
  rewrite <- Hs1.
  destruct (String.eqb status "out_for_delivery" && _).
  - destruct (decrementMultipleProductsStock _ _ _) as [res ps].
    specialize (Hgoal (setProducts σ ps)
                  [StockDecrement (stockItemsOf current) res] eq_refl eq_refl).
    destruct (syncMasterOrderStatus _ _ _) as [[o σ3] syncEvents].
    exact Hgoal.
  - specialize (Hgoal σ [] eq_refl eq_refl).
    destruct (syncMasterOrderStatus _ _ _) as [[o σ3] syncEvents].
    exact Hgoal.
Qed.

(** The sync raises exactly when the master order has sub-orders that
    agree on a status or a payment status and no document of its own. *)
Lemma sync_raises now m σ :
  outcomeOf (syncMasterOrderStatus now m σ) ≠ Returned
  ↔ hasSubOrders m σ ∧
    (agreeOn so_status m σ ∨ agreeOn so_paymentStatus m σ) ∧
    masterOrders σ !! m = None.
Proof.
  unfold syncMasterOrderStatus, outcomeOf.
  destruct (getSubOrdersByMasterOrderId m σ) as [|first rest] eqn:Hsubs.
  { cbn. split; [done|].
    intros [Hhas _]. apply hasSubOrders_listed in Hhas as (? & ? & ?). congruence. }
  pose proof (listed_hasSubOrders _ _ _ _ Hsubs) as Hhas.
  pose proof (unanimous_iff so_status _ _ _ _ Hsubs) as Hst.
  pose proof (unanimous_iff so_paymentStatus _ _ _ _ Hsubs) as Hpay.
  cbv zeta.
  destruct (allSame (so_status first.2) _) eqn:Hs;
    destruct (allSame (so_paymentStatus first.2) _) eqn:Hp; cbn [orb];
    try (destruct (masterOrders σ !! m) eqn:Hmo); cbn [fst snd];
    (split; [try done|]).
  all: try (intros (_ & _ & ?); done).
  all: try (intros _; split; [done|]; split; [|done]; (left + right); by (apply Hst + apply Hpay)).
  intros (_ & [Ha|Ha] & _); [apply Hst in Ha | apply Hpay in Ha]; congruence.
Qed.

Lemma rethrown_returned o : rethrown o = Returned ↔ o = Returned.
Proof. by destruct o. Qed.

(** X14. A status update rewrites the one sub-order and no other.  The
    document keeps its items, master order and creation time, takes the
    status and the time of the call, and takes the payment status only when
    a non-empty one is given.  [confirmedAt] is stamped by every update to
    ["confirmed"], [deliveredAt] by every update to ["delivered"], also when
    it was set before; any other status leaves both as they were. *)
Theorem update_writes_subOrder (now : timestamp) (subOrderId status : string)
    (paymentStatus : option string) (σ : Store) (current : SubOrder) :
  subOrders σ !! subOrderId = Some current →
  let r := updateSubOrderStatus now subOrderId status paymentStatus σ in
  (∀ other, other ≠ subOrderId → subOrders (storeOf r) !! other = subOrders σ !! other) ∧
  ∃ written, subOrders (storeOf r) !! subOrderId = Some written ∧
    so_status written = status ∧
    so_updatedAt written = now ∧
    so_items written = so_items current ∧
    so_masterOrderId written = so_masterOrderId current ∧
    so_createdAt written = so_createdAt current ∧
    so_confirmedAt written
      = (if String.eqb status "confirmed" then Some now else so_confirmedAt current) ∧
    so_deliveredAt written
      = (if String.eqb status "delivered" then Some now else so_deliveredAt current) ∧
    so_paymentStatus written
      = (match paymentStatus with
         | Some p => if String.eqb p "" then so_paymentStatus current else p
         | None => so_paymentStatus current
         end).
Proof.
  intros Hcur r.
  destruct (updateSubOrderStatus_found now subOrderId status paymentStatus σ current Hcur)
    as (_ & Hstore & _).
  fold r in Hstore. rewrite Hstore. cbn [setProducts subOrders].
  rewrite sync_subOrders. cbn [withStatusWritten setSubOrders subOrders].
  split; [intros other Hne; by rewrite lookup_insert_ne|].
  eexists. split; [apply lookup_insert_eq|].
  cbn. repeat split.
  - destruct (String.eqb_spec status "confirmed") as [->|_]; [done|].
    by destruct (String.eqb status "delivered").
  - destruct paymentStatus as [p|]; [|done]. unfold nonEmpty.
    by destruct (String.eqb p "").
Qed.

(** X15. A status update of an existing sub-order is not undone when the
    call raises.  The call raises, always as ["Failed to update order
    status"], exactly when the master order document is missing while the
    sub-orders, as they are after the write, agree on their status or on
    their payment status.  Also then the sub-order carries the new status
    and the stock decrement of a transition to ["out_for_delivery"] stays
    applied; only the master orders are as before. *)
Theorem update_persists_when_raising (now : timestamp) (subOrderId status : string)
    (paymentStatus : option string) (σ : Store) (current : SubOrder) :
  subOrders σ !! subOrderId = Some current →
  let r := updateSubOrderStatus now subOrderId status paymentStatus σ in
  let written := withStatusWritten now subOrderId status paymentStatus current σ in
  (outcomeOf r = Thrown "Failed to update order status"
   ↔ masterOrders σ !! so_masterOrderId current = None ∧
     (agreeOn so_status (so_masterOrderId current) written ∨
      agreeOn so_paymentStatus (so_masterOrderId current) written)) ∧
  (outcomeOf r = Returned ∨ outcomeOf r = Thrown "Failed to update order status") ∧
  subOrders (storeOf r) = subOrders written ∧
  so_status <$> (subOrders (storeOf r) !! subOrderId) = Some status ∧
  (outcomeOf r ≠ Returned → masterOrders (storeOf r) = masterOrders σ) ∧
  products (storeOf r)
  = (if String.eqb status "out_for_delivery"
        && negb (String.eqb (so_status current) "out_for_delivery")
     then (decrementMultipleProductsStock now (stockItemsOf current) (products σ)).2
     else products σ).
Proof.
  intros Hcur r written.
  destruct (updateSubOrderStatus_found now subOrderId status paymentStatus σ current Hcur)
    as (Hout & Hstore & _).
  fold r written in Hout, Hstore.
  pose proof (sync_raises now (so_masterOrderId current) written) as Hraise.
  assert (Hhas : hasSubOrders (so_masterOrderId current) written).
  { exists subOrderId, (applySubOrderUpdate now status paymentStatus current).
    split; [apply lookup_insert_eq | done]. }
  assert (Hiff : outcomeOf r ≠ Returned
                 ↔ masterOrders σ !! so_masterOrderId current = None ∧
                   (agreeOn so_status (so_masterOrderId current) written ∨
                    agreeOn so_paymentStatus (so_masterOrderId current) written)).
  { rewrite Hout, rethrown_returned, Hraise.
    change (masterOrders written) with (masterOrders σ). tauto. }
  assert (Hcases : outcomeOf r = Returned ∨ outcomeOf r = Thrown "Failed to update order status").
  { rewrite Hout. destruct (outcomeOf (syncMasterOrderStatus _ _ _)); cbn; [by left | by right]. }
  split; [|split; [done|]].
  { rewrite <- Hiff. destruct Hcases as [->| ->]; split; done. }
  rewrite Hstore. cbn [setProducts subOrders masterOrders products].
  rewrite sync_subOrders.
  split; [done|]. split; [cbn; by rewrite lookup_insert_eq|].
  split; [|done].
  intros Hne. rewrite Hout, rethrown_returned in Hne.
  unfold syncMasterOrderStatus, outcomeOf, storeOf in *.
  destruct (getSubOrdersByMasterOrderId _ written) as [|first rest]; [done|].
  cbv zeta in *. destruct (_ || _); [|done].
  change (masterOrders written) with (masterOrders σ) in *.
  by destruct (masterOrders σ !! so_masterOrderId current).
Qed.

Lemma no_line_for pid (items : list StockItem) :
  pid ∉ productId <$> items →
  List.filter (λ item, String.eqb (productId item) pid) items = [].
Proof.
  induction items as [|x l IH]; [done|].
  cbn [fmap list_fmap]. intros [Hne Hnot]%not_elem_of_cons.
  cbn [List.filter]. destruct (String.eqb_spec (productId x) pid); [congruence|].
  by apply IH.
Qed.

Lemma stockItemsOf_ids current :
  productId <$> stockItemsOf current = item_productId <$> so_items current.
Proof. unfold stockItemsOf. by rewrite <- list_fmap_compose. Qed.

(** X17. When a sub-order whose items name distinct products, each held in
    sufficient quantity, is sent out for delivery, every item's product ends
    with its stock reduced by the ordered quantity, and every product the
    sub-order does not name is untouched. *)
Theorem out_for_delivery_decrements_every_item (now : timestamp) (subOrderId : string)
    (paymentStatus : option string) (σ : Store) (current : SubOrder) :
  subOrders σ !! subOrderId = Some current →
  so_status current ≠ "out_for_delivery" →
  NoDup (item_productId <$> so_items current) →
  (∀ item, item ∈ so_items current →
     ∃ data, products σ !! item_productId item = Some data ∧
             item_quantity item ≤ currentStockOf data) →
  let r := updateSubOrderStatus now subOrderId "out_for_delivery" paymentStatus σ in
  (∀ item, item ∈ so_items current →
     ∃ data, products σ !! item_productId item = Some data ∧
       currentStockOf <$> (products (storeOf r) !! item_productId item)
       = Some (currentStockOf data - item_quantity item)) ∧
  (∀ pid, pid ∉ item_productId <$> so_items current →
     products (storeOf r) !! pid = products σ !! pid).
Proof.
  intros Hcur Hprev Hnd Hstock r.
  destruct (updateSubOrderStatus_found now subOrderId "out_for_delivery" paymentStatus
              σ current Hcur) as (_ & Hstore & _).
  fold r in Hstore.
  assert (String.eqb "out_for_delivery" "out_for_delivery"
          && negb (String.eqb (so_status current) "out_for_delivery") = true) as Hshould.
  { by apply should_decrement_spec. }
  rewrite Hshould in Hstore.
  assert (Hall : Forall (λ item, failingLine (products σ) item = false) (stockItemsOf current)).
  { apply Forall_forall. intros line (item & -> & Hin)%list_elem_of_fmap.
    destruct (Hstock item Hin) as (data & Hdb & Hle).
    unfold failingLine. cbn [productId quantity]. rewrite Hdb. by apply Z.ltb_ge. }
  rewrite Hstore. cbn [setProducts products].
  rewrite accepted_batch by done. cbn [snd].
  split.
  - intros item Hin. destruct (Hstock item Hin) as (data & Hdb & Hle).
    exists data. split; [done|].
    rewrite commit_lookup by done.
    rewrite (lastLineFor_unique _ _
               {| productId := item_productId item; quantity := item_quantity item |}).
    + by rewrite Hdb.
    + by rewrite stockItemsOf_ids.
    + apply list_elem_of_fmap. by exists item.
    + done.
  - intros pid Hnot. rewrite commit_lookup by done.
    unfold lastLineFor.
    rewrite <- stockItemsOf_ids in Hnot. by rewrite (no_line_for _ _ Hnot).
Qed.

(** X18. The decrement is tied to the transition, not to the sub-order: a
    sub-order sent out for delivery, moved to any other status and sent out
    for delivery again has the stock decrement invoked a second time. *)
Theorem reentering_out_for_delivery_decrements_again (now1 now2 now3 : timestamp)
    (subOrderId other : string) (p1 p2 p3 : option string) (σ : Store) (current : SubOrder) :
  subOrders σ !! subOrderId = Some current →
  so_status current ≠ "out_for_delivery" →
  other ≠ "out_for_delivery" →
  let r1 := updateSubOrderStatus now1 subOrderId "out_for_delivery" p1 σ in
  let r2 := updateSubOrderStatus now2 subOrderId other p2 (storeOf r1) in
  let r3 := updateSubOrderStatus now3 subOrderId "out_for_delivery" p3 (storeOf r2) in
  stockDecrementCalls (eventsOf r1) = 1%nat ∧
  stockDecrementCalls (eventsOf r2) = 0%nat ∧
  stockDecrementCalls (eventsOf r3) = 1%nat.
Proof.
  intros Hcur Hprev Hother r1 r2 r3.
  destruct (updateSubOrderStatus_found now1 subOrderId "out_for_delivery" p1 σ current Hcur)
    as (_ & Hstore1 & Hcalls1).
  fold r1 in Hstore1, Hcalls1.
  assert (Hcur2 : subOrders (storeOf r1) !! subOrderId
                  = Some (applySubOrderUpdate now1 "out_for_delivery" p1 current)).
  { rewrite Hstore1. cbn [setProducts subOrders]. apply written_subOrder. }
  destruct (updateSubOrderStatus_found now2 subOrderId other p2 (storeOf r1) _ Hcur2)
    as (_ & Hstore2 & Hcalls2).
  fold r2 in Hstore2, Hcalls2.
  assert (Hcur3 : subOrders (storeOf r2) !! subOrderId
                  = Some (applySubOrderUpdate now2 other p2
                            (applySubOrderUpdate now1 "out_for_delivery" p1 current))).
  { rewrite Hstore2. cbn [setProducts subOrders]. apply written_subOrder. }
  destruct (updateSubOrderStatus_found now3 subOrderId "out_for_delivery" p3 (storeOf r2) _ Hcur3)
    as (_ & _ & Hcalls3).
  fold r3 in Hcalls3.
  unfold stockDecrementCalls. rewrite Hcalls1, Hcalls2, Hcalls3.
  cbn [applySubOrderUpdate so_status].
  assert (String.eqb "out_for_delivery" "out_for_delivery"
          && negb (String.eqb (so_status current) "out_for_delivery") = true) as ->.
  { by apply should_decrement_spec. }
  assert (String.eqb other "out_for_delivery" = false) as -> by by apply String.eqb_neq.
  done.
Qed.


End MasterOrdersMore.

(** * The status path: stock trigger and not-found conditions *)

Section StatusPath.
Import ProductService MasterOrderService.
Context {runtime : JSRuntime} {strings : JSStrings} {backend : EmailBackend}.

(** What a passing batch over the lines of a sub-order leaves in the
    products collection. *)
Lemma subOrder_lines_applied now (current : SubOrder) (db : gmap string ProductDoc) :
  NoDup (item_productId <$> so_items current) →
  (∀ item, item ∈ so_items current →
     ∃ data, db !! item_productId item = Some data ∧
             item_quantity item ≤ currentStockOf data) →
  let db' := (decrementMultipleProductsStock now (stockItemsOf current) db).2 in
  (∀ item, item ∈ so_items current →
     ∃ data, db !! item_productId item = Some data ∧
       currentStockOf <$> (db' !! item_productId item)
       = Some (currentStockOf data - item_quantity item)) ∧
  (∀ pid, pid ∉ item_productId <$> so_items current → db' !! pid = db !! pid).
Proof.
  intros Hnd Hstock db'. subst db'.
  assert (Hall : Forall (λ item, failingLine db item = false) (stockItemsOf current)).
  { apply Forall_forall. intros line (item & -> & Hin)%list_elem_of_fmap.
    destruct (Hstock item Hin) as (data & Hdb & Hle).
    unfold failingLine. cbn [productId quantity]. rewrite Hdb. by apply Z.ltb_ge. }
  rewrite accepted_batch by done. cbn [snd].
  split.
  - intros item Hin. destruct (Hstock item Hin) as (data & Hdb & Hle).
    exists data. split; [done|].
    rewrite commit_lookup by done.
    rewrite (lastLineFor_unique _ _
               {| productId := item_productId item; quantity := item_quantity item |}).
    + by rewrite Hdb.
    + by rewrite stockItemsOf_ids.
    + apply list_elem_of_fmap. by exists item.
    + done.
  - intros pid Hnot. rewrite commit_lookup by done.
    unfold lastLineFor.
    rewrite <- stockItemsOf_ids in Hnot. by rewrite (no_line_for _ _ Hnot).
Qed.

(** C3. For a sub-order that exists, [updateSubOrderStatus] invokes the
    stock decrement exactly when the requested status is
    ["out_for_delivery"] and the stored status is not.  It invokes it at
    most once, on the lines of the sub-order (one per item, its product and
    its quantity), and the products collection afterwards is the one that
    batch leaves; otherwise the products are left alone.  Hence two calls in
    a row with ["out_for_delivery"] decrement the stock once: the first
    applies the batch, the second invokes no decrement and writes no
    product, so that, when the items name distinct products held in
    sufficient quantity, every ordered product ends with its stock reduced
    by the ordered quantity, once, and every other product is as before. *)
Theorem stock_decrement_trigger (now : timestamp) (subOrderId status : string)
    (paymentStatus : option string) (σ : Store) (current : SubOrder) :
  subOrders σ !! subOrderId = Some current →
  let r := updateSubOrderStatus now subOrderId status paymentStatus σ in
  let lines := (λ item, {| productId := item_productId item; quantity := item_quantity item |})
                 <$> so_items current in
  let batch := decrementMultipleProductsStock now lines (products σ) in
  (stockDecrementCalls (eventsOf r) = 1%nat
   ↔ status = "out_for_delivery" ∧ so_status current ≠ "out_for_delivery") ∧
  (stockDecrementCalls (eventsOf r) = 0%nat
   ↔ ¬ (status = "out_for_delivery" ∧ so_status current ≠ "out_for_delivery")) ∧
  (stockDecrementCalls (eventsOf r) = 1%nat →
   List.filter isStockDecrement (eventsOf r) = [StockDecrement lines batch.1] ∧
   products (storeOf r) = batch.2) ∧
  (stockDecrementCalls (eventsOf r) = 0%nat → products (storeOf r) = products σ) ∧
  (so_status current ≠ "out_for_delivery" →
   ∀ now' paymentStatus',
     let first := updateSubOrderStatus now subOrderId "out_for_delivery" paymentStatus σ in
     let second :=
       updateSubOrderStatus now' subOrderId "out_for_delivery" paymentStatus' (storeOf first) in
     stockDecrementCalls (eventsOf first) = 1%nat ∧
     stockDecrementCalls (eventsOf second) = 0%nat ∧
     products (storeOf second) = products (storeOf first) ∧
     products (storeOf first) = batch.2 ∧
     (NoDup (item_productId <$> so_items current) →
      (∀ item, item ∈ so_items current →
         ∃ data, products σ !! item_productId item = Some data ∧
                 item_quantity item ≤ currentStockOf data) →
      (∀ item, item ∈ so_items current →
         ∃ data, products σ !! item_productId item = Some data ∧
           currentStockOf <$> (products (storeOf second) !! item_productId item)
           = Some (currentStockOf data - item_quantity item)) ∧
      (∀ pid, pid ∉ item_productId <$> so_items current →
         products (storeOf second) !! pid = products σ !! pid))).
Proof.
  intros Hcur r lines batch.
  change lines with (stockItemsOf current) in batch. change lines with (stockItemsOf current).
  clear lines.
  assert (Hfirst : so_status current ≠ "out_for_delivery" →
            products (storeOf (updateSubOrderStatus now subOrderId "out_for_delivery"
                                 paymentStatus σ)) = batch.2).
  { intros Hprev.
    destruct (updateSubOrderStatus_found now subOrderId "out_for_delivery" paymentStatus
                σ current Hcur) as (_ & Hstore1 & _).
    rewrite Hstore1.
    assert (String.eqb "out_for_delivery" "out_for_delivery"
            && negb (String.eqb (so_status current) "out_for_delivery") = true) as ->.
    { by apply should_decrement_spec. }
    done. }
  assert (Htwice : so_status current ≠ "out_for_delivery" →
   ∀ now' paymentStatus',
     let first := updateSubOrderStatus now subOrderId "out_for_delivery" paymentStatus σ in
     let second :=
       updateSubOrderStatus now' subOrderId "out_for_delivery" paymentStatus' (storeOf first) in
     stockDecrementCalls (eventsOf first) = 1%nat ∧
     stockDecrementCalls (eventsOf second) = 0%nat ∧
     products (storeOf second) = products (storeOf first) ∧
     products (storeOf first) = batch.2 ∧
     (NoDup (item_productId <$> so_items current) →
      (∀ item, item ∈ so_items current →
         ∃ data, products σ !! item_productId item = Some data ∧
                 item_quantity item ≤ currentStockOf data) →
      (∀ item, item ∈ so_items current →
         ∃ data, products σ !! item_productId item = Some data ∧
           currentStockOf <$> (products (storeOf second) !! item_productId item)
           = Some (currentStockOf data - item_quantity item)) ∧
      (∀ pid, pid ∉ item_productId <$> so_items current →
         products (storeOf second) !! pid = products σ !! pid))).
  { intros Hprev now' paymentStatus' first second.
    destruct (twice_out_for_delivery now now' subOrderId paymentStatus paymentStatus'
                σ current Hcur Hprev) as (H1 & H2 & Hsame).
    fold first second in H1, H2, Hsame.
    specialize (Hfirst Hprev). fold first in Hfirst.
    split; [done|]. split; [done|]. split; [done|]. split; [done|].
    intros Hnd Hstock. rewrite Hsame, Hfirst.
    by apply subOrder_lines_applied. }
  destruct (updateSubOrderStatus_found now subOrderId status paymentStatus σ current Hcur)
    as (_ & Hstore & Hcalls).
  fold r batch in Hstore, Hcalls. unfold stockDecrementCalls in *. rewrite Hcalls, Hstore.
  pose proof (should_decrement_spec status (so_status current)) as Hspec.
  destruct (_ && _) eqn:Hshould; cbn [length].
  - assert (Hc : status = "out_for_delivery" ∧ so_status current ≠ "out_for_delivery")
      by by apply Hspec.
    split; [done|]. split; [split; [done | intros Hno; by destruct Hno]|].
    split; [done|]. split; [done | exact Htwice].
  - assert (Hc : ¬ (status = "out_for_delivery" ∧ so_status current ≠ "out_for_delivery")).
    { intros Hc. apply Hspec in Hc. done. }
    split; [split; [done | intros; by destruct Hc]|].
    split; [done|]. split; [done|]. split; [intros _; reflexivity | exact Htwice].
Qed.

Lemma sync_outcomes now m σ :
  outcomeOf (syncMasterOrderStatus now m σ) = Returned ∨
  outcomeOf (syncMasterOrderStatus now m σ) = Thrown "Failed to sync master order status".
Proof.
  unfold syncMasterOrderStatus, outcomeOf.
  destruct (getSubOrdersByMasterOrderId m σ) as [|first rest]; [by left|].
  cbv zeta. destruct (_ || _); [|by left].
  destruct (masterOrders σ !! m); [by left | by right].
Qed.

(** C7, as the code has it.  Two not-found conditions of the status path
    are raised to the caller and two are not.  A status update for a
    sub-order id that does not exist is raised as ["Failed to update order
    status"], with nothing written and nothing invoked.  A master-order
    document that is missing is raised by the sync, as ["Failed to sync
    master order status"], exactly when the master order has sub-orders that
    agree on their status or on their payment status; a status update of an
    existing sub-order raises in exactly that case, as ["Failed to update
    order status"], after the sub-order was written, and returns in every
    other case, whatever the products collection holds.  Answered without
    an exception: a master order without sub-orders makes the sync a no-op,
    and a missing product makes the stock decrement answer [success = false]
    with the error of that line and no write. *)
Theorem not_found_conditions (now : timestamp) (subOrderId status : string)
    (paymentStatus : option string) (σ : Store) :
  (subOrders σ !! subOrderId = None →
   updateSubOrderStatus now subOrderId status paymentStatus σ
   = (Thrown "Failed to update order status", σ, [])) ∧
  (∀ current, subOrders σ !! subOrderId = Some current →
     let r := updateSubOrderStatus now subOrderId status paymentStatus σ in
     let written := withStatusWritten now subOrderId status paymentStatus current σ in
     (outcomeOf r = Thrown "Failed to update order status"
      ↔ masterOrders σ !! so_masterOrderId current = None ∧
        (agreeOn so_status (so_masterOrderId current) written ∨
         agreeOn so_paymentStatus (so_masterOrderId current) written)) ∧
     (outcomeOf r = Returned ∨ outcomeOf r = Thrown "Failed to update order status") ∧
     so_status <$> (subOrders (storeOf r) !! subOrderId) = Some status) ∧
  (∀ m,
     let r := syncMasterOrderStatus now m σ in
     (outcomeOf r = Thrown "Failed to sync master order status"
      ↔ hasSubOrders m σ ∧
        (agreeOn so_status m σ ∨ agreeOn so_paymentStatus m σ) ∧
        masterOrders σ !! m = None) ∧
     (outcomeOf r = Returned ∨ outcomeOf r = Thrown "Failed to sync master order status") ∧
     (outcomeOf r ≠ Returned → storeOf r = σ ∧ eventsOf r = [])) ∧
  (∀ m, (∀ i s, subOrders σ !! i = Some s → so_masterOrderId s ≠ m) →
        syncMasterOrderStatus now m σ = (Returned, σ, [])) ∧
  (∀ items item,
     item ∈ items → products σ !! productId item = None →
     success (decrementMultipleProductsStock now items (products σ)).1 = false ∧
     ("Product " +:+ productId item +:+ " not found")
       ∈ errors (decrementMultipleProductsStock now items (products σ)).1 ∧
     (decrementMultipleProductsStock now items (products σ)).2 = products σ).
Proof.
  split; [|split; [|split; [|split]]].
  - intros Hnone. unfold updateSubOrderStatus. by rewrite Hnone.
  - intros current Hcur r written.
    destruct (updateSubOrderStatus_found now subOrderId status paymentStatus σ current Hcur)
      as (Hout & Hstore & _).
    fold r written in Hout, Hstore.
    pose proof (sync_raises now (so_masterOrderId current) written) as Hraise.
    assert (Hhas : hasSubOrders (so_masterOrderId current) written).
    { exists subOrderId, (applySubOrderUpdate now status paymentStatus current).
      split; [apply lookup_insert_eq | done]. }
    assert (Hiff : outcomeOf r ≠ Returned
                   ↔ masterOrders σ !! so_masterOrderId current = None ∧
                     (agreeOn so_status (so_masterOrderId current) written ∨
                      agreeOn so_paymentStatus (so_masterOrderId current) written)).
    { rewrite Hout, rethrown_returned, Hraise.
      change (masterOrders written) with (masterOrders σ). tauto. }
    assert (Hcases : outcomeOf r = Returned
                     ∨ outcomeOf r = Thrown "Failed to update order status").
    { rewrite Hout. destruct (outcomeOf (syncMasterOrderStatus _ _ _)); cbn;
        [by left | by right]. }
    split; [|split; [done|]].
    + rewrite <- Hiff. destruct Hcases as [->| ->]; split; done.
    + rewrite Hstore. cbn [setProducts subOrders]. rewrite sync_subOrders.
      cbn. by rewrite lookup_insert_eq.
  - intros m r.
    pose proof (sync_raises now m σ) as Hraise. fold r in Hraise.
    pose proof (sync_outcomes now m σ) as Hcases. fold r in Hcases.
    split; [|split; [done|]].
    + rewrite <- Hraise. destruct Hcases as [->| ->]; split; done.
    + intros Hne. subst r. unfold syncMasterOrderStatus, outcomeOf, storeOf, eventsOf in *.
      destruct (getSubOrdersByMasterOrderId m σ) as [|first rest]; [done|].
      cbv zeta in *. destruct (_ || _); [|done].
      by destruct (masterOrders σ !! m).
  - intros m Hm. unfold syncMasterOrderStatus. by rewrite no_subOrders_listed.
  - intros items item Hin Hmissing.
    assert (Hfail : failingLine (products σ) item = true).
    { unfold failingLine. by rewrite Hmissing. }
    rewrite (rejected_batch now items (products σ) item Hin Hfail).
    cbn [fst snd success errors].
    split; [done|]. split; [|done].
    apply list_elem_of_fmap. exists item. split.
    + unfold lineError. by rewrite Hmissing.
    + apply list_elem_of_In, filter_In. split; [by apply list_elem_of_In | done].
Qed.

End StatusPath.

(** S2, one piece of A, is sent out for delivery twice: the first call
    invokes the decrement on the line [A: 1], the second invokes none, and
    after both A holds 9 (of 10) and B still 3. *)
Lemma stock_decrement_trigger_witness :
  let first := MasterOrderService.updateSubOrderStatus
                 (runtime := decimalStringToNumber) (strings := asciiStrings)
                 (backend := exampleBackend)
                 1000 "S2" "out_for_delivery" None exampleStore in
  let second := MasterOrderService.updateSubOrderStatus
                  (runtime := decimalStringToNumber) (strings := asciiStrings)
                  (backend := exampleBackend)
                  2000 "S2" "out_for_delivery" None (storeOf first) in
  MasterOrderService.subOrders exampleStore !! "S2"
    = Some (exampleSubOrder "Y" [exampleItem "A" 1] 1500 "pending" 20) ∧
  List.filter isStockDecrement (eventsOf first)
    = [MasterOrderService.StockDecrement
         [ {| ProductService.productId := "A"; ProductService.quantity := 1 |} ]
         {| ProductService.success := true; ProductService.errors := [] |}] ∧
  stockDecrementCalls (eventsOf first) = 1%nat ∧
  stockDecrementCalls (eventsOf second) = 0%nat ∧
  MasterOrderService.products (storeOf second) = MasterOrderService.products (storeOf first) ∧
  ProductService.currentStockOf (runtime := decimalStringToNumber) <$>
    (MasterOrderService.products (storeOf second) !! "A") = Some 9 ∧
  MasterOrderService.products (storeOf second) !! "B"
    = MasterOrderService.products exampleStore !! "B".
Proof.
  intros first second.
  assert (Hcur : MasterOrderService.subOrders exampleStore !! "S2"
                 = Some (exampleSubOrder "Y" [exampleItem "A" 1] 1500 "pending" 20)).
  { vm_compute. reflexivity. }
  split; [exact Hcur|].
  destruct (stock_decrement_trigger (runtime := decimalStringToNumber)
              (strings := asciiStrings) (backend := exampleBackend)
              1000 "S2" "out_for_delivery" None exampleStore _ Hcur)
    as (Hone & _ & Hbatch & _ & Htwice).
  assert (Hprev : MasterOrderService.so_status
                    (exampleSubOrder "Y" [exampleItem "A" 1] 1500 "pending" 20)
                  ≠ "out_for_delivery") by (vm_compute; discriminate).
  destruct (Htwice Hprev 2000 None) as (Hcalls1 & Hcalls2 & Hsame & _ & Hstock).
  fold first in Hone, Hbatch, Hcalls1, Hcalls2, Hsame, Hstock.
  fold second in Hcalls2, Hsame, Hstock.
  destruct (Hbatch Hcalls1) as [Hevent _].
  destruct Hstock as [Hitems Hothers].
  - apply NoDup_singleton.
  - intros item Hin. apply list_elem_of_singleton in Hin as ->.
    exists (exampleProduct 10). split; [vm_compute; reflexivity | vm_compute; discriminate].
  - split; [rewrite Hevent; vm_compute; reflexivity|].
    split; [exact Hcalls1|]. split; [exact Hcalls2|]. split; [exact Hsame|].
    split.
    + destruct (Hitems (exampleItem "A" 1)) as (data & Hdata & Hafter).
      { apply list_elem_of_singleton. reflexivity. }
      cbn [MasterOrderService.item_productId MasterOrderService.item_quantity exampleItem]
        in Hafter.
      rewrite Hafter.
      assert (data = exampleProduct 10) as ->.
      { assert (Hex : MasterOrderService.products exampleStore !! "A" = Some (exampleProduct 10))
          by (vm_compute; reflexivity).
        cbn [MasterOrderService.item_productId exampleItem] in Hdata. congruence. }
      vm_compute. reflexivity.
    + apply Hothers. intros Hin. apply list_elem_of_singleton in Hin. discriminate.
Defined.

(** Two not-found conditions on the example store: the id S404 is no
    sub-order, and, with the master orders removed, confirming S2 writes S2
    and raises. *)
Lemma not_found_conditions_witness :
  MasterOrderService.updateSubOrderStatus
    (runtime := decimalStringToNumber) (strings := asciiStrings) (backend := exampleBackend)
    1000 "S404" "confirmed" None exampleStore
  = (MasterOrderService.Thrown "Failed to update order status", exampleStore, []) ∧
  let σ := MasterOrderService.setMasterOrders exampleStore ∅ in
  let r := MasterOrderService.updateSubOrderStatus
             (runtime := decimalStringToNumber) (strings := asciiStrings)
             (backend := exampleBackend) 1000 "S2" "confirmed" None σ in
  outcomeOf r = MasterOrderService.Thrown "Failed to update order status" ∧
  MasterOrderService.so_status <$> (MasterOrderService.subOrders (storeOf r) !! "S2")
  = Some "confirmed".
Proof.
  split.
  - apply (proj1 (not_found_conditions (runtime := decimalStringToNumber)
                    (strings := asciiStrings) (backend := exampleBackend)
                    1000 "S404" "confirmed" None exampleStore)).
    vm_compute. reflexivity.
  - intros σ r.
    destruct (proj1 (proj2 (not_found_conditions (runtime := decimalStringToNumber)
                (strings := asciiStrings) (backend := exampleBackend)
                1000 "S2" "confirmed" None σ))
                (exampleSubOrder "Y" [exampleItem "A" 1] 1500 "pending" 20))
      as (Hiff & _ & Hstatus).
    + vm_compute. reflexivity.
    + fold r in Hiff, Hstatus. split; [|exact Hstatus].
      apply Hiff. split; [vm_compute; reflexivity|].
      right. intros i1 s1 i2 s2 H1 H2 _ _.
      assert (Hpay : ∀ i s,
                MasterOrderService.subOrders
                  (withStatusWritten 1000 "S2" "confirmed" None
                     (exampleSubOrder "Y" [exampleItem "A" 1] 1500 "pending" 20) σ) !! i
                = Some s →
                MasterOrderService.so_paymentStatus s = "pending").
      { intros i s. unfold withStatusWritten, σ, exampleStore.
        cbn [MasterOrderService.setSubOrders MasterOrderService.setMasterOrders
             MasterOrderService.subOrders].
        rewrite lookup_insert. case_decide; [by intros [= <-]|].
        rewrite lookup_insert. case_decide; [by intros [= <-]|].
        rewrite lookup_insert. case_decide; [by intros [= <-]|].
        by rewrite lookup_empty. }
      by rewrite (Hpay _ _ H1), (Hpay _ _ H2).
Defined.

(** * More on the change-feed listener *)

Section ChangeFeedMore.
Import Notifications OrderNotificationTrigger.
Context {relay : MailRelay}.

Lemma split_nonempty sep s : split sep s ≠ [].
Proof.
  destruct s as [|c s]; [done|]. cbn [split].
  destruct (Ascii.eqb c sep); [done|]. by destruct (split sep s).
Qed.

Lemma split_plain s : contains "-" s = false → split "-" s = [s].
Proof.
  induction s as [|c s IH]; [done|].
  cbn [contains split]. intros [Hc Hs]%orb_false_iff. rewrite Hc, (IH Hs). done.
Qed.

Lemma split_plain_cons a rest :
  contains "-" a = false → split "-" (a +:+ "-" +:+ rest) = a :: split "-" rest.
Proof.
  induction a as [|c a IH]; [done|].
  cbn [contains]. intros [Hc Ha]%orb_false_iff.
  change (String c a +:+ "-" +:+ rest) with (String c (a +:+ "-" +:+ rest)).
  cbn [split]. rewrite Hc, (IH Ha). done.
Qed.

(** X22.  Key round trip.  For an order whose id, status and payment
    status contain no hyphen, splitting the change key on hyphens gives
    back exactly these three values, and [markAsProcessed] appends one
    ledger entry that carries them with the supplier and the time. *)
Theorem order_key_round_trip (now : timestamp) (order : Order) (fournisseurId : string)
    (w : World) :
  contains "-" (o_id order) = false →
  contains "-" (o_status order) = false →
  contains "-" (o_paymentStatus order) = false →
  split "-" (orderKeyOf order) = [o_id order; o_status order; o_paymentStatus order] ∧
  processedOrderStates (markAsProcessed now (orderKeyOf order) fournisseurId w)
  = processedOrderStates w ++
    [ {| pos_orderId := o_id order; pos_status := o_status order;
         pos_paymentStatus := o_paymentStatus order;
         pos_fournisseurId := fournisseurId; pos_processedAt := now |} ].
Proof.
  intros Hid Hst Hpay.
  assert (Hsplit : split "-" (orderKeyOf order)
                   = [o_id order; o_status order; o_paymentStatus order]).
  { unfold orderKeyOf.
    by rewrite (split_plain_cons _ _ Hid), (split_plain_cons _ _ Hst), (split_plain _ Hpay). }
  split; [done|]. unfold markAsProcessed. by rewrite Hsplit.
Qed.

Lemma split_length sep a b :
  length (split sep (a +:+ String sep b)) = (length (split sep a) + length (split sep b))%nat.
Proof.
  induction a as [|c a IH].
  - change ("" +:+ String sep b) with (String sep b). cbn [split].
    by rewrite Ascii.eqb_refl.
  - change (String c a +:+ String sep b) with (String c (a +:+ String sep b)).
    cbn [split]. destruct (Ascii.eqb c sep); [cbn; by rewrite IH|].
    pose proof (split_nonempty sep a) as Ha.
    pose proof (split_nonempty sep (a +:+ String sep b)) as Hab.
    destruct (split sep a), (split sep (a +:+ String sep b)); done.
Qed.

Lemma split_length_pos sep s : (1 ≤ length (split sep s))%nat.
Proof. pose proof (split_nonempty sep s). destruct (split sep s); [done | cbn; lia]. Qed.

(** Every order key has at least three pieces, so a ledger entry is always
    written. *)
Lemma mark_appends now order fournisseurId w :
  ∃ entry, markAsProcessed now (orderKeyOf order) fournisseurId w
           = addProcessedOrderState entry w ∧
           pos_fournisseurId entry = fournisseurId ∧ pos_processedAt entry = now.
Proof.
  unfold markAsProcessed, orderKeyOf.
  pose proof (split_length "-" (o_id order) (o_status order +:+ "-" +:+ o_paymentStatus order))
    as H1.
  pose proof (split_length "-" (o_status order) (o_paymentStatus order)) as H2.
  change (o_id order +:+ "-" +:+ o_status order +:+ "-" +:+ o_paymentStatus order)
    with (o_id order +:+ String "-" (o_status order +:+ String "-" (o_paymentStatus order))).
  change (o_status order +:+ "-" +:+ o_paymentStatus order)
    with (o_status order +:+ String "-" (o_paymentStatus order)) in H1, H2.
  pose proof (split_length_pos "-" (o_id order)).
  pose proof (split_length_pos "-" (o_status order)).
  pose proof (split_length_pos "-" (o_paymentStatus order)).
  destruct (split "-" _) as [|a [|b [|c l]]]; cbn in *; try lia.
  by eexists.
Qed.

Lemma check_same_id order order' fournisseurId w :
  contains "-" (o_id order) = false →
  o_id order' = o_id order →
  checkIfAlreadyProcessed (orderKeyOf order') fournisseurId w
  = checkIfAlreadyProcessed (orderKeyOf order) fournisseurId w.
Proof.
  intros Hplain Hid. unfold checkIfAlreadyProcessed, orderKeyOf.
  rewrite Hid. by rewrite !split_plain_head.
Qed.

Lemma skip_when_logged now fournisseurId change w :
  checkIfAlreadyProcessed (orderKeyOf (change_doc change)) fournisseurId w = true →
  processChange now fournisseurId change w = w.
Proof. intros Hseen. unfold processChange. by rewrite Hseen. Qed.

(** X19.  Once a change of an order (of the listening supplier, with a
    hyphen-free id, not a removal) has been handled, every later change of
    the same order id is skipped, whatever status or payment status it
    carries: the look-up in the logs goes by the order id alone, so a
    status change that follows is answered by no mail, no log entry, no
    notification and no ledger entry. *)
Theorem later_states_are_skipped (now now' : timestamp) (fournisseurId : string)
    (change later : Change) (w : World) :
  contains "-" (o_id (change_doc change)) = false →
  o_fournisseurId (change_doc change) = fournisseurId →
  change_type change ≠ removed →
  checkIfAlreadyProcessed (orderKeyOf (change_doc change)) fournisseurId w = false →
  o_id (change_doc later) = o_id (change_doc change) →
  processChange now' fournisseurId later (processChange now fournisseurId change w)
  = processChange now fournisseurId change w.
Proof.
  intros Hplain Hf Htype Hnew Hid.
  apply skip_when_logged. rewrite (check_same_id _ _ _ _ Hplain Hid).
  unfold processChange. rewrite Hnew.
  destruct (change_type change); [| |done];
    destruct (SupplierEmailService.sendOrderNotification _ _) as [ok w2];
    unfold checkIfAlreadyProcessed, createInAppNotification;
    cbn [addNotification notificationLogs]; by apply logged_is_processed.
Qed.

(** X20.  A ['removed'] change that is not skipped writes one ledger entry
    and nothing else: no mail, no log entry, no in-app notification.  As
    the look-up reads the logs only, the same change is not recognised
    when it is delivered again. *)
Theorem removed_change_only_marks (now : timestamp) (fournisseurId : string)
    (change : Change) (w : World) :
  change_type change = removed →
  checkIfAlreadyProcessed (orderKeyOf (change_doc change)) fournisseurId w = false →
  let w1 := processChange now fournisseurId change w in
  outbox w1 = outbox w ∧
  notificationLogs w1 = notificationLogs w ∧
  notifications w1 = notifications w ∧
  length (processedOrderStates w1) = S (length (processedOrderStates w)) ∧
  checkIfAlreadyProcessed (orderKeyOf (change_doc change)) fournisseurId w1 = false.
Proof.
  intros Htype Hnew w1. subst w1. unfold processChange. rewrite Hnew, Htype.
  destruct (mark_appends now (change_doc change) fournisseurId w) as (entry & -> & _).
  cbn [addProcessedOrderState outbox notificationLogs notifications processedOrderStates].
  repeat split; try done.
  rewrite length_app. cbn. lia.
Qed.

(** The dispatcher reads the suppliers and users only, so a ledger or log
    entry written before it does not change what it does. *)
Lemma send_after_mark order entry w :
  SupplierEmailService.sendOrderNotification order (addProcessedOrderState entry w)
  = ((SupplierEmailService.sendOrderNotification order w).1,
     addProcessedOrderState entry (SupplierEmailService.sendOrderNotification order w).2).
Proof.
  unfold SupplierEmailService.sendOrderNotification.
  destruct (getMember _ _); [|done..].
  change (getSupplierInfo (o_fournisseurId order) (addProcessedOrderState entry w))
    with (getSupplierInfo (o_fournisseurId order) w).
  by destruct (getSupplierInfo _ _).
Qed.

Lemma send_collections order w :
  let r := SupplierEmailService.sendOrderNotification order w in
  fournisseurs r.2 = fournisseurs w ∧ users r.2 = users w ∧
  notificationLogs r.2 = notificationLogs w ∧
  processedOrderStates r.2 = processedOrderStates w ∧
  notifications r.2 = notifications w ∧
  supplierNotificationLogs r.2 = supplierNotificationLogs w.
Proof.
  unfold SupplierEmailService.sendOrderNotification.
  destruct (getMember _ _); [|done..].
  by destruct (getSupplierInfo _ _).
Qed.


(** X21.  Effects of a handled ['added'] or ['modified'] change: exactly
    one log entry ([new_order] or [status_update], [success] or [failed] as
    the dispatcher answered), exactly one in-app notification, written
    also when the mail was not sent, one ledger entry, and the mails of the
    dispatcher's single call. *)
Theorem processed_change_effects (now : timestamp) (fournisseurId : string)
    (change : Change) (w : World) :
  change_type change ≠ removed →
  checkIfAlreadyProcessed (orderKeyOf (change_doc change)) fournisseurId w = false →
  let order := change_doc change in
  let sent := SupplierEmailService.sendOrderNotification order w in
  let w1 := processChange now fournisseurId change w in
  notificationLogs w1
  = notificationLogs w ++
    [ {| log_orderId := o_id order;
         log_fournisseurId := o_fournisseurId order;
         log_orderStatus := o_status order;
         log_paymentStatus := o_paymentStatus order;
         log_eventType := if isAdded change
                          then new_order else status_update;
         log_notificationStatus := if sent.1 then success else failed;
         log_timestamp := now |} ] ∧
  notifications w1
  = notifications w ++
    [ {| n_title := if isAdded change
                    then "🆕 Nouvelle commande reçue" else "🔄 Commande mise à jour";
         n_orderId := o_id order;
         n_fournisseurId := o_fournisseurId order;
         n_createdAt := now |} ] ∧
  length (processedOrderStates w1) = S (length (processedOrderStates w)) ∧
  outbox w1 = outbox sent.2.
Proof.
  intros Htype Hnew order sent w1. subst w1. unfold processChange. rewrite Hnew.
  destruct (mark_appends now (change_doc change) fournisseurId w) as (entry & -> & _).
  pose proof (send_collections order w) as (_ & _ & Hlogs & Hpos & Hnot & _).
  fold sent in Hlogs, Hpos, Hnot.
  unfold isAdded.
  destruct (change_type change) eqn:Hty; [| |done];
    rewrite send_after_mark; fold order sent;
    cbn [fst snd logNotificationEvent createInAppNotification addNotification
         addNotificationLog addProcessedOrderState notificationLogs notifications
         processedOrderStates outbox];
    rewrite Hlogs, Hpos, Hnot, length_app; cbn [length];
    (repeat split; try done; lia).
Qed.

(** X23.  The throttle is kept per supplier.  A snapshot for one supplier
    leaves the time stamp of every other supplier alone, so a later
    snapshot for another supplier is handled exactly when it would have
    been before; the first snapshot of a supplier is never throttled (for a
    clock of at least two seconds).  [cleanupSupplierData] forgets the
    supplier's own time stamp and nothing else: the next snapshot of that
    supplier is handled however soon it comes. *)
Theorem throttle_is_per_supplier (fournisseurId other : string) (currentTime laterTime : Z)
    (changes laterChanges : list Change) (l : Listener) :
  other ≠ fournisseurId →
  2000 ≤ currentTime →
  let l1 := onSnapshot fournisseurId currentTime changes l in
  let l2 := cleanupSupplierData fournisseurId l in
  lastProcessedTimestamp l1 !! other = lastProcessedTimestamp l !! other ∧
  (2000 ≤ laterTime - default 0 (lastProcessedTimestamp l !! other) →
   lastProcessedTimestamp (onSnapshot other laterTime laterChanges l1) !! other
   = Some laterTime) ∧
  (lastProcessedTimestamp l !! fournisseurId = None →
   lastProcessedTimestamp l1 !! fournisseurId = Some currentTime) ∧
  world l2 = world l ∧
  lastProcessedTimestamp l2 !! other = lastProcessedTimestamp l !! other ∧
  lastProcessedTimestamp (onSnapshot fournisseurId currentTime changes l2) !! fournisseurId
  = Some currentTime.
Proof.
  intros Hne Hnow l1 l2.
  assert (Hother : lastProcessedTimestamp l1 !! other = lastProcessedTimestamp l !! other).
  { subst l1. unfold onSnapshot. destruct (_ <? _); [done|].
    cbn [lastProcessedTimestamp]. by rewrite lookup_insert_ne. }
  assert (Hfirst : ∀ l0, lastProcessedTimestamp l0 !! fournisseurId = None →
            lastProcessedTimestamp (onSnapshot fournisseurId currentTime changes l0)
              !! fournisseurId = Some currentTime).
  { intros l0 Hnone. unfold onSnapshot. rewrite Hnone. cbn [default from_option id].
    destruct (Z.ltb_spec (currentTime - 0) 2000); [lia|].
    cbn [lastProcessedTimestamp]. by rewrite lookup_insert_eq. }
  split; [done|]. split; [|split; [by apply Hfirst|]].
  - intros Hold. unfold onSnapshot at 1. rewrite Hother.
    destruct (Z.ltb_spec (laterTime - default 0 (lastProcessedTimestamp l !! other)) 2000);
      [lia|].
    cbn [lastProcessedTimestamp]. by rewrite lookup_insert_eq.
  - subst l2. unfold cleanupSupplierData at 1 2. cbn [world lastProcessedTimestamp].
    split; [done|]. split; [by rewrite lookup_delete_ne|].
    apply Hfirst. unfold cleanupSupplierData. cbn [lastProcessedTimestamp].
    by rewrite lookup_delete_eq.
Qed.

Lemma global_step (now : timestamp) (change : Change) (w : World) :
  let w1 := processGlobalChange now change w in
  let n := if isAdded change then 1%nat else 0%nat in
  length (notificationLogs w1) = (length (notificationLogs w) + n)%nat ∧
  processedOrderStates w1 = processedOrderStates w ∧
  notifications w1 = notifications w ∧
  (length (outbox w) ≤ length (outbox w1) ≤ length (outbox w) + n)%nat.
Proof.
  cbv zeta. unfold processGlobalChange, isAdded.
  destruct (change_type change); [|repeat split; try done; lia..].
  pose proof (send_collections (change_doc change) w) as (_ & _ & Hlogs & Hpos & Hnot & _).
  pose proof (send_frame (change_doc change) w) as (_ & _ & Hout).
  destruct (SupplierEmailService.sendOrderNotification (change_doc change) w) as [ok w2].
  cbn [fst snd] in *.
  cbn [logNotificationEvent addNotificationLog notificationLogs processedOrderStates
       notifications outbox].
  rewrite length_app, Hlogs, Hpos, Hnot. cbn [length].
  destruct Hout as [->|[mail ->]]; rewrite ?length_app; cbn [length];
    repeat split; try done; lia.
Qed.

(** X24.  Global monitoring writes one log entry per ['added'] change and
    none for the others; it never writes the ledger or an in-app
    notification and hands at most one mail per ['added'] change to the
    relay. *)
Theorem global_monitoring_logs_every_added (now : timestamp) (changes : list Change)
    (w : World) :
  let w1 := onGlobalSnapshot now changes w in
  length (notificationLogs w1)
  = (length (notificationLogs w) + length (List.filter isAdded changes))%nat ∧
  processedOrderStates w1 = processedOrderStates w ∧
  notifications w1 = notifications w ∧
  (length (outbox w) ≤ length (outbox w1)
   ≤ length (outbox w) + length (List.filter isAdded changes))%nat.
Proof.
  cbv zeta. unfold onGlobalSnapshot. revert w.
  induction changes as [|change changes IH]; intros w;
    [cbn; repeat split; try done; lia|].
  cbn [foldl].
  destruct (IH (processGlobalChange now change w)) as (Hl & Hp & Hn & Ho).
  destruct (global_step now change w) as (Hl1 & Hp1 & Hn1 & Ho1).
  rewrite Hl, Hp, Hn, Hl1, Hp1, Hn1. clear IH Hl Hp Hn Hl1 Hp1 Hn1.
  cbn [List.filter]. destruct (isAdded change); cbn [length]; repeat split; try done; lia.
Qed.

Lemma check_ignores_manual now order status orderKey fournisseurId w :
  checkIfAlreadyProcessed orderKey fournisseurId
    (logNotificationEvent now order manual_trigger status w)
  = checkIfAlreadyProcessed orderKey fournisseurId w.
Proof.
  unfold checkIfAlreadyProcessed, logNotificationEvent.
  cbn [addNotificationLog notificationLogs].
  rewrite List.filter_app. cbn [List.filter log_eventType].
  rewrite (bool_decide_eq_false_2 (manual_trigger ∈ [new_order; status_update])).
  - by rewrite andb_false_r, app_nil_r.
  - intros Hin. repeat (apply elem_of_cons in Hin as [Hin|Hin]; [done|]).
    by apply elem_of_nil in Hin.
Qed.

Lemma check_depends_on_logs orderKey fournisseurId w w' :
  notificationLogs w' = notificationLogs w →
  checkIfAlreadyProcessed orderKey fournisseurId w'
  = checkIfAlreadyProcessed orderKey fournisseurId w.
Proof. intros Hlogs. unfold checkIfAlreadyProcessed. by rewrite Hlogs. Qed.

(** X25.  [manuallyTriggerNotification]: for an order id that is not
    stored it answers [false] and does nothing; for a stored one it answers
    what the dispatcher answers and appends one [manual_trigger] log entry.
    Such entries are invisible to [checkIfAlreadyProcessed]: a manual
    trigger never makes the listener skip a change. *)
Theorem manual_trigger_spec (now : timestamp) (orderId : string)
    (subOrderDocs : gmap string Order) (w : World) :
  let r := manuallyTriggerNotification now orderId subOrderDocs w in
  (subOrderDocs !! orderId = None → r = (false, w)) ∧
  (∀ data, subOrderDocs !! orderId = Some data →
     let sent := SupplierEmailService.sendOrderNotification (withDocId orderId data) w in
     r.1 = sent.1 ∧
     outbox r.2 = outbox sent.2 ∧
     notificationLogs r.2
     = notificationLogs w ++
       [ {| log_orderId := orderId;
            log_fournisseurId := o_fournisseurId data;
            log_orderStatus := o_status data;
            log_paymentStatus := o_paymentStatus data;
            log_eventType := manual_trigger;
            log_notificationStatus := if sent.1 then success else failed;
            log_timestamp := now |} ]) ∧
  (∀ orderKey fournisseurId,
     checkIfAlreadyProcessed orderKey fournisseurId r.2
     = checkIfAlreadyProcessed orderKey fournisseurId w).
Proof.
  cbv zeta. unfold manuallyTriggerNotification.
  destruct (subOrderDocs !! orderId) as [data|]; [|done].
  pose proof (send_collections (withDocId orderId data) w) as (_ & _ & Hlogs & _).
  destruct (SupplierEmailService.sendOrderNotification (withDocId orderId data) w)
    as [ok w2] eqn:Hsend.
  cbn [fst snd] in *.
  split; [done|]. split.
  - intros data' [= <-]. rewrite Hsend. cbn [fst snd].
    cbn [logNotificationEvent addNotificationLog notificationLogs outbox].
    by rewrite Hlogs.
  - intros orderKey fournisseurId. rewrite check_ignores_manual.
    by apply check_depends_on_logs.
Qed.

Lemma status_partition (l : list NotificationLogEntry) :
  length l = (length (List.filter isSuccess l) + length (List.filter isFailed l)
              + length (List.filter isErrored l))%nat.
Proof.
  induction l as [|e l IH]; [done|].
  cbn [List.filter length].
  assert (Hcase : (isSuccess e, isFailed e, isErrored e) = (true, false, false)
                  ∨ (isSuccess e, isFailed e, isErrored e) = (false, true, false)
                  ∨ (isSuccess e, isFailed e, isErrored e) = (false, false, true)).
  { unfold isSuccess, isFailed, isErrored. destruct (log_notificationStatus e); auto. }
  destruct Hcase as [[= -> -> ->]|[[= -> -> ->]|[= -> -> ->]]]; cbn [length]; lia.
Qed.

Lemma newest_first_head (l : list NotificationLogEntry) :
  match head (sortNewestFirst l) with
  | None => l = []
  | Some m => m ∈ l ∧ ∀ e, e ∈ l → log_timestamp e ≤ log_timestamp m
  end.
Proof.
  induction l as [|x l IH]; [done|].
  cbn [sortNewestFirst foldr]. fold (sortNewestFirst l).
  destruct (sortNewestFirst l) as [|y r]; cbn [head insertNewestFirst] in *.
  - subst l. split; [left|]. intros e He. apply list_elem_of_singleton in He as ->. lia.
  - destruct IH as [Hy Hmax].
    destruct (Z.leb_spec (log_timestamp y) (log_timestamp x)) as [Hle|Hlt]; cbn [head].
    + split; [left|]. intros e He. apply elem_of_cons in He as [->|He]; [lia|].
      specialize (Hmax e He). lia.
    + split; [by right|]. intros e He. apply elem_of_cons in He as [->|He]; [lia|].
      by apply Hmax.
Qed.

Lemma logsOf_elem f w e :
  e ∈ logsOf f w ↔ e ∈ notificationLogs w ∧ log_fournisseurId e = f.
Proof.
  unfold logsOf. rewrite list_elem_of_In, List.filter_In, <- list_elem_of_In.
  by rewrite String.eqb_eq.
Qed.

(** X26.  [getNotificationStats] counts the supplier's own log entries:
    the total is the successful plus the failed plus the errored ones; the
    last notification is absent exactly when there is none, and otherwise
    is the latest time stamp among the supplier's entries. *)
Theorem notification_stats_spec (fournisseurId : string) (w : World) :
  let stats := getNotificationStats fournisseurId w in
  totalNotificationsSent stats
  = (successfulNotifications stats + failedNotifications stats
     + length (List.filter isErrored (logsOf fournisseurId w)))%nat ∧
  (lastNotificationSent stats = None ↔ totalNotificationsSent stats = 0%nat) ∧
  (∀ t, lastNotificationSent stats = Some t →
     (∃ e, e ∈ notificationLogs w ∧ log_fournisseurId e = fournisseurId ∧ log_timestamp e = t) ∧
     (∀ e, e ∈ notificationLogs w → log_fournisseurId e = fournisseurId →
           log_timestamp e ≤ t)).
Proof.
  cbv zeta. unfold getNotificationStats.
  cbn [totalNotificationsSent successfulNotifications failedNotifications lastNotificationSent].
  fold (logsOf fournisseurId w).
  split; [apply status_partition|].
  pose proof (newest_first_head (logsOf fournisseurId w)) as Hhead.
  destruct (head (sortNewestFirst (logsOf fournisseurId w))) as [m|]; cbn [fmap option_fmap option_map].
  - destruct Hhead as [Hm Hmax]. split.
    + split; [done|]. intros Hlen. apply length_zero_iff_nil in Hlen.
      rewrite Hlen in Hm. by apply elem_of_nil in Hm.
    + intros t [= <-]. split.
      * exists m. apply logsOf_elem in Hm as [Hm Hf]. done.
      * intros e He Hf. apply Hmax. by apply logsOf_elem.
  - rewrite Hhead. split; [done|]. by intros t.
Qed.

End ChangeFeedMore.

(** * More on the dispatchers *)

Section DispatchersMore.
Import Notifications.
Context {strings : JSStrings} {relay : MailRelay}.

Lemma filter_head_elem {A} (P : A → bool) (l : list A) :
  match List.filter P l with
  | [] => ∀ x, x ∈ l → P x = false
  | y :: _ => y ∈ l ∧ P y = true
  end.
Proof.
  destruct (List.filter P l) as [|y r] eqn:Hfilter.
  - intros x Hx. destruct (P x) eqn:HP; [|done].
    assert (Hin : List.In x (List.filter P l)) by (apply List.filter_In; by rewrite <- list_elem_of_In).
    by rewrite Hfilter in Hin.
  - assert (Hin : List.In y (List.filter P l)) by (rewrite Hfilter; by left).
    apply List.filter_In in Hin as [Hin HP]. by rewrite list_elem_of_In.
Qed.

(** X30.  [getSupplierInfo] resolves a supplier exactly when its document
    exists and some user carries the [uid] of its owner.  The contact it
    answers has the e-mail address of such a user, and its name, business
    name and address are never empty: a missing one is replaced by its
    placeholder. *)
Theorem getSupplierInfo_spec (fournisseurId : string) (w : World) :
  (is_Some (getSupplierInfo fournisseurId w) ↔
   ∃ supplierData key userData,
     fournisseurs w !! fournisseurId = Some supplierData ∧
     users w !! key = Some userData ∧ u_uid userData = f_ownerId supplierData) ∧
  (∀ info, getSupplierInfo fournisseurId w = Some info →
     si_name info ≠ "" ∧ si_businessName info ≠ "" ∧ si_address info ≠ "" ∧
     ∃ supplierData key userData,
       fournisseurs w !! fournisseurId = Some supplierData ∧
       users w !! key = Some userData ∧ u_uid userData = f_ownerId supplierData ∧
       si_email info = u_email userData).
Proof.
  unfold getSupplierInfo.
  destruct (fournisseurs w !! fournisseurId) as [supplierData|]; cycle 1.
  { split; [|done]. split; [by intros []|]. by intros (? & ? & ? & ? & _). }
  pose proof (filter_head_elem
                (λ e : string * UserDoc, String.eqb (u_uid e.2) (f_ownerId supplierData))
                (map_to_list (users w))) as Hhead.
  destruct (List.filter _ _) as [|[key userData] rest].
  - split; [|done]. split; [by intros []|].
    intros (s & key & userData & [= <-] & Huser & Huid).
    apply elem_of_map_to_list in Huser. apply Hhead in Huser. cbn in Huser.
    by apply String.eqb_neq in Huser.
  - destruct Hhead as [Huser Huid]. apply elem_of_map_to_list in Huser.
    cbn in Huid. apply String.eqb_eq in Huid.
    split.
    + split; [|done]. intros _. by exists supplierData, key, userData.
    + intros info [= <-]. cbn [si_name si_businessName si_address si_email].
      unfold nonEmpty.
      split; [|split; [|split]].
      * destruct (String.eqb_spec (u_fullName userData) ""); cbn [negb]; done.
      * destruct (String.eqb_spec (f_name supplierData) ""); cbn [negb]; done.
      * destruct (String.eqb_spec (f_address supplierData) ""); cbn [negb]; done.
      * by exists supplierData, key, userData.
Qed.

Lemma template_for_enumerated status :
  status ∈ enumeratedStatuses ↔
  ∃ template, getMember SupplierEmailService.ORDER_STATUS_TEMPLATES status = Own template.
Proof.
  split.
  - intros Hin. unfold enumeratedStatuses in Hin.
    repeat (apply elem_of_cons in Hin as [->|Hin]; [by eexists|]).
    by apply elem_of_nil in Hin.
  - intros [template Hown]. unfold getMember in Hown.
    destruct (ownMember _ _) as [t|] eqn:Hmember; [|by destruct (bool_decide _)].
    clear Hown. unfold SupplierEmailService.ORDER_STATUS_TEMPLATES in Hmember.
    cbn [ownMember] in Hmember. unfold enumeratedStatuses.
    repeat (match type of Hmember with
            | context [String.eqb ?k status] =>
                destruct (String.eqb_spec k status) as [<-|_];
                [repeat ((by left) || right) |]
            end).
    done.
Qed.

(** X27.  [SupplierEmailService.sendOrderNotification] answers [true] only
    for one of the six enumerated statuses and a supplier that resolves,
    and then it has handed exactly one mail, addressed to the owner's
    e-mail address, to a relay that accepted it.  For an enumerated status
    and a resolved supplier it posts that one mail and answers what the
    relay answers; for a supplier that does not resolve it answers [false]
    and does nothing. *)
Theorem template_dispatch_spec (order : Order) (w : World) :
  let r := SupplierEmailService.sendOrderNotification order w in
  (r.1 = true →
     o_status order ∈ enumeratedStatuses ∧
     ∃ info template,
       getSupplierInfo (o_fournisseurId order) w = Some info ∧
       r.2 = postMail (TemplateMail (si_email info) (si_name info) template order) w ∧
       relayAccepts (TemplateMail (si_email info) (si_name info) template order) = true) ∧
  (∀ info, o_status order ∈ enumeratedStatuses →
     getSupplierInfo (o_fournisseurId order) w = Some info →
     ∃ template,
       r = (relayAccepts (TemplateMail (si_email info) (si_name info) template order),
            postMail (TemplateMail (si_email info) (si_name info) template order) w)) ∧
  (getSupplierInfo (o_fournisseurId order) w = None → r = (false, w)).
Proof.
  cbv zeta. unfold SupplierEmailService.sendOrderNotification.
  pose proof (template_for_enumerated (o_status order)) as Henum.
  destruct (getMember _ _) as [template| |] eqn:Hmember.
  - destruct (getSupplierInfo _ _) as [info|] eqn:Hinfo; cbn [fst snd].
    + split; [|split; [|done]].
      * intros Hok. split; [apply Henum; by eexists|]. by exists info, template.
      * intros info' _ [= <-]. by exists template.
    + split; [done|]. split; [|done]. by intros info' _ ?.
  - cbn [fst snd]. split; [done|]. split; [|done].
    intros info [t Ht]%Henum. done.
  - cbn [fst snd]. split; [done|]. split; [|done].
    intros info [t Ht]%Henum. done.
Qed.

Lemma send_reads_directory order w w' :
  fournisseurs w' = fournisseurs w → users w' = users w →
  (SupplierEmailService.sendOrderNotification order w').1
  = (SupplierEmailService.sendOrderNotification order w).1.
Proof.
  intros Hf Hu. unfold SupplierEmailService.sendOrderNotification, getSupplierInfo.
  rewrite Hf, Hu. destruct (getMember _ _); [|done..].
  destruct (fournisseurs w !! _); [|done].
  by destruct (List.filter _ _) as [|[] ?].
Qed.

Lemma send_directory order w :
  fournisseurs (SupplierEmailService.sendOrderNotification order w).2 = fournisseurs w ∧
  users (SupplierEmailService.sendOrderNotification order w).2 = users w.
Proof.
  unfold SupplierEmailService.sendOrderNotification.
  destruct (getMember _ _); [|done..]. by destruct (getSupplierInfo _ _).
Qed.

Lemma bulk_fold (orders : list Order) (w w0 : World) (acc : list bool) :
  fournisseurs w0 = fournisseurs w → users w0 = users w →
  ∃ w', foldl (λ '(acc, w0) order,
                 let '(ok, w1) := SupplierEmailService.sendOrderNotification order w0 in
                 (acc ++ [ok], w1))
              (acc, w0) orders
        = (acc ++ map (λ order, (SupplierEmailService.sendOrderNotification order w).1) orders,
           w') ∧
        notificationLogs w' = notificationLogs w0 ∧
        processedOrderStates w' = processedOrderStates w0 ∧
        notifications w' = notifications w0 ∧
        supplierNotificationLogs w' = supplierNotificationLogs w0 ∧
        (length (outbox w') ≤ length (outbox w0) + length orders)%nat.
Proof.
  revert w0 acc. induction orders as [|order orders IH]; intros w0 acc Hf Hu.
  - exists w0. cbn [foldl map length]. rewrite app_nil_r. repeat split; try done; lia.
  - cbn [foldl map].
    pose proof (send_reads_directory order w w0 Hf Hu) as Hok.
    pose proof (send_directory order w0) as [Hf1 Hu1].
    pose proof (send_collections order w0) as (_ & _ & Hl & Hp & Hn & Hs).
    pose proof (send_frame order w0) as (_ & _ & Hout).
    destruct (SupplierEmailService.sendOrderNotification order w0) as [ok w1].
    cbn [fst snd] in *. subst ok.
    destruct (IH w1 (acc ++ [(SupplierEmailService.sendOrderNotification order w).1]))
      as (w' & Hfold & Hl' & Hp' & Hn' & Hs' & Hout'); [congruence..|].
    exists w'. rewrite Hfold, <- app_assoc. cbn [app length].
    rewrite Hl', Hp', Hn', Hs'. repeat split; try done.
    destruct Hout as [Ho|[mail Ho]]; rewrite Ho, ?length_app in Hout'; cbn [length] in Hout'; lia.
Qed.

(** X28.  [sendBulkOrderNotifications] answers one boolean per order, in
    the order of the orders: what [sendOrderNotification] answers for that
    order on its own.  [successful] counts the [true] answers, [successful]
    and [failed] add up to the number of orders, no log or in-app
    notification is written and at most one mail per order is posted. *)
Theorem bulk_notification_counts (orders : list Order) (w : World) :
  let r := SupplierEmailService.sendBulkOrderNotifications orders w in
  SupplierEmailService.results r.1
  = map (λ order, (SupplierEmailService.sendOrderNotification order w).1) orders ∧
  (SupplierEmailService.successful r.1 + SupplierEmailService.failed r.1)%nat = length orders ∧
  SupplierEmailService.successful r.1
  = length (List.filter (λ order, (SupplierEmailService.sendOrderNotification order w).1) orders) ∧
  notificationLogs r.2 = notificationLogs w ∧
  notifications r.2 = notifications w ∧
  (length (outbox r.2) ≤ length (outbox w) + length orders)%nat.
Proof.
  cbv zeta. unfold SupplierEmailService.sendBulkOrderNotifications.
  destruct (bulk_fold orders w w [] eq_refl eq_refl) as (w' & -> & Hl & _ & Hn & _ & Hout).
  cbn [app fst snd SupplierEmailService.results SupplierEmailService.successful
       SupplierEmailService.failed].
  set (answer := λ order, (SupplierEmailService.sendOrderNotification order w).1).
  assert (Hcount : length (List.filter (λ b : bool, b) (map answer orders))
                   = length (List.filter answer orders)).
  { clear. induction orders as [|o orders IH]; [done|].
    cbn [map List.filter]. destruct (answer o); cbn [length]; by rewrite IH. }
  assert (Hle : (length (List.filter answer orders) ≤ length orders)%nat).
  { clear. induction orders as [|o orders IH]; [done|].
    cbn [List.filter]. destruct (answer o); cbn [length]; lia. }
  rewrite Hcount, length_map. repeat split; try done. lia.
Qed.

Lemma orDefault_string (table : list (string * string)) (key fallback : string) :
  key ∉ objectPrototypeKeys → is_Some (orDefault (getMember table key) fallback).
Proof.
  intros Hkey. unfold getMember. destruct (ownMember table key); [done|].
  by rewrite bool_decide_eq_false_2.
Qed.

Lemma subject_is_string (order : Order) (orderNumber : string) :
  o_status order ∉ objectPrototypeKeys →
  is_Some (SupplierNotificationService.generateEmailSubject order orderNumber).
Proof.
  intros Hkey. unfold SupplierNotificationService.generateEmailSubject.
  destruct (orDefault_string
              [ ("pending", "🆕"); ("confirmed", "✅"); ("preparing", "👨‍🍳");
                ("out_for_delivery", "🚚"); ("delivered", "🎉"); ("cancelled", "❌") ]
              (o_status order) "📋" Hkey) as [emoji Hemoji].
  unfold SupplierNotificationService.getStatusEmoji. rewrite Hemoji.
  by apply orDefault_string.
Qed.

(** X29.  Effects of [SupplierNotificationService.sendOrderNotification],
    for a status that is not the name of a member of [Object.prototype].
    It never writes the logs or the ledger the change-feed listener uses.
    For a supplier that does not resolve it answers [false] and does
    nothing.  Otherwise it posts exactly one mail, answers what the relay
    answers, appends one entry to ['supplierNotificationLogs'] ([success] or
    [failed] accordingly), and creates an in-app notification only when the
    relay accepted the mail. *)
Theorem supplier_notification_effects (now : timestamp) (order : Order) (w : World) :
  o_status order ∉ objectPrototypeKeys →
  let r := SupplierNotificationService.sendOrderNotification now order w in
  notificationLogs r.2 = notificationLogs w ∧
  processedOrderStates r.2 = processedOrderStates w ∧
  (getSupplierInfo (o_fournisseurId order) w = None → r = (false, w)) ∧
  (∀ info, getSupplierInfo (o_fournisseurId order) w = Some info →
     ∃ subject,
       let mail := SupplierMail (si_email info) (si_name info) (Some subject) order in
       r.1 = relayAccepts mail ∧
       outbox r.2 = outbox w ++ [mail] ∧
       supplierNotificationLogs r.2
       = supplierNotificationLogs w ++
         [ {| sl_orderId := o_id order;
              sl_fournisseurId := o_fournisseurId order;
              sl_supplierEmail := if nonEmpty (si_email info) then si_email info else "unknown";
              sl_notificationStatus := if r.1 then success else failed;
              sl_timestamp := now |} ] ∧
       length (notifications r.2)
       = (length (notifications w) + if r.1 then 1 else 0)%nat).
Proof.
  intros Hkey. cbv zeta.
  unfold SupplierNotificationService.sendOrderNotification.
  destruct (getSupplierInfo _ _) as [info|]; [|done].
  destruct (subject_is_string order (orderNumberOf order) Hkey) as [subject ->].
  unfold SupplierNotificationService.logNotificationEvent,
         SupplierNotificationService.createInAppNotification.
  destruct (orDefault_string
              [ ("pending", "PRIORITÉ MAXIMALE"); ("confirmed", "PRIORITÉ ÉLEVÉE");
                ("preparing", "PRIORITÉ NORMALE"); ("out_for_delivery", "PRIORITÉ NORMALE");
                ("delivered", "PRIORITÉ BASSE"); ("cancelled", "PRIORITÉ MAXIMALE") ]
              (o_status order) "PRIORITÉ NORMALE" Hkey) as [level Hlevel].
  destruct (orDefault_string
              [ ("pending", "🆕 Nouvelle commande reçue"); ("confirmed", "✅ Commande confirmée");
                ("preparing", "👨‍🍳 Préparation en cours");
                ("out_for_delivery", "🚚 En cours de livraison");
                ("delivered", "🎉 Commande livrée"); ("cancelled", "❌ Commande annulée") ]
              (o_status order) "📋 Mise à jour commande" Hkey) as [title Htitle].
  unfold SupplierNotificationService.getPriorityLevel,
         SupplierNotificationService.getInAppNotificationTitle.
  rewrite Hlevel, Htitle.
  destruct (relayAccepts _) eqn:Hrelay; cbn [fst snd].
  - split; [done|]. split; [done|]. split; [done|].
    intros info' [= <-]. exists subject. cbv zeta. rewrite Hrelay.
    cbn [addSupplierLog addNotification postMail outbox supplierNotificationLogs notifications].
    rewrite length_app. cbn [length]. done.
  - split; [done|]. split; [done|]. split; [done|].
    intros info' [= <-]. exists subject. cbv zeta. rewrite Hrelay.
    cbn [addSupplierLog addNotification postMail outbox supplierNotificationLogs notifications].
    split; [done|]. split; [done|]. split; [done|]. lia.
Qed.

End DispatchersMore.

(** * Worked examples of the further properties *)

(** Two lines for product A, which holds 10: the stock ends at 10 - 2, the
    quantity of the last line, not at 10 - 7. *)
Lemma batch_last_line_wins_witness :
  ProductService.currentStockOf (runtime := decimalStringToNumber) <$>
    ((ProductService.decrementMultipleProductsStock (runtime := decimalStringToNumber) 1000
        [ {| ProductService.productId := "A"; ProductService.quantity := 5 |};
          {| ProductService.productId := "A"; ProductService.quantity := 2 |} ]
        exampleProducts).2 !! "A")
  = Some 8.
Proof.
  rewrite (batch_last_line_wins (runtime := decimalStringToNumber) 1000
             [ {| ProductService.productId := "A"; ProductService.quantity := 5 |};
               {| ProductService.productId := "A"; ProductService.quantity := 2 |} ]
             exampleProducts "A").
  - vm_compute. reflexivity.
  - repeat constructor.
Defined.

(** The batch [A: 5, B: 3] on the example collection: B ends at 0. *)
Lemma batch_applies_every_line_witness :
  ∃ data, exampleProducts !! "B" = Some data ∧
    3 ≤ ProductService.currentStockOf (runtime := decimalStringToNumber) data ∧
    ProductService.currentStockOf (runtime := decimalStringToNumber) <$>
      ((ProductService.decrementMultipleProductsStock (runtime := decimalStringToNumber) 1000
          [ {| ProductService.productId := "A"; ProductService.quantity := 5 |};
            {| ProductService.productId := "B"; ProductService.quantity := 3 |} ]
          exampleProducts).2 !! "B")
    = Some (ProductService.currentStockOf (runtime := decimalStringToNumber) data - 3).
Proof.
  apply (batch_applies_every_line (runtime := decimalStringToNumber) 1000
           [ {| ProductService.productId := "A"; ProductService.quantity := 5 |};
             {| ProductService.productId := "B"; ProductService.quantity := 3 |} ]
           exampleProducts
           {| ProductService.productId := "B"; ProductService.quantity := 3 |}).
  - apply NoDup_cons. split; [|apply NoDup_singleton].
    intros Hin. apply list_elem_of_singleton in Hin. discriminate.
  - repeat constructor.
  - apply list_elem_of_In. simpl. auto.
Defined.

Lemma exampleStore_subOrders (i : string) (so : MasterOrderService.SubOrder) :
  MasterOrderService.subOrders exampleStore !! i = Some so →
  (i = "S1" ∧ so = exampleSubOrder "X" [exampleItem "A" 5; exampleItem "B" 20] 2000 "pending" 10)
  ∨ (i = "S2" ∧ so = exampleSubOrder "Y" [exampleItem "A" 1] 1500 "pending" 20).
Proof.
  unfold exampleStore. cbn [MasterOrderService.subOrders].
  rewrite lookup_insert. case_decide as H1; [intros [= <-]; by left|].
  rewrite lookup_insert. case_decide as H2; [intros [= <-]; by right|].
  by rewrite lookup_empty.
Qed.

(** Both sub-orders are confirmed and paid while M is still pending: the
    sync at 3000 ms makes M confirmed and paid and stamps [confirmedAt]. *)
Lemma sync_adopts_unanimous_status_witness :
  let σ := MasterOrderService.setSubOrders exampleStore
             (<["S1" := MasterOrderService.applySubOrderUpdate 1000 "confirmed" (Some "paid")
                          (exampleSubOrder "X" [exampleItem "A" 5; exampleItem "B" 20]
                             2000 "pending" 10)]>
                (<["S2" := MasterOrderService.applySubOrderUpdate 2000 "confirmed" (Some "paid")
                             (exampleSubOrder "Y" [exampleItem "A" 1] 1500 "pending" 20)]> ∅)) in
  let r := MasterOrderService.syncMasterOrderStatus (strings := asciiStrings)
             (backend := exampleBackend) 3000 "M" σ in
  MasterOrderService.mo_status <$> (MasterOrderService.masterOrders σ !! "M") = Some "pending" ∧
  outcomeOf r = MasterOrderService.Returned ∧
  ∃ mo', MasterOrderService.masterOrders (storeOf r) !! "M" = Some mo' ∧
    MasterOrderService.mo_status mo' = "confirmed" ∧
    MasterOrderService.mo_updatedAt mo' = 3000 ∧
    MasterOrderService.mo_confirmedAt mo' = Some 3000 ∧
    MasterOrderService.mo_deliveredAt mo' = None ∧
    MasterOrderService.mo_paymentStatus mo' = "paid".
Proof.
  intros σ r.
  assert (Hsubs : ∀ i so, MasterOrderService.subOrders σ !! i = Some so →
            MasterOrderService.so_status so = "confirmed" ∧
            MasterOrderService.so_paymentStatus so = "paid").
  { intros i so. unfold σ. cbn [MasterOrderService.setSubOrders MasterOrderService.subOrders].
    rewrite lookup_insert. case_decide; [by intros [= <-]|].
    rewrite lookup_insert. case_decide; [by intros [= <-]|].
    by rewrite lookup_empty. }
  split; [vm_compute; reflexivity|].
  destruct (sync_adopts_unanimous_status (strings := asciiStrings) (backend := exampleBackend)
              3000 "M" "confirmed" σ exampleMasterOrder)
    as (Hret & mo' & Hmo & Hs & Hu & Hc & Hd & Hp & _).
  - vm_compute. reflexivity.
  - exists "S1", (MasterOrderService.applySubOrderUpdate 1000 "confirmed" (Some "paid")
                    (exampleSubOrder "X" [exampleItem "A" 5; exampleItem "B" 20]
                       2000 "pending" 10)).
    split; vm_compute; reflexivity.
  - intros i so Hso _. by destruct (Hsubs i so Hso).
  - split; [exact Hret|]. exists mo'.
    split; [exact Hmo|]. split; [exact Hs|]. split; [exact Hu|].
    split; [exact Hc|]. split; [exact Hd|].
    apply Hp. intros i so Hso _. by destruct (Hsubs i so Hso).
Defined.

(** S1 is confirmed at 1000 ms with payment status [paid]. *)
Lemma update_writes_subOrder_witness :
  let r := MasterOrderService.updateSubOrderStatus

                 (runtime := decimalStringToNumber) (strings := asciiStrings)
                 (backend := exampleBackend)
             1000 "S1" "confirmed" (Some "paid") exampleStore in
  MasterOrderService.subOrders (storeOf r) !! "S2"
  = MasterOrderService.subOrders exampleStore !! "S2" ∧
  ∃ written, MasterOrderService.subOrders (storeOf r) !! "S1" = Some written ∧
    MasterOrderService.so_status written = "confirmed" ∧
    MasterOrderService.so_confirmedAt written = Some 1000 ∧
    MasterOrderService.so_paymentStatus written = "paid".
Proof.
  intros r.
  destruct (update_writes_subOrder
      (runtime := decimalStringToNumber) (strings := asciiStrings)
      (backend := exampleBackend)
              1000 "S1" "confirmed" (Some "paid") exampleStore
              (exampleSubOrder "X" [exampleItem "A" 5; exampleItem "B" 20] 2000 "pending" 10))
    as (Hother & written & Hw & Hs & _ & _ & _ & _ & Hc & _ & Hp).
  - vm_compute. reflexivity.
  - split; [by apply Hother|]. exists written. done.
Defined.

(** The example store without its master order: confirming S2 leaves the
    statuses [pending; confirmed] but the payment statuses agree, so the
    sync looks for M, and the call raises with S2 confirmed all the same. *)
Lemma update_persists_when_raising_witness :
  let σ := MasterOrderService.setMasterOrders exampleStore ∅ in
  let r := MasterOrderService.updateSubOrderStatus

                 (runtime := decimalStringToNumber) (strings := asciiStrings)
                 (backend := exampleBackend)
             1000 "S2" "confirmed" None σ in
  outcomeOf r = MasterOrderService.Thrown "Failed to update order status" ∧
  MasterOrderService.so_status <$> (MasterOrderService.subOrders (storeOf r) !! "S2")
  = Some "confirmed".
Proof.
  intros σ r.
  destruct (update_persists_when_raising (runtime := decimalStringToNumber)
              (strings := asciiStrings) (backend := exampleBackend) 1000 "S2" "confirmed" None σ
              (exampleSubOrder "Y" [exampleItem "A" 1] 1500 "pending" 20))
    as (_ & _ & _ & Hstatus & _).
  - vm_compute. reflexivity.
  - split; [vm_compute; reflexivity | exact Hstatus].
Defined.

(** Confirming the pending S1 with payment status [paid]: one order
    notification and one payment notification for supplier X. *)
Lemma update_notifications_witness :
  let evs := eventsOf (MasterOrderService.updateSubOrderStatus

                             (runtime := decimalStringToNumber) (strings := asciiStrings)
                             (backend := exampleBackend)
                         1000 "S1" "confirmed" (Some "paid") exampleStore) in
  List.filter isOrderNotification evs
  = [MasterOrderService.OrderNotification "X" "Supplier" (Some "order_confirmed")] ∧
  List.filter isPaymentNotification evs
  = [MasterOrderService.PaymentNotification "X" "Supplier" (Some "payment_received")].
Proof.
  intros evs.
  destruct (update_notifications
      (runtime := decimalStringToNumber) (strings := asciiStrings)
      (backend := exampleBackend)
              1000 "S1" "confirmed" (Some "paid") exampleStore
              (exampleSubOrder "X" [exampleItem "A" 5; exampleItem "B" 20] 2000 "pending" 10))
    as [Horder Hpayment].
  - vm_compute. reflexivity.
  - subst evs. rewrite Horder, Hpayment. split; vm_compute; reflexivity.
Defined.

(** S2 orders one piece of A, which holds 10: sent out for delivery, A
    holds 9 and B still 3. *)
Lemma out_for_delivery_decrements_every_item_witness :
  let r := MasterOrderService.updateSubOrderStatus

                 (runtime := decimalStringToNumber) (strings := asciiStrings)
                 (backend := exampleBackend)
             1000 "S2" "out_for_delivery" None exampleStore in
  (∃ data, MasterOrderService.products exampleStore !! "A" = Some data ∧
     ProductService.currentStockOf (runtime := decimalStringToNumber) <$>
       (MasterOrderService.products (storeOf r) !! "A")
     = Some (ProductService.currentStockOf (runtime := decimalStringToNumber) data - 1)) ∧
  MasterOrderService.products (storeOf r) !! "B"
  = MasterOrderService.products exampleStore !! "B".
Proof.
  intros r.
  destruct (out_for_delivery_decrements_every_item (runtime := decimalStringToNumber)
              (strings := asciiStrings) (backend := exampleBackend) 1000 "S2" None exampleStore
              (exampleSubOrder "Y" [exampleItem "A" 1] 1500 "pending" 20))
    as [Hitems Hothers].
  - vm_compute. reflexivity.
  - vm_compute. discriminate.
  - apply NoDup_singleton.
  - intros item Hin. apply list_elem_of_singleton in Hin as ->.
    exists (exampleProduct 10). split; [vm_compute; reflexivity | vm_compute; discriminate].
  - split.
    + apply (Hitems (exampleItem "A" 1)). apply list_elem_of_singleton. reflexivity.
    + apply Hothers. intros Hin. apply list_elem_of_singleton in Hin. discriminate.
Defined.

(** S2 goes out for delivery, back to preparing and out for delivery again:
    the decrement is invoked at the first and at the third update. *)
Lemma reentering_out_for_delivery_decrements_again_witness :
  let r1 := MasterOrderService.updateSubOrderStatus

                  (runtime := decimalStringToNumber) (strings := asciiStrings)
                  (backend := exampleBackend)
              1000 "S2" "out_for_delivery" None exampleStore in
  let r2 := MasterOrderService.updateSubOrderStatus

                  (runtime := decimalStringToNumber) (strings := asciiStrings)
                  (backend := exampleBackend)
              2000 "S2" "preparing" None (storeOf r1) in
  let r3 := MasterOrderService.updateSubOrderStatus

                  (runtime := decimalStringToNumber) (strings := asciiStrings)
                  (backend := exampleBackend)
              3000 "S2" "out_for_delivery" None (storeOf r2) in
  stockDecrementCalls (eventsOf r1) = 1%nat ∧
  stockDecrementCalls (eventsOf r2) = 0%nat ∧
  stockDecrementCalls (eventsOf r3) = 1%nat.
Proof.
  apply (reentering_out_for_delivery_decrements_again (runtime := decimalStringToNumber)

               (strings := asciiStrings) (backend := exampleBackend) 1000 2000 3000 "S2" "preparing" None None None
           exampleStore (exampleSubOrder "Y" [exampleItem "A" 1] 1500 "pending" 20)).
  - vm_compute. reflexivity.
  - vm_compute. discriminate.
  - discriminate.
Defined.

(** The key of the example order splits into its id, status and payment
    status. *)
Lemma order_key_round_trip_witness :
  split "-" (OrderNotificationTrigger.orderKeyOf (exampleOrder "abcXYZ0123456789" "confirmed"))
  = ["abcXYZ0123456789"; "confirmed"; "pending"].
Proof.
  exact (proj1 (order_key_round_trip 1000 (exampleOrder "abcXYZ0123456789" "confirmed") "X"
                  exampleWorld eq_refl eq_refl eq_refl)).
Defined.

(** The example order is confirmed, then prepared: the second change, ten
    seconds later, is skipped, and one mail in all has been posted. *)
Lemma later_states_are_skipped_witness :
  let first := OrderNotificationTrigger.processChange (relay := acceptingRelay) 10000 "X"
                 (modifiedChange (exampleOrder "abcXYZ0123456789" "confirmed")) exampleWorld in
  OrderNotificationTrigger.processChange (relay := acceptingRelay) 20000 "X"
    (modifiedChange (exampleOrder "abcXYZ0123456789" "preparing")) first
  = first ∧
  length (Notifications.outbox first) = 1%nat.
Proof.
  intros first. split; [|vm_compute; reflexivity].
  apply (later_states_are_skipped (relay := acceptingRelay) 10000 20000 "X"
           (modifiedChange (exampleOrder "abcXYZ0123456789" "confirmed"))
           (modifiedChange (exampleOrder "abcXYZ0123456789" "preparing")) exampleWorld).
  - reflexivity.
  - reflexivity.
  - discriminate.
  - vm_compute. reflexivity.
  - reflexivity.
Defined.

(** The example order is removed: one ledger entry, no mail, no log entry. *)
Lemma removed_change_only_marks_witness :
  let w1 := OrderNotificationTrigger.processChange (relay := acceptingRelay) 10000 "X"
              {| OrderNotificationTrigger.change_type := OrderNotificationTrigger.removed;
                 OrderNotificationTrigger.change_doc :=
                   exampleOrder "abcXYZ0123456789" "cancelled" |} exampleWorld in
  Notifications.outbox w1 = [] ∧
  Notifications.notificationLogs w1 = [] ∧
  Notifications.notifications w1 = [] ∧
  length (Notifications.processedOrderStates w1) = 1%nat ∧
  OrderNotificationTrigger.checkIfAlreadyProcessed
    (OrderNotificationTrigger.orderKeyOf (exampleOrder "abcXYZ0123456789" "cancelled")) "X" w1
  = false.
Proof.
  apply (removed_change_only_marks (relay := acceptingRelay) 10000 "X"
           {| OrderNotificationTrigger.change_type := OrderNotificationTrigger.removed;
              OrderNotificationTrigger.change_doc :=
                exampleOrder "abcXYZ0123456789" "cancelled" |} exampleWorld).
  - reflexivity.
  - vm_compute. reflexivity.
Defined.

(** With a relay that refuses every request, a confirmed order still gets
    its in-app notification; the log entry says [failed]. *)
Lemma processed_change_effects_witness :
  let w1 := OrderNotificationTrigger.processChange (relay := refusingRelay) 10000 "X"
              (modifiedChange (exampleOrder "abcXYZ0123456789" "confirmed")) exampleWorld in
  Notifications.log_notificationStatus <$> Notifications.notificationLogs w1
  = [Notifications.failed] ∧
  Notifications.n_title <$> Notifications.notifications w1 = ["🔄 Commande mise à jour"] ∧
  length (Notifications.outbox w1) = 1%nat.
Proof.
  intros w1.
  destruct (processed_change_effects (relay := refusingRelay) 10000 "X"
              (modifiedChange (exampleOrder "abcXYZ0123456789" "confirmed")) exampleWorld)
    as (Hlogs & Hnotifications & _ & Houtbox).
  - discriminate.
  - vm_compute. reflexivity.
  - subst w1. rewrite Hlogs, Hnotifications, Houtbox.
    repeat split; vm_compute; reflexivity.
Defined.

(** Supplier X is handled at 10 s; a snapshot for supplier Y half a second
    later is handled too, and after the clean-up so is the next one for X. *)
Lemma throttle_is_per_supplier_witness :
  let l1 := OrderNotificationTrigger.onSnapshot (relay := acceptingRelay) "X" 10000
              [modifiedChange (exampleOrder "abcXYZ0123456789" "confirmed")] exampleListener in
  OrderNotificationTrigger.lastProcessedTimestamp
    (OrderNotificationTrigger.onSnapshot (relay := acceptingRelay) "Y" 10500 [] l1) !! "Y"
  = Some 10500 ∧
  OrderNotificationTrigger.lastProcessedTimestamp
    (OrderNotificationTrigger.onSnapshot (relay := acceptingRelay) "X" 10000
       [modifiedChange (exampleOrder "abcXYZ0123456789" "confirmed")]
       (OrderNotificationTrigger.cleanupSupplierData "X" exampleListener)) !! "X"
  = Some 10000.
Proof.
  intros l1.
  destruct (throttle_is_per_supplier (relay := acceptingRelay) "X" "Y" 10000 10500
              [modifiedChange (exampleOrder "abcXYZ0123456789" "confirmed")] []
              exampleListener)
    as (_ & Hlater & _ & _ & _ & Hclean).
  - discriminate.
  - lia.
  - split; [apply Hlater; vm_compute; discriminate | exact Hclean].
Defined.

(** The example order, confirmed, through the supplier notification
    service with an accepting relay: one mail, one entry in the supplier
    log, one in-app notification, and the listener's logs untouched. *)
Lemma supplier_notification_effects_witness :
  let r := SupplierNotificationService.sendOrderNotification (strings := asciiStrings)
    (relay := acceptingRelay) 1000
             (exampleOrder "abcXYZ0123456789" "confirmed") exampleWorld in
  r.1 = true ∧
  Notifications.notificationLogs r.2 = [] ∧
  length (Notifications.outbox r.2) = 1%nat ∧
  Notifications.sl_notificationStatus <$> Notifications.supplierNotificationLogs r.2
  = [Notifications.success] ∧
  length (Notifications.notifications r.2) = 1%nat.
Proof.
  intros r.
  destruct (supplier_notification_effects (strings := asciiStrings) (relay := acceptingRelay) 1000
              (exampleOrder "abcXYZ0123456789" "confirmed") exampleWorld)
    as (Hlogs & _ & _ & Hsome).
  - intros Hin. unfold objectPrototypeKeys in Hin.
    repeat (apply elem_of_cons in Hin as [Hin|Hin]; [discriminate|]).
    by apply elem_of_nil in Hin.
  - destruct (Hsome {| Notifications.si_email := "x@example.com";
                       Notifications.si_name := "Xavier";
                       Notifications.si_businessName := "Epicerie";
                       Notifications.si_address := "Tunis" |})
      as (subject & Hanswer & Houtbox & Hsupplier & Hnotifications).
    + vm_compute. reflexivity.
    + fold r in Hlogs, Hanswer, Houtbox, Hsupplier, Hnotifications.
      assert (Htrue : r.1 = true) by (rewrite Hanswer; reflexivity).
      rewrite Hlogs, Houtbox, Hsupplier, Hnotifications, Htrue.
      repeat split; reflexivity.
Defined.
